(** * Scholarship intake server: submission, payment initiation, reconciliation

    A shallow embedding of the Express server of the repository (the
    second document of [src/scripts/seedDatabase.js]) and of the form
    check of the browser client ([src/script.js]).

    - What JSON carries in a field is a value of [JS.value]:
      [undefined] for a missing key, [null], a boolean, a number or a
      string; arrays and objects as field values are not modelled.  The
      body of a submission holds such a value in each of the schema
      paths the handler copies into the document; [.trim()] raises on a
      value that is neither nullish nor a string and the handler then
      answers 500.  The text fields of a payment initiation, which its
      handler tests for truthiness and passes on, are [option string]
      ([None] is [undefined]/[null]).
    - A string is a [string]; each character stands for one UTF-16 code
      unit (code units below 256).
    - The two MongoDB collections are lists of documents in insertion
      order; [findOne] returns the first match, [save] enforces the
      unique indexes and the schema.  Documents hold the schema paths;
      [_id] and [__v] are left out, and a body is taken not to set
      them.
    - Everything the server does not compute itself is read from an
      [Env], one per request: the clock, the random draw, the replies
      of the gateway and of the mail provider.  Calls that leave the
      process are recorded in the [trace] of the [World].
    - Requests are served one at a time, and the statements are about
      requests that reach their handler: the two rate limiters in front
      of the routes and failures of the database connection are not
      modelled. *)

From Stdlib Require Import ZArith List String Ascii Bool Lia DecimalString.
Import ListNotations.

Open Scope string_scope.
Open Scope Z_scope.

(** ** JavaScript values and strings *)

Module JS.

Inductive value : Type :=
| Undefined
| Null
| Boolean (b : bool)
| Num (z : Z)
| Str (s : string).

(** [ToBoolean]: what [!v], [v && ...] and [if (v)] look at. *)
Definition truthy (v : value) : bool :=
  match v with
  | Undefined | Null => false
  | Boolean b => b
  | Num z => negb (z =? 0)
  | Str s => negb (s =? "")%string
  end.

(** [v === n] for a number literal [n]. *)
Definition strict_eq_num (v : value) (n : Z) : bool :=
  match v with
  | Num z => z =? n
  | _ => false
  end.

(** White space and line terminators removed by [String.prototype.trim]
    (TAB, LF, VT, FF, CR, SP, NBSP). *)
Definition is_space (c : ascii) : bool :=
  let n := nat_of_ascii c in
  ((9 <=? n)%nat && (n <=? 13)%nat) || (n =? 32)%nat || (n =? 160)%nat.

Fixpoint trimStart (s : string) : string :=
  match s with
  | EmptyString => EmptyString
  | String c r => if is_space c then trimStart r else s
  end.

Fixpoint trimEnd (s : string) : string :=
  match s with
  | EmptyString => EmptyString
  | String c r =>
      let r' := trimEnd r in
      if is_space c && (r' =? "")%string then EmptyString else String c r'
  end.

Definition trim (s : string) : string := trimEnd (trimStart s).

(** [s.length] *)
Definition length (s : string) : Z := Z.of_nat (String.length s).

(** [\d] *)
Definition is_digit (c : ascii) : bool :=
  let n := nat_of_ascii c in (48 <=? n)%nat && (n <=? 57)%nat.

Fixpoint all_chars (p : ascii -> bool) (s : string) : bool :=
  match s with
  | EmptyString => true
  | String c r => p c && all_chars p r
  end.

(** Truthiness of a text field: present and not the empty string. *)
Definition truthy_text (o : option string) : bool :=
  match o with
  | Some s => negb (s =? "")%string
  | None => false
  end.

(** [!o?.trim()] *)
Definition blank (o : option string) : bool :=
  match o with
  | Some s => (trim s =? "")%string
  | None => true
  end.

(** Template-literal rendering of an integer. *)
Definition show (z : Z) : string := NilZero.string_of_int (Z.to_int z).

End JS.

(** ** Documents, stores, environment *)

(** [paymentSchema.status] *)
Inductive PaymentStatus : Type := initiated | pending | completed | failed.

(** [applicationSchema.status]; [app_null] is a stored [null]. *)
Inductive Lifecycle : Type :=
  app_pending | paid | approved | rejected | app_null.

(** [applicationSchema.paymentStatus]; [pay_null] is a stored [null]. *)
Inductive PayState : Type :=
  pay_pending | pay_completed | pay_failed | pay_null.

Definition PaymentStatus_eqb (a b : PaymentStatus) : bool :=
  match a, b with
  | initiated, initiated | pending, pending
  | completed, completed | failed, failed => true
  | _, _ => false
  end.

Record Application : Type := mkApplication {
  applicationId : string;
  name : string;
  email : string;
  phone : string;
  dob : Z;
  gender : string;
  category : string;
  school : string;
  state : string;
  district : string;
  pincode : string;
  address : string;
  income_amount : Z;
  income_band : string;
  achievements : string;
  recommendation : string;
  sop : string;
  status : Lifecycle;
  paymentStatus : PayState;
  paymentOrderId : option string;
  createdAt : option Z;            (* [None] is a stored [null] *)
  updatedAt : option Z
}.

(** Body of the order-creation reply of the gateway. *)
Record PayData : Type := mkPayData {
  pd_orderId : option string;
  pd_redirectUrl : option string;
  pd_state : option string;
  pd_expireAt : option Z
}.

(** Body of the order-status reply of the gateway; [sd_orderId] is
    [None] when the reply has no [orderId]. *)
Record StatusData : Type := mkStatusData {
  sd_state : option string;
  sd_orderId : option string
}.

(** [phonePeResponse]: the last reply stored verbatim. *)
Inductive GatewayBlob : Type :=
| BlobPay (d : PayData)
| BlobStatus (d : StatusData).

Record Payment : Type := mkPayment {
  p_applicationId : string;
  p_merchantOrderId : string;
  p_phonePeOrderId : option string;
  p_amount : Z;
  p_status : PaymentStatus;
  p_phonePeResponse : GatewayBlob;
  p_createdAt : Z;
  p_updatedAt : Z
}.

(** Body of the token reply of the gateway. *)
Record TokenData : Type := mkTokenData {
  access_token : option string;
  expires_at : option Z
}.

(** What an [await axios...] gives: a response whose [data] may be
    missing, or a rejection whose [response.data] may carry a message
    and a code. *)
Inductive Axios (A : Type) : Type :=
| Resolved (data : option A)
| Rejected (message code : option string).
Arguments Resolved {A} data.
Arguments Rejected {A} message code.

(** Outcome of [resend.emails.send]. *)
Inductive MailOutcome : Type := MailSent | MailError | MailThrows.

Record Env : Type := mkEnv {
  now : Z;                        (* Date.now() *)
  random1000 : Z;                 (* Math.floor(Math.random() * 1000) *)
  token_reply : Axios TokenData;  (* POST PHONEPE_URLS[env].token *)
  pay_reply : Axios PayData;      (* POST PHONEPE_URLS[env].payment *)
  status_reply : Axios StatusData;(* GET  PHONEPE_URLS[env].status/... *)
  resend_configured : bool;       (* resend !== null *)
  mail_reply : MailOutcome
}.

(** Calls that leave the process. *)
Inductive Event : Type :=
| TokenExchange
| CreateOrder (merchantOrderId : string)
| StatusQuery (merchantOrderId : string)
| ConfirmationEmail (applicationId : string) (orderId : option string)
| ResendSend (to : string).

(** [let tokenCache = { token: null, expiresAt: 0 }]; [expiresAt] is
    [None] when the stored number is [NaN]. *)
Record TokenCache : Type := mkTokenCache {
  token : option string;
  expiresAt : option Z
}.

Record World : Type := mkWorld {
  tokenCache : TokenCache;
  applications : list Application;
  payments : list Payment;
  trace : list Event
}.

Definition set_tokenCache (c : TokenCache) (w : World) : World :=
  mkWorld c (applications w) (payments w) (trace w).
Definition set_applications (l : list Application) (w : World) : World :=
  mkWorld (tokenCache w) l (payments w) (trace w).
Definition set_payments (l : list Payment) (w : World) : World :=
  mkWorld (tokenCache w) (applications w) l (trace w).
Definition emit (e : Event) (w : World) : World :=
  mkWorld (tokenCache w) (applications w) (payments w) (trace w ++ [e]).

(** What is thrown inside a handler. *)
Inductive Thrown : Type :=
| AxiosError (message code : option string)
| PlainError.

Inductive Result (A : Type) : Type :=
| Ok (a : A)
| Throw (e : Thrown).
Arguments Ok {A} a.
Arguments Throw {A} e.

(** [res.status(code).json({ success, message, ... })] *)
Inductive Payload : Type :=
| NoPayload
| Errors (errors : list string)
| Submitted (applicationId : string) (timestamp : option Z)
| ExistingPayment (merchantOrderId : string) (status : PaymentStatus)
    (createdAt : Z)
| Initiated (orderId redirectUrl state : option string) (expireAt : option Z)
| StatusReport (data : StatusData) (applicationId : string)
    (status : PaymentStatus) (createdAt updatedAt : Z).

Record Response : Type := mkResponse {
  code : Z;
  success : bool;
  message : string;
  payload : Payload
}.

(** Library functions the server calls and does not define. *)
Class Externals : Type := {
  (** [validator.isEmail] *)
  isEmail : string -> bool;
  (** [new Date(v)] as mongoose casts it to a [Date] path; [None] when
      the cast fails *)
  castDate : JS.value -> option Z;
  (** mongoose's cast to a [Number] path; [None] when it fails *)
  castNumber : JS.value -> option Z;
  (** mongoose's cast of a value other than [undefined] to a [Date]
      path: [None] when it fails, [Some None] when it gives [null] *)
  castDatePath : JS.value -> option (option Z);
  (** whether the [enum] validator of a [String] path lets [null]
      pass, which depends on the version of mongoose *)
  enumAllowsNull : bool
}.

(** ** Credential cache *)

Definition cleared : TokenCache := mkTokenCache None (Some 0).

(** [tokenCache.token && Date.now() < tokenCache.expiresAt - 60000] *)
Definition cache_fresh (c : TokenCache) (t : Z) : option string :=
  match token c, expiresAt c with
  | Some tok, Some e =>
      if negb (tok =? "")%string && (t <? e - 60000) then Some tok else None
  | _, _ => None
  end.

Definition generateAuthToken (env : Env) (w : World) : Result string * World :=
  match cache_fresh (tokenCache w) (now env) with
  | Some tok => (Ok tok, w)
  | None =>
      let w1 := emit TokenExchange w in
      match token_reply env with
      | Resolved (Some d) =>
          match access_token d with
          | Some tok =>
              if negb (tok =? "")%string then
                (Ok tok,
                 set_tokenCache
                   (mkTokenCache (Some tok)
                      (option_map (fun e => e * 1000) (expires_at d))) w1)
              else (Throw PlainError, set_tokenCache cleared w1)
          | None => (Throw PlainError, set_tokenCache cleared w1)
          end
      | Resolved None => (Throw PlainError, set_tokenCache cleared w1)
      | Rejected _ _ => (Throw PlainError, set_tokenCache cleared w1)
      end
  end.

(** ** Utility functions *)

(** One field of [sanitizeInput]: trimmed, and [undefined] when empty. *)
Definition sanitizeText (o : option string) : option string :=
  match o with
  | Some s => let t := JS.trim s in if (t =? "")%string then None else Some t
  | None => None
  end.

Definition sanitizeValue (v : JS.value) : JS.value :=
  match v with
  | JS.Str s =>
      let t := JS.trim s in
      if (t =? "")%string then JS.Undefined else JS.Str t
  | _ => v
  end.

(** [req.body] of [POST /api/application/submit]: what it holds in the
    paths of [applicationSchema].  The handler spreads the body into
    the document, so the five paths after [sop] reach the store as
    well; [applicationId] is overwritten and any other key is dropped
    by the schema. *)
Record SubmitBody : Type := mkSubmitBody {
  sb_name : JS.value;
  sb_email : JS.value;
  sb_phone : JS.value;
  sb_dob : JS.value;
  sb_gender : JS.value;
  sb_category : JS.value;
  sb_school : JS.value;
  sb_state : JS.value;
  sb_district : JS.value;
  sb_pincode : JS.value;
  sb_address : JS.value;
  sb_income_amount : JS.value;
  sb_income_band : JS.value;
  sb_achievements : JS.value;
  sb_recommendation : JS.value;
  sb_sop : JS.value;
  sb_status : JS.value;
  sb_paymentStatus : JS.value;
  sb_paymentOrderId : JS.value;
  sb_createdAt : JS.value;
  sb_updatedAt : JS.value
}.

(** [req.body] of [POST /api/payment/initiate] *)
Record PaymentBody : Type := mkPaymentBody {
  pb_applicationId : option string;
  pb_amount : JS.value;
  pb_name : option string;
  pb_email : option string;
  pb_phone : option string;
  pb_merchantOrderId : option string
}.

Definition sanitizeSubmit (b : SubmitBody) : SubmitBody :=
  {| sb_name := sanitizeValue (sb_name b);
     sb_email := sanitizeValue (sb_email b);
     sb_phone := sanitizeValue (sb_phone b);
     sb_dob := sanitizeValue (sb_dob b);
     sb_gender := sanitizeValue (sb_gender b);
     sb_category := sanitizeValue (sb_category b);
     sb_school := sanitizeValue (sb_school b);
     sb_state := sanitizeValue (sb_state b);
     sb_district := sanitizeValue (sb_district b);
     sb_pincode := sanitizeValue (sb_pincode b);
     sb_address := sanitizeValue (sb_address b);
     sb_income_amount := sanitizeValue (sb_income_amount b);
     sb_income_band := sanitizeValue (sb_income_band b);
     sb_achievements := sanitizeValue (sb_achievements b);
     sb_recommendation := sanitizeValue (sb_recommendation b);
     sb_sop := sanitizeValue (sb_sop b);
     sb_status := sanitizeValue (sb_status b);
     sb_paymentStatus := sanitizeValue (sb_paymentStatus b);
     sb_paymentOrderId := sanitizeValue (sb_paymentOrderId b);
     sb_createdAt := sanitizeValue (sb_createdAt b);
     sb_updatedAt := sanitizeValue (sb_updatedAt b) |}.

Definition sanitizePayment (b : PaymentBody) : PaymentBody :=
  {| pb_applicationId := sanitizeText (pb_applicationId b);
     pb_amount := sanitizeValue (pb_amount b);
     pb_name := sanitizeText (pb_name b);
     pb_email := sanitizeText (pb_email b);
     pb_phone := sanitizeText (pb_phone b);
     pb_merchantOrderId := sanitizeText (pb_merchantOrderId b) |}.

(** [/^[6-9]\d{9}$/.test(phone)] *)
Definition validatePhoneNumber (phone : string) : bool :=
  match phone with
  | String c r =>
      let n := nat_of_ascii c in
      (54 <=? n)%nat && (n <=? 57)%nat
      && (String.length r =? 9)%nat && JS.all_chars JS.is_digit r
  | EmptyString => false
  end.

(** [if (cond) errors.push(msg)] *)
Definition push_if (cond : bool) (msg : string) : list string :=
  if cond then [msg] else [].

(** Sequencing of steps that may throw. *)
Definition andThen {A B : Type} (r : Result A) (k : A -> Result B)
  : Result B :=
  match r with
  | Ok a => k a
  | Throw e => Throw e
  end.

Notation "'let!' x ':=' r 'in' k" := (andThen r (fun x => k))
  (at level 10, x name, r at level 100, k at level 200).

(** A value on which [?.trim()] can be called: a string, [Some s], or
    [undefined]/[null], [None], at which the chain stops. *)
Definition as_text (v : JS.value) : option (option string) :=
  match v with
  | JS.Undefined | JS.Null => Some None
  | JS.Str s => Some (Some s)
  | JS.Boolean _ | JS.Num _ => None
  end.

(** [!v?.trim()]; on a number or a boolean [.trim] is not a function
    and the call raises a [TypeError]. *)
Definition blank_field (v : JS.value) : Result bool :=
  match as_text v with
  | Some o => Ok (JS.blank o)
  | None => Throw PlainError
  end.

(** [v && !test(v.trim())] *)
Definition present_and_fails (v : JS.value) (test : string -> bool)
  : Result bool :=
  if negb (JS.truthy v) then Ok false
  else
    match v with
    | JS.Str s => Ok (negb (test (JS.trim s)))
    | _ => Throw PlainError
    end.

(** [v && v.length < 50]; the [length] of a number or a boolean is
    [undefined], and [undefined < 50] is false. *)
Definition sop_too_short (v : JS.value) : bool :=
  match v with
  | JS.Str s => negb (s =? "")%string && (JS.length s <? 50)
  | _ => false
  end.

Section Server.

Context {ext : Externals}.

Definition validateEmail (e : string) : bool := isEmail e.

(** [if (cond) errors.push(msg);] where evaluating [cond] may raise. *)
Definition check (cond : Result bool) (msg : string) (errors : list string)
  : Result (list string) :=
  let! c := cond in Ok (errors ++ push_if c msg)%list.

(** The statements in the order of the source: the first condition
    that raises ends the function, and when none does each condition
    that holds has pushed its message. *)
Definition validateApplicationData (data : SubmitBody)
  : Result (list string) :=
  let errors := [] in
  let! errors := check (blank_field (sb_name data)) "Name is required"
                   errors in
  let! errors := check (blank_field (sb_email data)) "Email is required"
                   errors in
  let! errors := check (present_and_fails (sb_email data) validateEmail)
                   "Invalid email format" errors in
  let! errors := check (blank_field (sb_phone data))
                   "Phone number is required" errors in
  let! errors := check (present_and_fails (sb_phone data) validatePhoneNumber)
                   "Invalid Indian phone number" errors in
  let! errors := check (Ok (negb (JS.truthy (sb_dob data))))
                   "Date of birth is required" errors in
  let! errors := check (blank_field (sb_gender data)) "Gender is required"
                   errors in
  let! errors := check (blank_field (sb_category data))
                   "Class/Course is required" errors in
  let! errors := check (blank_field (sb_school data))
                   "School/College name is required" errors in
  let! errors := check (blank_field (sb_state data)) "State is required"
                   errors in
  let! errors := check (blank_field (sb_district data))
                   "District is required" errors in
  let! errors := check (blank_field (sb_pincode data)) "Pincode is required"
                   errors in
  let! errors := check (blank_field (sb_address data)) "Address is required"
                   errors in
  let! errors := check (Ok (negb (JS.truthy (sb_income_amount data))))
                   "Family income is required" errors in
  let! errors := check (blank_field (sb_income_band data))
                   "Income band is required" errors in
  let! errors := check (blank_field (sb_achievements data))
                   "Achievements are required" errors in
  let! errors := check (blank_field (sb_recommendation data))
                   "Recommendation is required" errors in
  let! errors := check (blank_field (sb_sop data))
                   "Statement of purpose is required" errors in
  let! errors := check (Ok (sop_too_short (sb_sop data)))
                   "Statement of purpose must be at least 50 characters"
                   errors in
  Ok errors.


(** *** Application store *)

(** mongoose's cast of a value to a [String] path, for a document and
    for a query alike: [None] for [undefined] and [null], a number and
    a boolean as [toString] renders them. *)
Definition castString (v : JS.value) : option string :=
  match v with
  | JS.Undefined | JS.Null => None
  | JS.Boolean b => Some (if b then "true" else "false")
  | JS.Num z => Some (JS.show z)
  | JS.Str s => Some s
  end.

(** [Application.findOne({ $or: [{ email }, { phone }] })] with the two
    values cast; the handler asks it after validation, when both are
    strings. *)
Definition Application_findOne_email_or_phone
  (e p : option string) (l : list Application) : option Application :=
  find (fun a =>
          match e with Some e => (email a =? e)%string | None => false end
          || match p with Some p => (phone a =? p)%string | None => false end)
       l.

(** A [required] [String] path: present and not empty. *)
Definition required_text (o : option string) : option string :=
  match o with
  | Some s => if (s =? "")%string then None else Some s
  | None => None
  end.

(** [enum: ["Male", "Female", "Other"]] *)
Definition gender_enum (g : string) : bool :=
  (g =? "Male")%string || (g =? "Female")%string || (g =? "Other")%string.

Definition bind {A B : Type} (o : option A) (k : A -> option B) : option B :=
  match o with Some a => k a | None => None end.

Notation "x <- o ;; k" := (bind o (fun x => k))
  (at level 61, o at next level, right associativity).

(** A [required] [String] path of the document built from the body. *)
Definition required_path (v : JS.value) : option string :=
  required_text (castString v).

(** [enum: ["pending", "paid", "approved", "rejected"]] *)
Definition lifecycle_enum (s : string) : option Lifecycle :=
  if (s =? "pending")%string then Some app_pending
  else if (s =? "paid")%string then Some paid
  else if (s =? "approved")%string then Some approved
  else if (s =? "rejected")%string then Some rejected
  else None.

(** [enum: ["pending", "completed", "failed"]] *)
Definition paystate_enum (s : string) : option PayState :=
  if (s =? "pending")%string then Some pay_pending
  else if (s =? "completed")%string then Some pay_completed
  else if (s =? "failed")%string then Some pay_failed
  else None.

(** An optional [String] path with an [enum] and a [default]: the
    default for a missing key, [null] as the validator rules, any other
    value cast to a string that has to be in the enum. *)
Definition enum_path {A : Type} (enum : string -> option A)
  (default null : A) (v : JS.value) : option A :=
  match v with
  | JS.Undefined => Some default
  | JS.Null => if enumAllowsNull then Some null else None
  | _ => s <- castString v ;; enum s
  end.

(** A [Date] path with [default: Date.now]. *)
Definition date_path (t : Z) (v : JS.value) : option (option Z) :=
  match v with
  | JS.Undefined => Some (Some t)
  | _ => castDatePath v
  end.

(** [new Application({ ...req.body, applicationId, dob: new Date(req.body.dob) })]
    as the schema casts and validates it on [save]: [None] when the
    document is rejected.  [status], [paymentStatus], [paymentOrderId],
    [createdAt] and [updatedAt] are what the body holds for them, and
    the schema defaults where it holds nothing; [t] is [Date.now()]. *)
Definition new_Application (body : SubmitBody) (id : string) (t : Z)
  : option Application :=
  n <- required_path (sb_name body) ;;
  e <- required_path (sb_email body) ;;
  ph <- required_path (sb_phone body) ;;
  d <- castDate (sb_dob body) ;;
  g <- required_path (sb_gender body) ;;
  c <- required_path (sb_category body) ;;
  sc <- required_path (sb_school body) ;;
  st <- required_path (sb_state body) ;;
  di <- required_path (sb_district body) ;;
  pin <- required_path (sb_pincode body) ;;
  ad <- required_path (sb_address body) ;;
  inc <- castNumber (sb_income_amount body) ;;
  ib <- required_path (sb_income_band body) ;;
  ach <- required_path (sb_achievements body) ;;
  rec <- required_path (sb_recommendation body) ;;
  s <- required_path (sb_sop body) ;;
  life <- enum_path lifecycle_enum app_pending app_null (sb_status body) ;;
  ps <- enum_path paystate_enum pay_pending pay_null
          (sb_paymentStatus body) ;;
  created <- date_path t (sb_createdAt body) ;;
  updated <- date_path t (sb_updatedAt body) ;;
  if gender_enum g then
    Some (mkApplication id n e ph d g c sc st di pin ad inc ib ach rec s
            life ps (castString (sb_paymentOrderId body)) created updated)
  else None.

(** [application.save()]: the unique index on [applicationId]. *)
Definition Application_save (a : Application) (l : list Application)
  : option (list Application) :=
  if existsb (fun x => (applicationId x =? applicationId a)%string) l
  then None
  else Some (l ++ [a])%list.

(** *** POST /api/application/submit (after [sanitizeInput]) *)

(** What the [catch] of the handler answers. *)
Definition submit_fail : Response :=
  mkResponse 500 false "Application submission failed" NoPayload.

Definition submit_handler (env : Env) (w : World) (body : SubmitBody)
  : Response * World :=
  match validateApplicationData body with
  | Throw _ => (submit_fail, w)
  | Ok errors =>
      if (0 <? Z.of_nat (List.length errors)) then
        (mkResponse 400 false "Validation failed" (Errors errors), w)
      else
        match Application_findOne_email_or_phone
                (castString (sb_email body)) (castString (sb_phone body))
                (applications w) with
        | Some _ =>
            (mkResponse 409 false
               "Application already exists with this email or phone number"
               NoPayload, w)
        | None =>
            let id :=
              ("NF2025" ++ JS.show (now env)
               ++ JS.show (random1000 env))%string in
            match
              a <- new_Application body id (now env) ;;
              l <- Application_save a (applications w) ;;
              Some (a, l)
            with
            | Some (a, l) =>
                (mkResponse 201 true "Application submitted successfully"
                   (Submitted (applicationId a) (createdAt a)),
                 set_applications l w)
            | None => (submit_fail, w)
            end
        end
  end.

Definition submit (env : Env) (w : World) (raw : SubmitBody)
  : Response * World :=
  submit_handler env w (sanitizeSubmit raw).


(** *** Payment store *)

(** [Payment.findOne({ merchantOrderId })] *)
Definition Payment_findOne (merchantOrderId : string) (l : list Payment)
  : option Payment :=
  find (fun p => (p_merchantOrderId p =? merchantOrderId)%string) l.

Definition checkDuplicatePayment (t : Z) (l : list Payment)
  (applicationId : string) (timeWindowMinutes : Z) : option Payment :=
  let cutoffTime := t - timeWindowMinutes * 60 * 1000 in
  find (fun p =>
          (p_applicationId p =? applicationId)%string
          && PaymentStatus_eqb (p_status p) completed
          && (cutoffTime <=? p_createdAt p))
       l.

(** [payment.save()]: the unique index on [merchantOrderId]. *)
Definition Payment_save (p : Payment) (l : list Payment)
  : option (list Payment) :=
  if existsb (fun x => (p_merchantOrderId x =? p_merchantOrderId p)%string) l
  then None
  else Some (l ++ [p])%list.

(** [Model.findOneAndUpdate(query, patch, { new: true })]: the first
    match is patched and returned; no match, no change. *)
Fixpoint findOneAndUpdate {A : Type} (q : A -> bool) (patch : A -> A)
  (l : list A) : option A * list A :=
  match l with
  | [] => (None, [])
  | x :: r =>
      if q x then (Some (patch x), patch x :: r)
      else let '(o, r') := findOneAndUpdate q patch r in (o, x :: r')
  end.

(** The message the two payment handlers pick in their [catch]. *)
Definition error_message (default : string) (e : Thrown) : string :=
  match e with
  | AxiosError (Some m) c =>
      if negb (m =? "")%string then m
      else match c with
           | Some c =>
               if negb (c =? "")%string then ("PhonePe Error: " ++ c)%string
               else default
           | None => default
           end
  | AxiosError None (Some c) =>
      if negb (c =? "")%string then ("PhonePe Error: " ++ c)%string
      else default
  | AxiosError None None => default
  | PlainError => default
  end.

Definition show_status (s : PaymentStatus) : string :=
  match s with
  | initiated => "initiated"
  | pending => "pending"
  | completed => "completed"
  | failed => "failed"
  end.

(** *** POST /api/payment/initiate (after [sanitizeInput]) *)

Definition initiate_fail (e : Thrown) : Response :=
  mkResponse 500 false (error_message "Payment initiation failed" e)
    NoPayload.

(** From [// CHECK FOR EXISTING PAYMENT FIRST] on: the request has
    every field and [amount === 99]. *)
Definition initiate_order (env : Env) (w : World)
  (applicationId merchantOrderId : string) (amount : Z)
  : Response * World :=
  match Payment_findOne merchantOrderId (payments w) with
  | Some existingPayment =>
      (mkResponse 409 false "Payment already exists for this order ID"
         (ExistingPayment (p_merchantOrderId existingPayment)
            (p_status existingPayment) (p_createdAt existingPayment)),
       w)
  | None =>
      match checkDuplicatePayment (now env) (payments w) applicationId 30 with
      | Some duplicatePayment =>
          (mkResponse 409 false
             ("Payment already exists for this application. Status: "
              ++ show_status (p_status duplicatePayment))%string
             (ExistingPayment (p_merchantOrderId duplicatePayment)
                (p_status duplicatePayment) (p_createdAt duplicatePayment)),
           w)
      | None =>
          match generateAuthToken env w with
          | (Throw e, w1) => (initiate_fail e, w1)
          | (Ok _, w1) =>
              let w2 := emit (CreateOrder merchantOrderId) w1 in
              match pay_reply env with
              | Rejected m c => (initiate_fail (AxiosError m c), w2)
              | Resolved None => (initiate_fail PlainError, w2)
              | Resolved (Some data) =>
                  if JS.truthy_text (pd_redirectUrl data)
                     && JS.truthy_text (pd_orderId data)
                  then
                    match
                      Payment_save
                        (mkPayment applicationId merchantOrderId
                           (pd_orderId data) (amount * 100) initiated
                           (BlobPay data) (now env) (now env))
                        (payments w2)
                    with
                    | Some l =>
                        (mkResponse 200 true "Payment initiated successfully"
                           (Initiated (pd_orderId data) (pd_redirectUrl data)
                              (pd_state data) (pd_expireAt data)),
                         set_payments l w2)
                    | None => (initiate_fail PlainError, w2)
                    end
                  else (initiate_fail PlainError, w2)
              end
          end
      end
  end.

Definition initiate_handler (env : Env) (w : World) (body : PaymentBody)
  : Response * World :=
  match required_text (pb_applicationId body), JS.truthy (pb_amount body),
        required_text (pb_name body), required_text (pb_email body),
        required_text (pb_phone body),
        required_text (pb_merchantOrderId body) with
  | Some applicationId, true, Some _, Some _, Some _, Some merchantOrderId =>
      if negb (JS.strict_eq_num (pb_amount body) 99) then
        (mkResponse 400 false "Invalid amount" NoPayload, w)
      else initiate_order env w applicationId merchantOrderId 99
  | _, _, _, _, _, _ =>
      (mkResponse 400 false "Missing required fields" NoPayload, w)
  end.

Definition initiate (env : Env) (w : World) (raw : PaymentBody)
  : Response * World :=
  initiate_handler env w (sanitizePayment raw).


(** *** Confirmation email *)

(** The call itself is recorded as [ConfirmationEmail]; the request to
    the mail provider, made only when the provider is configured, as
    [ResendSend].  Every failure is caught inside and turned into
    [false]. *)
Definition sendConfirmationEmail (env : Env) (w : World)
  (application : Application) (orderId : option string) : bool * World :=
  let w0 := emit (ConfirmationEmail (applicationId application) orderId) w in
  if negb (resend_configured env) then (false, w0)
  else
    let w1 := emit (ResendSend (email application)) w0 in
    match mail_reply env with
    | MailSent => (true, w1)
    | MailError => (false, w1)
    | MailThrows => (false, w1)
    end.

(** *** GET /api/payment/status/:merchantOrderId *)

(** The [switch (orderState)]: [(localStatus, applicationStatus,
    shouldSendEmail)]. *)
Definition map_state (orderState : option string)
  (localPayment : Payment) : PaymentStatus * Lifecycle * bool :=
  match orderState with
  | Some st =>
      if (st =? "COMPLETED")%string then
        (completed, paid,
         negb (PaymentStatus_eqb (p_status localPayment) completed))
      else if (st =? "FAILED")%string then (failed, app_pending, false)
      else if (st =? "PENDING")%string then (pending, app_pending, false)
      else (pending, app_pending, false)
  | None => (pending, app_pending, false)
  end.

(** [orderState === "COMPLETED"] *)
Definition is_COMPLETED (orderState : option string) : bool :=
  match orderState with
  | Some st => (st =? "COMPLETED")%string
  | None => false
  end.

(** A key of an update whose value is [undefined] is left out of the
    update by mongoose: the path keeps what is stored. *)
Definition or_stored (new stored : option string) : option string :=
  match new with
  | Some s => Some s
  | None => stored
  end.

Definition patch_payment (localStatus : PaymentStatus) (data : StatusData)
  (t : Z) (p : Payment) : Payment :=
  mkPayment (p_applicationId p) (p_merchantOrderId p)
    (or_stored (sd_orderId data) (p_phonePeOrderId p))
    (p_amount p) localStatus (BlobStatus data) (p_createdAt p) t.

Definition patch_application (localStatus : PaymentStatus)
  (applicationStatus : Lifecycle) (data : StatusData) (t : Z)
  (a : Application) : Application :=
  mkApplication (applicationId a) (name a) (email a) (phone a) (dob a)
    (gender a) (category a) (school a) (state a) (district a) (pincode a)
    (address a) (income_amount a) (income_band a) (achievements a)
    (recommendation a) (sop a)
    applicationStatus
    (if PaymentStatus_eqb localStatus completed then pay_completed
     else pay_pending)
    (if is_COMPLETED (sd_state data)
     then or_stored (sd_orderId data) (paymentOrderId a) else None)
    (createdAt a) (Some t).

Definition status_fail (e : Thrown) : Response :=
  mkResponse 500 false (error_message "Payment status check failed" e)
    NoPayload.

(** From [const orderState = response.data.state] on. *)
Definition reconcile (env : Env) (w2 : World) (merchantOrderId : string)
  (localPayment : Payment) (data : StatusData) : Response * World :=
  let orderState := sd_state data in
  let '(localStatus, applicationStatus, shouldSendEmail) :=
    map_state orderState localPayment in
  let '(updatedPayment, ps) :=
    findOneAndUpdate
      (fun p => (p_merchantOrderId p =? merchantOrderId)%string)
      (patch_payment localStatus data (now env))
      (payments w2) in
  let '(application, apps) :=
    findOneAndUpdate
      (fun a => (applicationId a =? p_applicationId localPayment)%string)
      (patch_application localStatus applicationStatus data (now env))
      (applications w2) in
  let w3 := set_applications apps (set_payments ps w2) in
  let w4 :=
    match application with
    | Some app =>
        if shouldSendEmail && is_COMPLETED orderState then
          snd (sendConfirmationEmail env w3 app (sd_orderId data))
        else w3
    | None => w3
    end in
  match updatedPayment with
  | Some up =>
      (* this response carries no [message] *)
      (mkResponse 200 true ""
         (StatusReport data (p_applicationId up) (p_status up)
            (p_createdAt up) (p_updatedAt up)),
       w4)
  | None => (status_fail PlainError, w4)
  end.

Definition status_handler (env : Env) (w : World) (merchantOrderId : string)
  : Response * World :=
  if (merchantOrderId =? "")%string then
    (mkResponse 400 false "Order ID is required" NoPayload, w)
  else
    match Payment_findOne merchantOrderId (payments w) with
    | None => (mkResponse 404 false "Payment record not found" NoPayload, w)
    | Some localPayment =>
        match generateAuthToken env w with
        | (Throw e, w1) => (status_fail e, w1)
        | (Ok _, w1) =>
            let w2 := emit (StatusQuery merchantOrderId) w1 in
            match status_reply env with
            | Rejected m c => (status_fail (AxiosError m c), w2)
            | Resolved None => (status_fail PlainError, w2)
            | Resolved (Some data) =>
                reconcile env w2 merchantOrderId localPayment data
            end
        end
    end.

(** *** The server as a transition system *)

Inductive Request : Type :=
| PostSubmit (body : SubmitBody)
| PostInitiate (body : PaymentBody)
| GetStatus (merchantOrderId : string).

Definition serve (w : World) (er : Env * Request) : Response * World :=
  match snd er with
  | PostSubmit b => submit (fst er) w b
  | PostInitiate b => initiate (fst er) w b
  | GetStatus id => status_handler (fst er) w id
  end.

(** Requests handled one after the other; the responses in order. *)
Fixpoint run (w : World) (reqs : list (Env * Request))
  : list Response * World :=
  match reqs with
  | [] => ([], w)
  | er :: rest =>
      let '(r, w1) := serve w er in
      let '(rs, w2) := run w1 rest in
      (r :: rs, w2)
  end.

End Server.

(** ** Observations used in the statements *)

(** Number of calls of [sendConfirmationEmail] recorded in a trace. *)
Fixpoint confirmation_emails (t : list Event) : nat :=
  match t with
  | [] => 0%nat
  | ConfirmationEmail _ _ :: r => S (confirmation_emails r)
  | _ :: r => confirmation_emails r
  end.

(** The reconciliation of [merchantOrderId] gets as far as the gateway's
    answer: the local order is found, a token is obtained and the status
    query resolves with a body. *)
Definition gateway_answer (env : Env) (w : World) (merchantOrderId : string)
  : option (Payment * StatusData) :=
  if (merchantOrderId =? "")%string then None
  else
    match Payment_findOne merchantOrderId (payments w) with
    | None => None
    | Some p =>
        match fst (generateAuthToken env w), status_reply env with
        | Ok _, Resolved (Some data) => Some (p, data)
        | _, _ => None
        end
    end.

(** The local status the [switch] gives for a gateway state. *)
Definition localStatus_of (orderState : option string) : PaymentStatus :=
  match orderState with
  | Some st =>
      if (st =? "COMPLETED")%string then completed
      else if (st =? "FAILED")%string then failed
      else pending
  | None => pending
  end.

(** The first Application with the identifier of a PaymentOrder. *)
Definition linked_application (p : Payment) (l : list Application)
  : option Application :=
  find (fun a => (applicationId a =? p_applicationId p)%string) l.

(** Whether the reconciliation of [p] with the answer [data] calls
    [sendConfirmationEmail]. *)
Definition notifies (p : Payment) (data : StatusData) (l : list Application)
  : bool :=
  is_COMPLETED (sd_state data)
  && negb (PaymentStatus_eqb (p_status p) completed)
  && match linked_application p l with Some _ => true | None => false end.

(** The order-creation reply carries a redirect URL and an order id. *)
Definition complete_order (r : Axios PayData) : option PayData :=
  match r with
  | Resolved (Some d) =>
      if JS.truthy_text (pd_redirectUrl d) && JS.truthy_text (pd_orderId d)
      then Some d else None
  | _ => None
  end.

(** The initiation has every field and the accepted amount: the
    application id and the merchant order id it names. *)
Definition accepted_fields (body : PaymentBody) : option (string * string) :=
  match required_text (pb_applicationId body), JS.truthy (pb_amount body),
        required_text (pb_name body), required_text (pb_email body),
        required_text (pb_phone body),
        required_text (pb_merchantOrderId body) with
  | Some applicationId, true, Some _, Some _, Some _, Some merchantOrderId =>
      if JS.strict_eq_num (pb_amount body) 99
      then Some (applicationId, merchantOrderId) else None
  | _, _, _, _, _, _ => None
  end.

(** The value is one [?.trim()] can be called on: a string,
    [undefined] or [null]. *)
Definition is_text (v : JS.value) : bool :=
  match as_text v with
  | Some _ => true
  | None => false
  end.

(** Every field of the body that [validateApplicationData] trims is
    such a value. *)
Definition texts_only (b : SubmitBody) : bool :=
  is_text (sb_name b) && is_text (sb_email b) && is_text (sb_phone b)
  && is_text (sb_gender b) && is_text (sb_category b)
  && is_text (sb_school b) && is_text (sb_state b)
  && is_text (sb_district b) && is_text (sb_pincode b)
  && is_text (sb_address b) && is_text (sb_income_band b)
  && is_text (sb_achievements b) && is_text (sb_recommendation b)
  && is_text (sb_sop b).

(** The string a value is, when it is one. *)
Definition text_of (v : JS.value) : option string :=
  match v with
  | JS.Str s => Some s
  | _ => None
  end.

(** The value is [undefined], [null] or a string that is blank once
    trimmed. *)
Definition absent_or_blank (v : JS.value) : Prop :=
  v = JS.Undefined \/ v = JS.Null
  \/ exists s, v = JS.Str s /\ JS.trim s = "".

(** The world in which [reconcile] runs: after the token and the status
    query. *)
Definition after_query (env : Env) (w : World) (merchantOrderId : string)
  : World :=
  emit (StatusQuery merchantOrderId) (snd (generateAuthToken env w)).

(** The token reply carries an access token. *)
Definition granted (r : Axios TokenData) : option (string * option Z) :=
  match r with
  | Resolved (Some d) =>
      match access_token d with
      | Some tok =>
          if negb (tok =? "")%string then Some (tok, expires_at d) else None
      | None => None
      end
  | _ => None
  end.

(** The same environment with another behaviour of the mail provider. *)
Definition with_mail (configured : bool) (m : MailOutcome) (env : Env) : Env :=
  mkEnv (now env) (random1000 env) (token_reply env) (pay_reply env)
    (status_reply env) configured m.

(** The state the status query of [env] reports, when it reports one. *)
Definition reported (env : Env) : option (option string) :=
  match status_reply env with
  | Resolved (Some data) => Some (sd_state data)
  | _ => None
  end.

Definition reports_COMPLETED (env : Env) : bool :=
  match reported env with
  | Some st => is_COMPLETED st
  | None => false
  end.

Definition reports_other (env : Env) : bool :=
  match reported env with
  | Some st => negb (is_COMPLETED st)
  | None => false
  end.

(** Along the polls, the gateway never reports another state once it
    has reported COMPLETED. *)
Fixpoint COMPLETED_is_final (envs : list Env) : Prop :=
  match envs with
  | [] => True
  | e :: rest =>
      (reports_COMPLETED e = true ->
       Forall (fun e' => reports_other e' = false) rest)
      /\ COMPLETED_is_final rest
  end.

(** [o && !test(o.trim())] for a string or nothing. *)
Definition fails_test (o : option string) (test : string -> bool) : bool :=
  match o with
  | Some s => negb (s =? "")%string && negb (test (JS.trim s))
  | None => false
  end.

Section Observations.

Context {ext : Externals}.

(** What [validateApplicationData] lists for a body on which no
    condition raises. *)
Definition violations (data : SubmitBody) : list string :=
  (push_if (JS.blank (text_of (sb_name data))) "Name is required"
   ++ push_if (JS.blank (text_of (sb_email data))) "Email is required"
   ++ push_if (fails_test (text_of (sb_email data)) validateEmail)
        "Invalid email format"
   ++ push_if (JS.blank (text_of (sb_phone data))) "Phone number is required"
   ++ push_if (fails_test (text_of (sb_phone data)) validatePhoneNumber)
        "Invalid Indian phone number"
   ++ push_if (negb (JS.truthy (sb_dob data))) "Date of birth is required"
   ++ push_if (JS.blank (text_of (sb_gender data))) "Gender is required"
   ++ push_if (JS.blank (text_of (sb_category data)))
        "Class/Course is required"
   ++ push_if (JS.blank (text_of (sb_school data)))
        "School/College name is required"
   ++ push_if (JS.blank (text_of (sb_state data))) "State is required"
   ++ push_if (JS.blank (text_of (sb_district data))) "District is required"
   ++ push_if (JS.blank (text_of (sb_pincode data))) "Pincode is required"
   ++ push_if (JS.blank (text_of (sb_address data))) "Address is required"
   ++ push_if (negb (JS.truthy (sb_income_amount data)))
        "Family income is required"
   ++ push_if (JS.blank (text_of (sb_income_band data)))
        "Income band is required"
   ++ push_if (JS.blank (text_of (sb_achievements data)))
        "Achievements are required"
   ++ push_if (JS.blank (text_of (sb_recommendation data)))
        "Recommendation is required"
   ++ push_if (JS.blank (text_of (sb_sop data)))
        "Statement of purpose is required"
   ++ push_if (sop_too_short (sb_sop data))
        "Statement of purpose must be at least 50 characters")%list.

Definition polls (merchantOrderId : string) (envs : list Env)
  : list (Env * Request) :=
  map (fun e => (e, GetStatus merchantOrderId)) envs.

(** The request is an initiation for [merchantOrderId] and it was
    answered 200, that is, it saved a new PaymentOrder. *)
Definition creates (merchantOrderId : string) (er : Env * Request)
  (r : Response) : bool :=
  match snd er with
  | PostInitiate b =>
      match sanitizeText (pb_merchantOrderId b) with
      | Some i => (i =? merchantOrderId)%string && (code r =? 200)
      | None => false
      end
  | _ => false
  end.

(** Number of initiations for [merchantOrderId] in a run that saved a
    new PaymentOrder. *)
Fixpoint creations (merchantOrderId : string) (w : World)
  (reqs : list (Env * Request)) : nat :=
  match reqs with
  | [] => 0%nat
  | er :: rest =>
      let '(r, w1) := serve w er in
      ((if creates merchantOrderId er r then 1 else 0)
       + creations merchantOrderId w1 rest)%nat
  end.

End Observations.

(** ** The form check of the browser client and sample data *)

Definition plain_char (c : ascii) : bool :=
  negb (JS.is_space c) && negb (c =? "@")%char.

Fixpoint dot_then_more (s : string) : bool :=
  match s with
  | String c r =>
      ((c =? ".")%char && negb (r =? "")%string) || dot_then_more r
  | EmptyString => false
  end.

(** [x.y] with [x] and [y] not empty *)
Definition dot_inside (s : string) : bool :=
  match s with
  | String _ r => dot_then_more r
  | EmptyString => false
  end.

Fixpoint formEmail_from (seen_local : bool) (s : string) : bool :=
  match s with
  | EmptyString => false
  | String c r =>
      if (c =? "@")%char then
        seen_local && JS.all_chars plain_char r && dot_inside r
      else if JS.is_space c then false
      else formEmail_from true r
  end.

(** [/^[^\s@]+@[^\s@]+\.[^\s@]+$/.test(email)] of [validateFormData] *)
Definition formEmail (s : string) : bool := formEmail_from false s.

(** [/^\d{6}$/.test(pincode)] of [validateFormData] *)
Definition formPincode (s : string) : bool :=
  (String.length s =? 6)%nat && JS.all_chars JS.is_digit s.

(** Externals for evaluating the handlers on concrete requests: the
    email shape of the browser client for [validator.isEmail]; the casts
    are the ones of numbers, [new Date(ms)] and a number as itself, and
    of [null] to a [Date] path, and they refuse everything else; the
    [enum] validator lets [null] pass. *)
Definition sampleExternals : Externals :=
  {| isEmail := formEmail;
     castDate := fun v => match v with JS.Num z => Some z | _ => None end;
     castNumber := fun v => match v with JS.Num z => Some z | _ => None end;
     castDatePath := fun v =>
       match v with
       | JS.Num z => Some (Some z)
       | JS.Null => Some None
       | _ => None
       end;
     enumAllowsNull := true |}.

Definition sampleSop : string :=
  "I need this scholarship to continue my engineering studies next year.".

(** A body with the sixteen fields of the form and nothing else. *)
Definition sampleSubmit : SubmitBody :=
  {| sb_name := JS.Str "Asha Patil";
     sb_email := JS.Str "a@b.com";
     sb_phone := JS.Str "9876543210";
     sb_dob := JS.Num 1118793600000;
     sb_gender := JS.Str "Female";
     sb_category := JS.Str "Engineering";
     sb_school := JS.Str "Test College";
     sb_state := JS.Str "Maharashtra";
     sb_district := JS.Str "Pune";
     sb_pincode := JS.Str "411001";
     sb_address := JS.Str "12 Main Road";
     sb_income_amount := JS.Num 150000;
     sb_income_band := JS.Str "1-3 lakh";
     sb_achievements := JS.Str "Science fair winner";
     sb_recommendation := JS.Str "Principal";
     sb_sop := JS.Str sampleSop;
     sb_status := JS.Undefined;
     sb_paymentStatus := JS.Undefined;
     sb_paymentOrderId := JS.Undefined;
     sb_createdAt := JS.Undefined;
     sb_updatedAt := JS.Undefined |}.

Definition set_contact (e p : string) (b : SubmitBody) : SubmitBody :=
  mkSubmitBody (sb_name b) (JS.Str e) (JS.Str p) (sb_dob b) (sb_gender b)
    (sb_category b) (sb_school b) (sb_state b) (sb_district b) (sb_pincode b)
    (sb_address b) (sb_income_amount b) (sb_income_band b)
    (sb_achievements b) (sb_recommendation b) (sb_sop b)
    (sb_status b) (sb_paymentStatus b) (sb_paymentOrderId b)
    (sb_createdAt b) (sb_updatedAt b).

Definition set_pincode (p : JS.value) (b : SubmitBody) : SubmitBody :=
  mkSubmitBody (sb_name b) (sb_email b) (sb_phone b) (sb_dob b) (sb_gender b)
    (sb_category b) (sb_school b) (sb_state b) (sb_district b) p
    (sb_address b) (sb_income_amount b) (sb_income_band b)
    (sb_achievements b) (sb_recommendation b) (sb_sop b)
    (sb_status b) (sb_paymentStatus b) (sb_paymentOrderId b)
    (sb_createdAt b) (sb_updatedAt b).

Definition set_name (n : JS.value) (b : SubmitBody) : SubmitBody :=
  mkSubmitBody n (sb_email b) (sb_phone b) (sb_dob b) (sb_gender b)
    (sb_category b) (sb_school b) (sb_state b) (sb_district b) (sb_pincode b)
    (sb_address b) (sb_income_amount b) (sb_income_band b)
    (sb_achievements b) (sb_recommendation b) (sb_sop b)
    (sb_status b) (sb_paymentStatus b) (sb_paymentOrderId b)
    (sb_createdAt b) (sb_updatedAt b).

Definition set_gender (g : JS.value) (b : SubmitBody) : SubmitBody :=
  mkSubmitBody (sb_name b) (sb_email b) (sb_phone b) (sb_dob b) g
    (sb_category b) (sb_school b) (sb_state b) (sb_district b) (sb_pincode b)
    (sb_address b) (sb_income_amount b) (sb_income_band b)
    (sb_achievements b) (sb_recommendation b) (sb_sop b)
    (sb_status b) (sb_paymentStatus b) (sb_paymentOrderId b)
    (sb_createdAt b) (sb_updatedAt b).

Definition set_achievements (a : JS.value) (b : SubmitBody) : SubmitBody :=
  mkSubmitBody (sb_name b) (sb_email b) (sb_phone b) (sb_dob b) (sb_gender b)
    (sb_category b) (sb_school b) (sb_state b) (sb_district b) (sb_pincode b)
    (sb_address b) (sb_income_amount b) (sb_income_band b)
    a (sb_recommendation b) (sb_sop b)
    (sb_status b) (sb_paymentStatus b) (sb_paymentOrderId b)
    (sb_createdAt b) (sb_updatedAt b).

(** The same body with the five paths the form does not have. *)
Definition set_record (status paymentStatus paymentOrderId createdAt
                       updatedAt : JS.value) (b : SubmitBody) : SubmitBody :=
  mkSubmitBody (sb_name b) (sb_email b) (sb_phone b) (sb_dob b) (sb_gender b)
    (sb_category b) (sb_school b) (sb_state b) (sb_district b) (sb_pincode b)
    (sb_address b) (sb_income_amount b) (sb_income_band b)
    (sb_achievements b) (sb_recommendation b) (sb_sop b)
    status paymentStatus paymentOrderId createdAt updatedAt.

Definition emptyWorld : World := mkWorld (mkTokenCache None (Some 0)) [] [] [].

Definition sampleToken : TokenData := mkTokenData (Some "tok-1") (Some 1750003600).

Definition samplePay : PayData :=
  mkPayData (Some "OMO123") (Some "https://gateway.example/pay/OMO123")
    (Some "PENDING") (Some 1750001800000).

Definition statusOf (st : string) : StatusData :=
  mkStatusData (Some st) (Some "OMO123").

(** A request environment at time [t] in which the gateway answers the
    token and order calls and reports [st] for the order. *)
Definition sampleEnv (t : Z) (st : string) : Env :=
  mkEnv t 123 (Resolved (Some sampleToken)) (Resolved (Some samplePay))
    (Resolved (Some (statusOf st))) true MailSent.


(** The same with a gateway that rejects every call. *)
Definition downEnv (t : Z) : Env :=
  mkEnv t 123 (Rejected None None) (Rejected None None) (Rejected None None)
    true MailSent.

Definition samplePayment (appId moid : string) (st : PaymentStatus)
  (created updated : Z) : Payment :=
  mkPayment appId moid (Some "OMO123") 9900 st (BlobPay samplePay)
    created updated.

Definition sampleInitiate (appId moid : string) (amount : Z) : PaymentBody :=
  mkPaymentBody (Some appId) (JS.Num amount) (Some "Asha Patil")
    (Some "a@b.com") (Some "9876543210") (Some moid).

Definition sampleApplication (id : string) (st : Lifecycle) (ps : PayState)
  (ref : option string) : Application :=
  mkApplication id "Asha Patil" "a@b.com" "9876543210" 1118793600000 "Female"
    "Engineering" "Test College" "Maharashtra" "Pune" "411001" "12 Main Road"
    150000 "1-3 lakh" "Science fair winner" "Principal" sampleSop
    st ps ref (Some 1750000000000) (Some 1750000000000).

(** A world with one PaymentOrder, "MO_1" of application "APP1", and no
    Application. *)
Definition orderWorld (st : PaymentStatus) (created updated : Z) : World :=
  mkWorld (mkTokenCache None (Some 0)) []
    [samplePayment "APP1" "MO_1" st created updated] [].

(** The same with the Application "APP1" stored. *)
Definition linkedWorld (life : Lifecycle) (ps : PayState)
  (ref : option string) (st : PaymentStatus) : World :=
  mkWorld (mkTokenCache None (Some 0)) [sampleApplication "APP1" life ps ref]
    [samplePayment "APP1" "MO_1" st 0 0] [].

(** A world with only the Application "APP1". *)
Definition applicantWorld : World :=
  mkWorld (mkTokenCache None (Some 0))
    [sampleApplication "APP1" app_pending pay_pending None] [] [].

(** A world whose credential cache holds a token expiring at [e]. *)
Definition cachedWorld (e : Z) : World :=
  mkWorld (mkTokenCache (Some "tok-0") (Some e)) [] [] [].

(** The string is empty or starts with a character [trim] keeps. *)
Definition starts_clean (s : string) : Prop :=
  match s with
  | EmptyString => True
  | String c _ => JS.is_space c = false
  end.

(** ** GET /api/application/:applicationId *)

(** [res.status(code).json({ success, message, data })] of the read-only
    route. *)
Record ApplicationReport : Type := mkApplicationReport {
  ar_code : Z;
  ar_success : bool;
  ar_message : string;
  ar_data : option Application
}.

(** [Application.findOne({ applicationId })] *)
Definition Application_findOne (id : string) (l : list Application)
  : option Application :=
  find (fun a => (applicationId a =? id)%string) l.

(** The route reads the store and writes nothing: it maps a world to a
    response. *)
Definition application_handler (w : World) (id : string) : ApplicationReport :=
  match Application_findOne id (applications w) with
  | None => mkApplicationReport 404 false "Application not found" None
  | Some application => mkApplicationReport 200 true "" (Some application)
  end.

(** ** Invariants of the two stores *)

(** No two PaymentOrders share a merchant order id. *)
Definition unique_orders (w : World) : Prop :=
  NoDup (map p_merchantOrderId (payments w)).

(** No two Applications share an identifier, an email or a phone. *)
Definition unique_applicants (w : World) : Prop :=
  NoDup (map applicationId (applications w))
  /\ NoDup (map email (applications w))
  /\ NoDup (map phone (applications w)).

(** [l'] is [l] followed by more. *)
Definition extends {A : Type} (l l' : list A) : Prop :=
  exists more, l' = (l ++ more)%list.

(** An Application apart from the four fields reconciliation writes:
    those are reset to fixed values. *)
Definition identity_of (a : Application) : Application :=
  mkApplication (applicationId a) (name a) (email a) (phone a) (dob a)
    (gender a) (category a) (school a) (state a) (district a) (pincode a)
    (address a) (income_amount a) (income_band a) (achievements a)
    (recommendation a) (sop a) app_pending pay_pending None (createdAt a)
    None.

(** The fields of a PaymentOrder that reconciliation does not write. *)
Definition order_identity (p : Payment) : string * string * Z * Z :=
  (p_applicationId p, p_merchantOrderId p, p_amount p, p_createdAt p).

(** Calls to the gateway recorded in a trace. *)
Fixpoint gateway_calls (t : list Event) : list Event :=
  match t with
  | [] => []
  | TokenExchange :: r => TokenExchange :: gateway_calls r
  | CreateOrder m :: r => CreateOrder m :: gateway_calls r
  | StatusQuery m :: r => StatusQuery m :: gateway_calls r
  | _ :: r => gateway_calls r
  end.

(** ** The browser client ([src/script.js]) *)

(** What [formData.get] gives for each field of the form: a string, or
    [None] for [null]. *)
Record Form : Type := mkForm {
  f_name : option string;
  f_email : option string;
  f_phone : option string;
  f_dob : option string;
  f_gender : option string;
  f_category : option string;
  f_school : option string;
  f_state : option string;
  f_district : option string;
  f_pincode : option string;
  f_address : option string;
  f_income_amount : option string;
  f_income_band : option string;
  f_achievements : option string;
  f_recommendation : option string;
  f_sop : option string
}.

(** [!value || value.trim() === ""] *)
Definition form_blank (value : option string) : bool :=
  match value with
  | Some s => (s =? "")%string || (JS.trim s =? "")%string
  | None => true
  end.

(** [requiredFields], each with the value the form holds for it. *)
Definition requiredFields (formData : Form) : list (option string * string) :=
  [(f_name formData, "Full Name");
   (f_email formData, "Email");
   (f_phone formData, "Mobile Number");
   (f_dob formData, "Date of Birth");
   (f_gender formData, "Gender");
   (f_category formData, "Class/Course");
   (f_school formData, "School/College");
   (f_state formData, "State");
   (f_district formData, "District");
   (f_pincode formData, "Pincode");
   (f_address formData, "Address");
   (f_income_amount formData, "Family Income");
   (f_income_band formData, "Income Band");
   (f_sop formData, "Statement of Purpose")].

(** The [for (const field of requiredFields)] loop: the message of the
    first blank field. *)
Fixpoint first_blank (fields : list (option string * string))
  : option string :=
  match fields with
  | [] => None
  | (value, label) :: rest =>
      if form_blank value then Some (label ++ " is required.")%string
      else first_blank rest
  end.

(** [re.test(v)]: [null] is tested as the string "null". *)
Definition regex_test (re : string -> bool) (v : option string) : bool :=
  match v with
  | Some s => re s
  | None => re "null"
  end.

(** [validateFormData(formData)]: the first violation, or [null].
    [consent] is the checkbox: [None] when the element is missing.
    Reading [sop.length] of a missing statement would raise; the loop
    has returned before. *)
Definition validateFormData (formData : Form) (consent : option bool)
  : Result (option string) :=
  match first_blank (requiredFields formData) with
  | Some msg => Ok (Some msg)
  | None =>
      if negb (regex_test validatePhoneNumber (f_phone formData)) then
        Ok (Some "Please enter a valid 10-digit mobile number starting with 6-9.")
      else if negb (regex_test formEmail (f_email formData)) then
        Ok (Some "Please enter a valid email address.")
      else if negb (regex_test formPincode (f_pincode formData)) then
        Ok (Some "Please enter a valid 6-digit pincode.")
      else
        match f_sop formData with
        | None => Throw PlainError
        | Some sop =>
            if JS.length sop <? 50 then
              Ok (Some "Statement of Purpose must be at least 50 characters long.")
            else
              match consent with
              | Some true => Ok None
              | _ => Ok (Some "Please accept the terms and conditions.")
              end
        end
  end.

(** A form value as JSON carries it. *)
Definition text_value (v : option string) : JS.value :=
  match v with
  | Some s => JS.Str s
  | None => JS.Null
  end.

(** [formData.get(f) || ""] *)
Definition or_empty (v : option string) : option string :=
  match v with
  | Some s => Some s
  | None => Some ""
  end.

(** [applicationData] as the server receives it.  [parseFloat] is the
    global function, [None] for [NaN], which JSON carries as [null];
    the [applicationId] the client adds is overwritten by the server,
    and the client sends none of the five paths after [sop]. *)
Definition applicationData (parseFloat : option string -> option Z)
  (formData : Form) : SubmitBody :=
  {| sb_name := text_value (f_name formData);
     sb_email := text_value (f_email formData);
     sb_phone := text_value (f_phone formData);
     sb_dob := text_value (f_dob formData);
     sb_gender := text_value (f_gender formData);
     sb_category := text_value (f_category formData);
     sb_school := text_value (f_school formData);
     sb_state := text_value (f_state formData);
     sb_district := text_value (f_district formData);
     sb_pincode := text_value (f_pincode formData);
     sb_address := text_value (f_address formData);
     sb_income_amount :=
       match parseFloat (f_income_amount formData) with
       | Some z => JS.Num z
       | None => JS.Null
       end;
     sb_income_band := text_value (f_income_band formData);
     sb_achievements := text_value (or_empty (f_achievements formData));
     sb_recommendation := text_value (or_empty (f_recommendation formData));
     sb_sop := text_value (f_sop formData);
     sb_status := JS.Undefined;
     sb_paymentStatus := JS.Undefined;
     sb_paymentOrderId := JS.Undefined;
     sb_createdAt := JS.Undefined;
     sb_updatedAt := JS.Undefined |}.

(** [value.replace(/\D/g, "")] *)
Fixpoint keep_digits (s : string) : string :=
  match s with
  | EmptyString => EmptyString
  | String c r =>
      if JS.is_digit c then String c (keep_digits r) else keep_digits r
  end.

(** The [input] listeners of the phone ([n = 10]) and pincode ([n = 6])
    fields: digits only, cut to [n] characters. *)
Definition formatDigits (n : nat) (s : string) : string :=
  let value := keep_digits s in
  if (n <? String.length value)%nat then substring 0 n value else value.

(** A form the browser accepts. *)
Definition sampleForm : Form :=
  mkForm (Some "Asha Patil") (Some "a@b.com") (Some "9876543210")
    (Some "2005-06-15") (Some "Female") (Some "Engineering")
    (Some "Test College") (Some "Maharashtra") (Some "Pune") (Some "411001")
    (Some "12 Main Road") (Some "150000") (Some "1-3 lakh")
    (Some "Science fair winner") (Some "Principal") (Some sampleSop).

Definition set_sop (s : option string) (f : Form) : Form :=
  mkForm (f_name f) (f_email f) (f_phone f) (f_dob f) (f_gender f)
    (f_category f) (f_school f) (f_state f) (f_district f) (f_pincode f)
    (f_address f) (f_income_amount f) (f_income_band f) (f_achievements f)
    (f_recommendation f) s.

(** [parseFloat] on the numeral of the sample form; the stand-in reads
    no other string. *)
Definition sampleParseFloat (v : option string) : option Z :=
  match v with
  | Some "150000" => Some 150000
  | _ => None
  end.

(** *** The submit listener of the form *)

(** [res.ok] *)
Definition res_ok (r : Response) : bool := (200 <=? code r) && (code r <=? 299).

(** [a || b] on two strings *)
Definition or_text (a b : string) : string :=
  if (a =? "")%string then b else a.

(** The error the listener throws and shows; the text of a payment
    error quotes the raw response body and is not kept. *)
Inductive Failure : Type :=
| ServerError (status : Z) (errorText : string)
| ApplicationRefused (message : string)
| PaymentError (status : Z)
| PaymentRefused (message : string)
| NoPaymentUrl.

Inductive ClientOutcome : Type :=
| FormRejected (message : string)
| FormCrashed
| Cancelled
| Failed (f : Failure)
| Redirected (paymentUrl applicationId merchantOrderId : string).

(** [paymentData] *)
Definition paymentData (formData : Form) (applicationId merchantOrderId : string)
  : PaymentBody :=
  mkPaymentBody (Some applicationId) (JS.Num 99) (f_name formData)
    (f_email formData) (f_phone formData) (Some merchantOrderId).

(** From [// Step 2: Initiate payment] on.  Once the response says
    success the two identifiers are put in [localStorage], and with a
    payment URL the browser is sent there: [Redirected] carries the
    three. *)
Definition initiatePayment (formData : Form)
  (applicationId merchantOrderId : string) (env : Env) (w1 : World)
  : ClientOutcome * World :=
  let '(paymentRes, w2) :=
    initiate env w1 (paymentData formData applicationId merchantOrderId) in
  if negb (res_ok paymentRes) then (Failed (PaymentError (code paymentRes)), w2)
  else if negb (success paymentRes) then
    (Failed (PaymentRefused
               (or_text (message paymentRes) "Failed to initiate payment")),
     w2)
  else
    match payload paymentRes with
    | Initiated _ (Some paymentUrl) _ _ =>
        if negb (paymentUrl =? "")%string then
          (Redirected paymentUrl applicationId merchantOrderId, w2)
        else (Failed NoPaymentUrl, w2)
    | _ => (Failed NoPaymentUrl, w2)
    end.

(** The [submit] listener against the server: [applicationId] and
    [merchantOrderId] are what [generateApplicationId] and
    [generateMerchantOrderId] returned, [continuePayment] is what the
    user would answer to [confirm], [env1] and [env2] are the
    environments of the two requests. *)
Definition submitForm {ext : Externals}
  (parseFloat : option string -> option Z) (formData : Form)
  (consent : option bool) (applicationId merchantOrderId : string)
  (continuePayment : bool) (env1 env2 : Env) (w : World)
  : ClientOutcome * World :=
  match validateFormData formData consent with
  | Throw _ => (FormCrashed, w)
  | Ok (Some validationError) => (FormRejected validationError, w)
  | Ok None =>
      let '(applicationRes, w1) :=
        submit env1 w (applicationData parseFloat formData) in
      if negb (res_ok applicationRes) then
        (Failed (ServerError (code applicationRes)
                   (or_text (message applicationRes)
                      ("HTTP " ++ JS.show (code applicationRes)))),
         w1)
      else if negb (success applicationRes) then
        if code applicationRes =? 409 then
          if negb continuePayment then (Cancelled, w1)
          else initiatePayment formData applicationId merchantOrderId env2 w1
        else
          (Failed (ApplicationRefused
                     (or_text (message applicationRes)
                        "Failed to submit application")),
           w1)
      else initiatePayment formData applicationId merchantOrderId env2 w1
  end.

(** *** The status page *)




(** Externals for evaluating the browser against the server: as
    [sampleExternals], and [new Date] reads the date of the sample
    form. *)
Definition formExternals : Externals :=
  {| isEmail := formEmail;
     castDate := fun v =>
       match v with
       | JS.Num z => Some z
       | JS.Str "2005-06-15" => Some 1118793600000
       | _ => None
       end;
     castNumber := @castNumber sampleExternals;
     castDatePath := @castDatePath sampleExternals;
     enumAllowsNull := @enumAllowsNull sampleExternals |}.

(** A world with two orders, "MO_1" and "MO_2", of two applications. *)
Definition twoOrdersWorld : World :=
  mkWorld (mkTokenCache None (Some 0))
    [sampleApplication "APP1" app_pending pay_pending None]
    [samplePayment "APP1" "MO_1" pending 0 0;
     samplePayment "APP2" "MO_2" initiated 0 0] [].

(** ** Facts about the stores and the trace *)

Lemma confirmation_emails_app (t u : list Event) :
  confirmation_emails (t ++ u)
  = (confirmation_emails t + confirmation_emails u)%nat.
Proof.
  induction t as [|e t IH]; simpl; [reflexivity|].
  destruct e; simpl; rewrite IH; reflexivity.
Qed.

Lemma findOneAndUpdate_fst {A : Type} (q : A -> bool) (f : A -> A)
  (l : list A) :
  fst (findOneAndUpdate q f l) = option_map f (find q l).
Proof.
  induction l as [|x r IH]; simpl; [reflexivity|].
  destruct (q x); simpl; [reflexivity|].
  destruct (findOneAndUpdate q f r); simpl in *; exact IH.
Qed.

Lemma findOneAndUpdate_none {A : Type} (q : A -> bool) (f : A -> A)
  (l : list A) :
  find q l = None -> snd (findOneAndUpdate q f l) = l.
Proof.
  induction l as [|x r IH]; simpl; [reflexivity|].
  destruct (q x); [discriminate|]; intros H.
  destruct (findOneAndUpdate q f r); simpl in *. rewrite IH; auto.
Qed.

(** A query that the patch does not disturb sees the patched first match. *)
Lemma findOneAndUpdate_find_same {A : Type} (q : A -> bool) (f : A -> A)
  (l : list A) :
  (forall x, q (f x) = q x) ->
  find q (snd (findOneAndUpdate q f l)) = option_map f (find q l).
Proof.
  intros Hq. induction l as [|x r IH]; simpl; [reflexivity|].
  destruct (q x) eqn:E; simpl.
  - rewrite Hq, E. reflexivity.
  - destruct (findOneAndUpdate q f r); simpl in *. rewrite E. exact IH.
Qed.

Lemma findOneAndUpdate_find_other {A : Type} (q q' : A -> bool) (f : A -> A)
  (l : list A) :
  (forall x, q' (f x) = q' x) ->
  find q' l = None <-> find q' (snd (findOneAndUpdate q f l)) = None.
Proof.
  intros Hq. induction l as [|x r IH]; simpl; [tauto|].
  destruct (q x) eqn:E; simpl.
  - rewrite Hq. destruct (q' x); [split; discriminate | tauto].
  - destruct (findOneAndUpdate q f r); simpl in *.
    destruct (q' x); [split; discriminate | exact IH].
Qed.

Lemma find_app_none {A : Type} (q : A -> bool) (l : list A) (x : A) :
  find q l = None -> find q (l ++ [x]) = if q x then Some x else None.
Proof.
  induction l as [|y r IH]; simpl; [reflexivity|].
  destruct (q y); [discriminate | exact IH].
Qed.

Lemma find_app_some {A : Type} (q : A -> bool) (l : list A) (x y : A) :
  find q l = Some y -> find q (l ++ [x]) = Some y.
Proof.
  induction l as [|z r IH]; simpl; [discriminate|].
  destruct (q z); [auto | exact IH].
Qed.

Lemma find_none_existsb {A : Type} (q : A -> bool) (l : list A) :
  find q l = None <-> existsb q l = false.
Proof.
  induction l as [|x r IH]; simpl; [tauto|].
  destruct (q x); simpl; [split; discriminate | exact IH].
Qed.

(** ** Credential cache *)

Lemma cache_fresh_some (c : TokenCache) (t : Z) (tok : string) :
  cache_fresh c t = Some tok <->
  token c = Some tok /\ tok <> ""
  /\ exists e, expiresAt c = Some e /\ t < e - 60000.
Proof.
  unfold cache_fresh. split.
  - destruct (token c) as [k|]; [|discriminate].
    destruct (expiresAt c) as [e|]; [|discriminate].
    destruct (String.eqb_spec k ""); simpl; [discriminate|].
    destruct (Z.ltb_spec t (e - 60000)); [|discriminate].
    intros Heq; inversion Heq; subst. repeat split; eauto.
  - intros (Ht & Hn & e & He & Hlt). rewrite Ht, He.
    destruct (String.eqb_spec tok ""); [contradiction|]. simpl.
    destruct (Z.ltb_spec t (e - 60000)); [reflexivity | lia].
Qed.

(** C9: a cached token more than 60 seconds away from its expiry is
    returned and nothing is sent to the gateway: the world, its trace
    included, is what it was.  Otherwise one token exchange is made,
    which the trace records, and neither store changes: a granted
    token is returned and the cache afterwards holds it with its
    expiry in milliseconds; after a failed exchange the cache holds no
    token and the expiry 0, and the failure is thrown to the caller. *)
Theorem generateAuthToken_contract (env : Env) (w : World) :
  let r := fst (generateAuthToken env w) in
  let w' := snd (generateAuthToken env w) in
  (forall tok e,
      token (tokenCache w) = Some tok -> tok <> "" ->
      expiresAt (tokenCache w) = Some e -> now env < e - 60000 ->
      r = Ok tok /\ w' = w /\ trace w' = trace w)
  /\ (~ (exists tok e,
            token (tokenCache w) = Some tok /\ tok <> ""
            /\ expiresAt (tokenCache w) = Some e /\ now env < e - 60000) ->
      trace w' = (trace w ++ [TokenExchange])%list
      /\ applications w' = applications w /\ payments w' = payments w
      /\ (forall tok exp,
            granted (token_reply env) = Some (tok, exp) ->
            r = Ok tok
            /\ token (tokenCache w') = Some tok
            /\ expiresAt (tokenCache w')
               = option_map (fun s => s * 1000) exp)
      /\ (granted (token_reply env) = None ->
          r = Throw PlainError
          /\ token (tokenCache w') = None
          /\ expiresAt (tokenCache w') = Some 0)).
Proof.
  cbv zeta. split.
  - intros tok e Ht Hn He Hlt. unfold generateAuthToken.
    assert (Hc : cache_fresh (tokenCache w) (now env) = Some tok)
      by (apply cache_fresh_some; eauto).
    rewrite Hc. simpl. auto.
  - intros Hstale.
    assert (Hc : cache_fresh (tokenCache w) (now env) = None).
    { destruct (cache_fresh (tokenCache w) (now env)) as [tok|] eqn:E;
        [|reflexivity].
      apply cache_fresh_some in E. destruct E as (Ht & Hn & e & He & Hlt).
      exfalso. apply Hstale. exists tok, e. auto. }
    unfold generateAuthToken, granted. rewrite Hc.
    assert (Hfail :
              let w' := set_tokenCache cleared (emit TokenExchange w) in
              trace w' = (trace w ++ [TokenExchange])%list
              /\ applications w' = applications w
              /\ payments w' = payments w
              /\ token (tokenCache w') = None
              /\ expiresAt (tokenCache w') = Some 0)
      by (simpl; auto).
    cbv zeta in Hfail. destruct Hfail as (Ft & Fa & Fp & Fk & Fe).
    destruct (token_reply env) as [[d|]|];
      try (cbn [fst snd]; split; [exact Ft|]; split; [exact Fa|];
           split; [exact Fp|]; split; [discriminate | auto]).
    destruct (access_token d) as [k|];
      try (cbn [fst snd]; split; [exact Ft|]; split; [exact Fa|];
           split; [exact Fp|]; split; [discriminate | auto]).
    destruct (negb (k =? "")%string);
      try (cbn [fst snd]; split; [exact Ft|]; split; [exact Fa|];
           split; [exact Fp|]; split; [discriminate | auto]).
    cbn [fst snd]. split; [reflexivity|]. split; [reflexivity|].
    split; [reflexivity|]. split; [|discriminate].
    intros tok exp H. inversion H; subst. simpl. auto.
Qed.

(** The credential cache touches neither store and sends no email. *)
Lemma generateAuthToken_frame (env : Env) (w : World) :
  let w' := snd (generateAuthToken env w) in
  applications w' = applications w /\ payments w' = payments w
  /\ confirmation_emails (trace w') = confirmation_emails (trace w).
Proof.
  unfold generateAuthToken.
  destruct (cache_fresh (tokenCache w) (now env)); simpl; [auto|].
  assert (H : confirmation_emails (trace w ++ [TokenExchange])
              = confirmation_emails (trace w))
    by (rewrite confirmation_emails_app; simpl; lia).
  destruct (token_reply env) as [[d|]|]; simpl; auto.
  destruct (access_token d) as [k|]; simpl; auto.
  destruct (negb (k =? "")%string); simpl; auto.
Qed.

(** ** Payment initiation *)

Lemma required_sanitize (o : option string) :
  required_text (sanitizeText o) = sanitizeText o.
Proof.
  destruct o as [s|]; simpl; [|reflexivity].
  destruct (String.eqb_spec (JS.trim s) ""); simpl; [reflexivity|].
  destruct (String.eqb_spec (JS.trim s) ""); [contradiction | reflexivity].
Qed.

Lemma initiate_handler_accepted (env : Env) (w : World) (body : PaymentBody)
  (a m : string) :
  accepted_fields body = Some (a, m) ->
  initiate_handler env w body = initiate_order env w a m 99.
Proof.
  unfold accepted_fields, initiate_handler.
  destruct (required_text (pb_applicationId body)); [|discriminate].
  destruct (JS.truthy (pb_amount body)); [|discriminate].
  destruct (required_text (pb_name body)); [|discriminate].
  destruct (required_text (pb_email body)); [|discriminate].
  destruct (required_text (pb_phone body)); [|discriminate].
  destruct (required_text (pb_merchantOrderId body)); [|discriminate].
  destruct (JS.strict_eq_num (pb_amount body) 99); [|discriminate].
  intros H; inversion H; subst. reflexivity.
Qed.

Lemma initiate_handler_refused (env : Env) (w : World) (body : PaymentBody) :
  accepted_fields body = None ->
  code (fst (initiate_handler env w body)) = 400
  /\ snd (initiate_handler env w body) = w.
Proof.
  unfold accepted_fields, initiate_handler.
  destruct (required_text (pb_applicationId body)); [|auto].
  destruct (JS.truthy (pb_amount body)); [|auto].
  destruct (required_text (pb_name body)); [|auto].
  destruct (required_text (pb_email body)); [|auto].
  destruct (required_text (pb_phone body)); [|auto].
  destruct (required_text (pb_merchantOrderId body)); [|auto].
  destruct (JS.strict_eq_num (pb_amount body) 99); [discriminate | auto].
Qed.

Lemma accepted_fields_order_id (body : PaymentBody) (a m : string) :
  accepted_fields body = Some (a, m) ->
  required_text (pb_merchantOrderId body) = Some m
  /\ required_text (pb_applicationId body) = Some a
  /\ pb_amount body = JS.Num 99.
Proof.
  unfold accepted_fields.
  destruct (required_text (pb_applicationId body)); [|discriminate].
  destruct (JS.truthy (pb_amount body)); [|discriminate].
  destruct (required_text (pb_name body)); [|discriminate].
  destruct (required_text (pb_email body)); [|discriminate].
  destruct (required_text (pb_phone body)); [|discriminate].
  destruct (required_text (pb_merchantOrderId body)); [|discriminate].
  destruct (pb_amount body) as [| |b|z|txt]; simpl; try discriminate.
  destruct (Z.eqb_spec z 99); [|discriminate].
  intros H; inversion H; subst. auto.
Qed.

Lemma Payment_save_fresh (p : Payment) (l : list Payment) :
  Payment_findOne (p_merchantOrderId p) l = None ->
  Payment_save p l = Some (l ++ [p])%list.
Proof.
  unfold Payment_findOne, Payment_save. intros H.
  apply find_none_existsb in H. rewrite H. reflexivity.
Qed.

Lemma complete_order_some (r : Axios PayData) (d : PayData) :
  complete_order r = Some d <->
  r = Resolved (Some d) /\ JS.truthy_text (pd_redirectUrl d) = true
  /\ JS.truthy_text (pd_orderId d) = true.
Proof.
  unfold complete_order. split.
  - destruct r as [[d'|]|]; try discriminate.
    destruct (JS.truthy_text (pd_redirectUrl d')) eqn:E1; [|discriminate].
    destruct (JS.truthy_text (pd_orderId d')) eqn:E2; [|discriminate].
    simpl. intros H; inversion H; subst. auto.
  - intros (-> & -> & ->). reflexivity.
Qed.

(** An order that gets past the two local lookups is saved exactly when
    a token is obtained and the gateway's reply is complete. *)
Lemma initiate_order_gateway (env : Env) (w : World) (a m : string) :
  Payment_findOne m (payments w) = None ->
  checkDuplicatePayment (now env) (payments w) a 30 = None ->
  let r := fst (initiate_order env w a m 99) in
  let w' := snd (initiate_order env w a m 99) in
  applications w' = applications w
  /\ confirmation_emails (trace w') = confirmation_emails (trace w)
  /\ match fst (generateAuthToken env w), complete_order (pay_reply env) with
     | Ok _, Some data =>
         r = mkResponse 200 true "Payment initiated successfully"
               (Initiated (pd_orderId data) (pd_redirectUrl data)
                  (pd_state data) (pd_expireAt data))
         /\ payments w'
            = (payments w
               ++ [mkPayment a m (pd_orderId data) 9900 initiated
                     (BlobPay data) (now env) (now env)])%list
     | _, _ => code r = 500 /\ success r = false /\ payments w' = payments w
     end.
Proof.
  intros Hfind Hdup. unfold initiate_order. rewrite Hfind, Hdup.
  pose proof (generateAuthToken_frame env w) as (Ha & Hp & He).
  destruct (generateAuthToken env w) as [[tok|e] w1]; simpl in *.
  - assert (Hem : confirmation_emails (trace w1 ++ [CreateOrder m])
                  = confirmation_emails (trace w))
      by (rewrite confirmation_emails_app, He; simpl; lia).
    unfold complete_order.
    destruct (pay_reply env) as [[data|]|mm cc]; simpl; auto.
    destruct (JS.truthy_text (pd_redirectUrl data)
              && JS.truthy_text (pd_orderId data)); simpl; auto.
    rewrite Payment_save_fresh by (simpl; rewrite Hp; exact Hfind).
    simpl. rewrite Hp. auto.
  - auto.
Qed.

(** Whatever the request, an initiation either answers 200 and appends
    one PaymentOrder with the requested merchant order id, which no
    stored order had, or answers something else and leaves both stores
    as they were. *)
Lemma initiate_cases (env : Env) (w : World) (raw : PaymentBody) :
  let r := fst (initiate env w raw) in
  let w' := snd (initiate env w raw) in
  applications w' = applications w
  /\ confirmation_emails (trace w') = confirmation_emails (trace w)
  /\ ((code r = 200
       /\ exists a m data,
           accepted_fields (sanitizePayment raw) = Some (a, m)
           /\ Payment_findOne m (payments w) = None
           /\ payments w'
              = (payments w
                 ++ [mkPayment a m (pd_orderId data) 9900 initiated
                       (BlobPay data) (now env) (now env)])%list)
      \/ (code r <> 200 /\ payments w' = payments w)).
Proof.
  unfold initiate.
  destruct (accepted_fields (sanitizePayment raw)) as [[a m]|] eqn:Eacc.
  - rewrite (initiate_handler_accepted _ _ _ _ _ Eacc).
    destruct (Payment_findOne m (payments w)) as [p|] eqn:Ef.
    { unfold initiate_order. rewrite Ef. simpl.
      repeat split; auto. right. split; [discriminate | reflexivity]. }
    destruct (checkDuplicatePayment (now env) (payments w) a 30) as [p|] eqn:Ed.
    { unfold initiate_order. rewrite Ef, Ed. simpl.
      repeat split; auto. right. split; [discriminate | reflexivity]. }
    pose proof (initiate_order_gateway env w a m Ef Ed) as (Ha & He & Hg).
    split; [exact Ha|]. split; [exact He|].
    destruct (fst (generateAuthToken env w));
      [destruct (complete_order (pay_reply env)) as [data|]|].
    + destruct Hg as (Hr & Hp). left. rewrite Hr. split; [reflexivity|].
      exists a, m, data. auto.
    + destruct Hg as (Hc & _ & Hp). right. split; [lia | exact Hp].
    + destruct Hg as (Hc & _ & Hp). right. split; [lia | exact Hp].
  - pose proof (initiate_handler_refused env w _ Eacc) as (Hc & Hw).
    rewrite Hw. repeat split; auto. right. split; [lia | reflexivity].
Qed.

(** C3: an initiation that passes the local gates saves a PaymentOrder,
    with status initiated, only when the gateway's reply carries a
    redirect URL and an order id; when the token or the order call
    fails, or the reply lacks either field, both stores are unchanged
    and the answer is a 500. *)
Theorem initiate_persists_only_on_complete_reply
  (env : Env) (w : World) (raw : PaymentBody) (a m : string) :
  accepted_fields (sanitizePayment raw) = Some (a, m) ->
  Payment_findOne m (payments w) = None ->
  checkDuplicatePayment (now env) (payments w) a 30 = None ->
  let r := fst (initiate env w raw) in
  let w' := snd (initiate env w raw) in
  (payments w' <> payments w ->
   exists data,
     pay_reply env = Resolved (Some data)
     /\ JS.truthy_text (pd_redirectUrl data) = true
     /\ JS.truthy_text (pd_orderId data) = true
     /\ payments w'
        = (payments w
           ++ [mkPayment a m (pd_orderId data) 9900 initiated (BlobPay data)
                 (now env) (now env)])%list)
  /\ ((exists e, fst (generateAuthToken env w) = Throw e)
      \/ complete_order (pay_reply env) = None ->
      payments w' = payments w /\ applications w' = applications w
      /\ code r = 500 /\ success r = false)
  /\ (forall tok data,
        fst (generateAuthToken env w) = Ok tok ->
        complete_order (pay_reply env) = Some data ->
        code r = 200
        /\ payload r = Initiated (pd_orderId data) (pd_redirectUrl data)
                         (pd_state data) (pd_expireAt data)
        /\ payments w'
           = (payments w
              ++ [mkPayment a m (pd_orderId data) 9900 initiated
                    (BlobPay data) (now env) (now env)])%list).
Proof.
  intros Hacc Hfind Hdup. unfold initiate.
  rewrite (initiate_handler_accepted _ _ _ _ _ Hacc).
  pose proof (initiate_order_gateway env w a m Hfind Hdup) as (Ha & _ & Hg).
  cbv zeta. split; [|split].
  - intros Hchanged.
    destruct (fst (generateAuthToken env w));
      [destruct (complete_order (pay_reply env)) as [data|] eqn:Ec|].
    + destruct Hg as (_ & Hp). apply complete_order_some in Ec.
      destruct Ec as (E1 & E2 & E3). exists data. auto.
    + destruct Hg as (_ & _ & Hp). contradiction.
    + destruct Hg as (_ & _ & Hp). contradiction.
  - intros [[e He] | Hc].
    + rewrite He in Hg. destruct Hg as (? & ? & ?). auto.
    + rewrite Hc in Hg.
      destruct (fst (generateAuthToken env w)); destruct Hg as (? & ? & ?);
        auto.
  - intros tok data Ht Hc. rewrite Ht, Hc in Hg. destruct Hg as (Hr & Hp).
    rewrite Hr. auto.
Qed.

(** ** Reconciliation *)

Lemma map_state_eq (o : option string) (p : Payment) :
  map_state o p
  = (localStatus_of o,
     if is_COMPLETED o then paid else app_pending,
     is_COMPLETED o && negb (PaymentStatus_eqb (p_status p) completed)).
Proof.
  unfold map_state, localStatus_of, is_COMPLETED.
  destruct o as [st|]; [|reflexivity].
  destruct (st =? "COMPLETED")%string; [reflexivity|].
  destruct (st =? "FAILED")%string; [reflexivity|].
  destruct (st =? "PENDING")%string; reflexivity.
Qed.

Lemma localStatus_of_completed (o : option string) :
  PaymentStatus_eqb (localStatus_of o) completed = is_COMPLETED o.
Proof.
  unfold localStatus_of, is_COMPLETED. destruct o as [st|]; [|reflexivity].
  destruct (st =? "COMPLETED")%string; [reflexivity|].
  destruct (st =? "FAILED")%string; reflexivity.
Qed.

Lemma localStatus_of_range (o : option string) :
  localStatus_of o = completed \/ localStatus_of o = failed
  \/ localStatus_of o = pending.
Proof.
  unfold localStatus_of. destruct o as [st|]; [|auto].
  destruct (st =? "COMPLETED")%string; [auto|].
  destruct (st =? "FAILED")%string; auto.
Qed.

Lemma PaymentStatus_eqb_eq (a b : PaymentStatus) :
  PaymentStatus_eqb a b = true <-> a = b.
Proof. destruct a, b; simpl; split; congruence. Qed.

Lemma sendConfirmationEmail_frame (env : Env) (w : World) (a : Application)
  (o : option string) :
  let w' := snd (sendConfirmationEmail env w a o) in
  tokenCache w' = tokenCache w /\ applications w' = applications w
  /\ payments w' = payments w
  /\ confirmation_emails (trace w') = S (confirmation_emails (trace w)).
Proof.
  unfold sendConfirmationEmail.
  destruct (resend_configured env); simpl;
    [destruct (mail_reply env); simpl|];
    repeat rewrite confirmation_emails_app; simpl; repeat split; lia.
Qed.

Lemma reconcile_spec (env : Env) (w2 : World) (id : string) (p : Payment)
  (data : StatusData) :
  Payment_findOne id (payments w2) = Some p ->
  let r := fst (reconcile env w2 id p data) in
  let w4 := snd (reconcile env w2 id p data) in
  r = mkResponse 200 true ""
        (StatusReport data (p_applicationId p)
           (localStatus_of (sd_state data)) (p_createdAt p) (now env))
  /\ tokenCache w4 = tokenCache w2
  /\ payments w4
     = snd (findOneAndUpdate
              (fun x => (p_merchantOrderId x =? id)%string)
              (patch_payment (localStatus_of (sd_state data)) data (now env))
              (payments w2))
  /\ applications w4
     = snd (findOneAndUpdate
              (fun x => (applicationId x =? p_applicationId p)%string)
              (patch_application (localStatus_of (sd_state data))
                 (if is_COMPLETED (sd_state data) then paid else app_pending)
                 data (now env))
              (applications w2))
  /\ confirmation_emails (trace w4)
     = (confirmation_emails (trace w2)
        + if notifies p data (applications w2) then 1 else 0)%nat.
Proof.
  intros Hfind. unfold reconcile, notifies, linked_application.
  rewrite map_state_eq.
  set (qp := fun x => (p_merchantOrderId x =? id)%string).
  set (fp := patch_payment (localStatus_of (sd_state data)) data (now env)).
  set (qa := fun x => (applicationId x =? p_applicationId p)%string).
  set (fa := patch_application (localStatus_of (sd_state data))
               (if is_COMPLETED (sd_state data) then paid else app_pending)
               data (now env)).
  pose proof (findOneAndUpdate_fst qp fp (payments w2)) as Hup.
  pose proof (findOneAndUpdate_fst qa fa (applications w2)) as Hap.
  destruct (findOneAndUpdate qp fp (payments w2)) as [up ps].
  destruct (findOneAndUpdate qa fa (applications w2)) as [ap apps].
  simpl in Hup, Hap. unfold Payment_findOne in Hfind. fold qp in Hfind.
  rewrite Hfind in Hup. simpl in Hup. subst up. subst ap.
  destruct (find qa (applications w2)) as [a|]; simpl.
  - destruct (is_COMPLETED (sd_state data)
              && negb (PaymentStatus_eqb (p_status p) completed)) eqn:E;
      simpl.
    + apply andb_prop in E as [EA EB]. rewrite EA. simpl.
      pose proof (sendConfirmationEmail_frame env
                    (set_applications apps (set_payments ps w2)) (fa a)
                    (sd_orderId data)) as (Ht & Ha & Hp & He).
      simpl in *. rewrite Ht, Ha, Hp, He. repeat split; auto. lia.
    + repeat split; auto.
  - rewrite Bool.andb_false_r. simpl. repeat split; auto.
Qed.

Lemma is_COMPLETED_iff (o : option string) :
  is_COMPLETED o = true <-> o = Some "COMPLETED".
Proof.
  unfold is_COMPLETED. destruct o as [st|]; [|split; discriminate].
  destruct (String.eqb_spec st "COMPLETED"); split; congruence.
Qed.

Lemma gateway_answer_some (env : Env) (w : World) (id : string) (p : Payment)
  (data : StatusData) :
  gateway_answer env w id = Some (p, data) ->
  id <> "" /\ Payment_findOne id (payments w) = Some p
  /\ (exists tok, fst (generateAuthToken env w) = Ok tok)
  /\ status_reply env = Resolved (Some data).
Proof.
  unfold gateway_answer. destruct (String.eqb_spec id ""); [discriminate|].
  destruct (Payment_findOne id (payments w)) as [q|]; [|discriminate].
  destruct (fst (generateAuthToken env w)) as [tok|]; [|discriminate].
  destruct (status_reply env) as [[d|]|]; try discriminate.
  intros H; inversion H; subst. eauto 6.
Qed.

Lemma after_query_frame (env : Env) (w : World) (id : string) :
  applications (after_query env w id) = applications w
  /\ payments (after_query env w id) = payments w
  /\ confirmation_emails (trace (after_query env w id))
     = confirmation_emails (trace w).
Proof.
  pose proof (generateAuthToken_frame env w) as (Ha & Hp & He).
  unfold after_query. simpl. rewrite confirmation_emails_app. simpl.
  repeat split; auto. simpl in He. lia.
Qed.

Lemma status_handler_answer (env : Env) (w : World) (id : string)
  (p : Payment) (data : StatusData) :
  gateway_answer env w id = Some (p, data) ->
  status_handler env w id = reconcile env (after_query env w id) id p data.
Proof.
  intros H. apply gateway_answer_some in H.
  destruct H as (Hid & Hf & (tok & Ht) & Hs).
  unfold status_handler, after_query.
  destruct (String.eqb_spec id ""); [contradiction|]. rewrite Hf.
  destruct (generateAuthToken env w) as [[t|e] w1]; simpl in *;
    [|discriminate].
  rewrite Hs. reflexivity.
Qed.

Lemma status_handler_no_answer (env : Env) (w : World) (id : string) :
  gateway_answer env w id = None ->
  let r := fst (status_handler env w id) in
  let w' := snd (status_handler env w id) in
  code r <> 200 /\ applications w' = applications w
  /\ payments w' = payments w
  /\ confirmation_emails (trace w') = confirmation_emails (trace w).
Proof.
  unfold gateway_answer, status_handler.
  destruct (String.eqb_spec id ""); simpl.
  { intros _. repeat split; auto; discriminate. }
  destruct (Payment_findOne id (payments w)) as [p|]; simpl.
  2:{ intros _. repeat split; auto; discriminate. }
  pose proof (generateAuthToken_frame env w) as (Ha & Hp & He).
  destruct (generateAuthToken env w) as [[t|e] w1]; simpl in *.
  - assert (Hem : confirmation_emails (trace w1 ++ [StatusQuery id])
                  = confirmation_emails (trace w))
      by (rewrite confirmation_emails_app, He; simpl; lia).
    destruct (status_reply env) as [[d|]|]; simpl; try discriminate;
      intros _; repeat split; auto; discriminate.
  - intros _. repeat split; auto; discriminate.
Qed.

(** What one reconciliation that gets the gateway's answer does. *)
Lemma status_handler_spec (env : Env) (w : World) (id : string) (p : Payment)
  (data : StatusData) :
  gateway_answer env w id = Some (p, data) ->
  let r := fst (status_handler env w id) in
  let w' := snd (status_handler env w id) in
  r = mkResponse 200 true ""
        (StatusReport data (p_applicationId p)
           (localStatus_of (sd_state data)) (p_createdAt p) (now env))
  /\ payments w'
     = snd (findOneAndUpdate
              (fun x => (p_merchantOrderId x =? id)%string)
              (patch_payment (localStatus_of (sd_state data)) data (now env))
              (payments w))
  /\ applications w'
     = snd (findOneAndUpdate
              (fun x => (applicationId x =? p_applicationId p)%string)
              (patch_application (localStatus_of (sd_state data))
                 (if is_COMPLETED (sd_state data) then paid else app_pending)
                 data (now env))
              (applications w))
  /\ confirmation_emails (trace w')
     = (confirmation_emails (trace w)
        + if notifies p data (applications w) then 1 else 0)%nat.
Proof.
  intros H. rewrite (status_handler_answer _ _ _ _ _ H).
  apply gateway_answer_some in H. destruct H as (_ & Hf & _ & _).
  pose proof (after_query_frame env w id) as (Ha & Hp & He).
  assert (Hf' : Payment_findOne id (payments (after_query env w id)) = Some p)
    by (rewrite Hp; exact Hf).
  pose proof (reconcile_spec env _ id p data Hf') as (Hr & _ & Hps & Has & Hes).
  cbv zeta. rewrite Hr, Hps, Has, Hes, Ha, Hp, He. auto.
Qed.

(** The stored order after a reconciliation that got an answer. *)
Lemma status_handler_stored (env : Env) (w : World) (id : string)
  (p : Payment) (data : StatusData) :
  gateway_answer env w id = Some (p, data) ->
  Payment_findOne id (payments (snd (status_handler env w id)))
  = Some (patch_payment (localStatus_of (sd_state data)) data (now env) p).
Proof.
  intros H. pose proof (status_handler_spec _ _ _ _ _ H) as (_ & Hp & _).
  apply gateway_answer_some in H. destruct H as (_ & Hf & _ & _).
  rewrite Hp. unfold Payment_findOne in *.
  rewrite findOneAndUpdate_find_same by reflexivity.
  rewrite Hf. reflexivity.
Qed.

Lemma gateway_answer_reported (env : Env) (w : World) (id : string)
  (p : Payment) (data : StatusData) :
  gateway_answer env w id = Some (p, data) ->
  reported env = Some (sd_state data).
Proof.
  intros H. apply gateway_answer_some in H.
  destruct H as (_ & _ & _ & Hs). unfold reported. rewrite Hs. reflexivity.
Qed.

(** C6 (amended): a reconciliation that gets the gateway's answer
    stores the image of the reported state, completed for COMPLETED,
    failed for FAILED and pending for anything else, whatever the
    status stored before: from initiated and from pending the order
    moves to pending, completed or failed, never back to initiated,
    and a completed or failed order keeps its status only if the
    gateway reports the same state again.  A reconciliation that gets
    no answer leaves the payment store unchanged. *)
Theorem reconciliation_stores_reported_state
  (env : Env) (w : World) (id : string) :
  let w' := snd (status_handler env w id) in
  (forall p data,
      gateway_answer env w id = Some (p, data) ->
      exists p',
        Payment_findOne id (payments w') = Some p'
        /\ (sd_state data = Some "COMPLETED" -> p_status p' = completed)
        /\ (sd_state data = Some "FAILED" -> p_status p' = failed)
        /\ (sd_state data <> Some "COMPLETED" ->
            sd_state data <> Some "FAILED" -> p_status p' = pending)
        /\ p_status p' <> initiated
        /\ p_merchantOrderId p' = p_merchantOrderId p
        /\ p_applicationId p' = p_applicationId p
        /\ p_amount p' = p_amount p
        /\ p_createdAt p' = p_createdAt p)
  /\ (gateway_answer env w id = None -> payments w' = payments w).
Proof.
  cbv zeta. split.
  - intros p data H. rewrite (status_handler_stored _ _ _ _ _ H).
    eexists. split; [reflexivity|]. simpl. unfold localStatus_of.
    repeat split.
    + intros ->. reflexivity.
    + intros ->. reflexivity.
    + intros Hc Hf. destruct (sd_state data) as [st|]; [|reflexivity].
      destruct (String.eqb_spec st "COMPLETED"); [congruence|].
      destruct (String.eqb_spec st "FAILED"); [congruence | reflexivity].
    + destruct (sd_state data) as [st|]; [|discriminate].
      destruct (st =? "COMPLETED")%string; [discriminate|].
      destruct (st =? "FAILED")%string; discriminate.
  - intros H. apply (status_handler_no_answer _ _ _ H).
Qed.



Lemma notifies_iff (p : Payment) (data : StatusData) (l : list Application) :
  notifies p data l = true <->
  sd_state data = Some "COMPLETED" /\ p_status p <> completed
  /\ exists a, linked_application p l = Some a.
Proof.
  unfold notifies. rewrite !Bool.andb_true_iff, is_COMPLETED_iff,
    Bool.negb_true_iff.
  split.
  - intros [[Hc Hs] Ha]. split; [exact Hc|]. split.
    + intros E. apply PaymentStatus_eqb_eq in E. congruence.
    + destruct (linked_application p l) as [a|]; [eauto | discriminate].
  - intros (Hc & Hs & a & Ha). rewrite Ha. repeat split; auto.
    destruct (PaymentStatus_eqb (p_status p) completed) eqn:E; [|reflexivity].
    apply PaymentStatus_eqb_eq in E. contradiction.
Qed.

Lemma status_handler_mail (env : Env) (w : World) (id : string)
  (configured : bool) (m : MailOutcome) :
  fst (status_handler (with_mail configured m env) w id)
  = fst (status_handler env w id).
Proof.
  unfold status_handler.
  destruct (id =? "")%string; [reflexivity|].
  destruct (Payment_findOne id (payments w)) as [p|] eqn:Hf; [|reflexivity].
  change (generateAuthToken (with_mail configured m env) w)
    with (generateAuthToken env w).
  change (status_reply (with_mail configured m env)) with (status_reply env).
  pose proof (generateAuthToken_frame env w) as (_ & Hp & _).
  destruct (generateAuthToken env w) as [[t|e] w1]; [|reflexivity].
  destruct (status_reply env) as [[d|]|]; try reflexivity.
  simpl in Hp.
  assert (Hf' : Payment_findOne id
                  (payments (emit (StatusQuery id) w1)) = Some p)
    by (simpl; rewrite Hp; exact Hf).
  pose proof (reconcile_spec (with_mail configured m env) _ id p d Hf')
    as (Hr1 & _).
  pose proof (reconcile_spec env _ id p d Hf') as (Hr2 & _).
  rewrite Hr1, Hr2. reflexivity.
Qed.

Section Runs.

Context {ext : Externals}.

Lemma run_cons (w : World) (er : Env * Request)
  (rest : list (Env * Request)) :
  snd (run w (er :: rest)) = snd (run (snd (serve w er)) rest).
Proof.
  simpl. destruct (serve w er) as [r w1]. simpl.
  destruct (run w1 rest). reflexivity.
Qed.

(** Polls of an order stored as completed send nothing as long as the
    gateway reports no other state. *)
Lemma completed_stays_quiet (id : string) (envs : list Env) :
  forall (w : World) (p : Payment),
    Payment_findOne id (payments w) = Some p ->
    p_status p = completed ->
    Forall (fun e => reports_other e = false) envs ->
    confirmation_emails (trace (snd (run w (polls id envs))))
    = confirmation_emails (trace w).
Proof.
  induction envs as [|e rest IH]; intros w p Hf Hs Hall; [reflexivity|].
  inversion Hall as [|? ? He Hrest]; subst.
  unfold polls. cbn [map]. rewrite run_cons. fold (polls id rest).
  change (serve w (e, GetStatus id)) with (status_handler e w id).
  destruct (gateway_answer e w id) as [[p' data]|] eqn:G.
  - pose proof (status_handler_spec _ _ _ _ _ G) as (_ & _ & _ & Hem).
    pose proof (status_handler_stored _ _ _ _ _ G) as Hst.
    pose proof (gateway_answer_reported _ _ _ _ _ G) as Hrep.
    apply gateway_answer_some in G. destruct G as (_ & Hf' & _ & _).
    assert (p' = p) by congruence. subst p'.
    unfold reports_other in He. rewrite Hrep in He.
    apply Bool.negb_false_iff in He.
    rewrite (IH _ _ Hst); auto.
    + rewrite Hem. unfold notifies. rewrite Hs, He. simpl. lia.
    + simpl. apply PaymentStatus_eqb_eq.
      rewrite localStatus_of_completed. exact He.
  - pose proof (status_handler_no_answer _ _ _ G) as (_ & _ & Hp & Hem).
    rewrite (IH _ p); auto. rewrite Hp. exact Hf.
Qed.

Lemma polls_notify_at_most_once (id : string) (envs : list Env) :
  forall w : World,
    COMPLETED_is_final envs ->
    (confirmation_emails (trace (snd (run w (polls id envs))))
     <= S (confirmation_emails (trace w)))%nat.
Proof.
  induction envs as [|e rest IH]; intros w Hfinal; [simpl; lia|].
  destruct Hfinal as [Hfirst Hrest].
  unfold polls. cbn [map]. rewrite run_cons. fold (polls id rest).
  change (serve w (e, GetStatus id)) with (status_handler e w id).
  destruct (gateway_answer e w id) as [[p data]|] eqn:G.
  - pose proof (status_handler_spec _ _ _ _ _ G) as (_ & _ & _ & Hem).
    pose proof (status_handler_stored _ _ _ _ _ G) as Hst.
    pose proof (gateway_answer_reported _ _ _ _ _ G) as Hrep.
    destruct (is_COMPLETED (sd_state data)) eqn:Ec.
    + rewrite (completed_stays_quiet id rest _ _ Hst).
      * rewrite Hem. destruct (notifies p data (applications w)); lia.
      * simpl. apply PaymentStatus_eqb_eq.
        rewrite localStatus_of_completed. exact Ec.
      * apply Hfirst. unfold reports_COMPLETED. rewrite Hrep. exact Ec.
    + specialize (IH (snd (status_handler e w id)) Hrest).
      rewrite Hem in IH. unfold notifies in IH. rewrite Ec in IH.
      simpl in IH. lia.
  - pose proof (status_handler_no_answer _ _ _ G) as (_ & _ & _ & Hem).
    specialize (IH (snd (status_handler e w id)) Hrest). lia.
Qed.

(** C1 (amended): a reconciliation calls the confirmation email once
    if and only if it gets the gateway's answer, the reported state
    is COMPLETED, the status stored before was not completed and the
    linked Application exists; otherwise it calls it not at all.
    Over repeated polls of one order during which the gateway reports
    no other state once it has reported COMPLETED, the email is
    called at most once in total.  How the mail provider behaves
    changes nothing in the response: with the gateway's answer the
    caller gets a 200 carrying it. *)
Theorem confirmation_email_guard :
  (forall env w id,
      let n := confirmation_emails (trace w) in
      let n' := confirmation_emails (trace (snd (status_handler env w id))) in
      (n' = n \/ n' = S n)
      /\ (n' = S n <->
          exists p data a,
            gateway_answer env w id = Some (p, data)
            /\ sd_state data = Some "COMPLETED"
            /\ p_status p <> completed
            /\ linked_application p (applications w) = Some a))
  /\ (forall w id envs,
        COMPLETED_is_final envs ->
        (confirmation_emails (trace (snd (run w (polls id envs))))
         <= S (confirmation_emails (trace w)))%nat)
  /\ (forall env w id configured m,
        fst (status_handler (with_mail configured m env) w id)
        = fst (status_handler env w id)
        /\ forall p data,
            gateway_answer env w id = Some (p, data) ->
            fst (status_handler env w id)
            = mkResponse 200 true ""
                (StatusReport data (p_applicationId p)
                   (localStatus_of (sd_state data)) (p_createdAt p)
                   (now env))).
Proof.
  split; [|split].
  - intros env w id. cbv zeta.
    destruct (gateway_answer env w id) as [[p data]|] eqn:G.
    + pose proof (status_handler_spec _ _ _ _ _ G) as (_ & _ & _ & Hem).
      rewrite Hem.
      destruct (notifies p data (applications w)) eqn:En.
      * split; [right; lia|]. split; [|intros _; lia].
        intros _. apply notifies_iff in En.
        destruct En as (Hc & Hs & a & Ha). exists p, data, a. auto.
      * split; [left; lia|]. split; [intros; lia|].
        intros (p' & data' & a & G' & Hc & Hs & Ha).
        inversion G'; subst p' data'.
        assert (notifies p data (applications w) = true)
          by (apply notifies_iff; eauto).
        congruence.
    + pose proof (status_handler_no_answer _ _ _ G) as (_ & _ & _ & Hem).
      rewrite Hem. split; [left; reflexivity|]. split; [intros; lia|].
      intros (p' & data' & a & G' & _). discriminate.
  - intros w id envs. apply polls_notify_at_most_once.
  - intros env w id configured m. split.
    + apply status_handler_mail.
    + intros p data G. apply (status_handler_spec _ _ _ _ _ G).
Qed.

End Runs.

Lemma initiate_existing (env : Env) (w : World) (raw : PaymentBody)
  (a m : string) (p : Payment) :
  accepted_fields (sanitizePayment raw) = Some (a, m) ->
  Payment_findOne m (payments w) = Some p ->
  initiate env w raw
  = (mkResponse 409 false "Payment already exists for this order ID"
       (ExistingPayment (p_merchantOrderId p) (p_status p) (p_createdAt p)),
     w).
Proof.
  intros Hacc Hf. unfold initiate.
  rewrite (initiate_handler_accepted _ _ _ _ _ Hacc).
  unfold initiate_order. rewrite Hf. reflexivity.
Qed.

Lemma initiate_known_order (env : Env) (w : World) (raw : PaymentBody)
  (m : string) :
  sanitizeText (pb_merchantOrderId raw) = Some m ->
  Payment_findOne m (payments w) <> None ->
  code (fst (initiate env w raw)) <> 200 /\ snd (initiate env w raw) = w.
Proof.
  intros Hm Hf.
  destruct (accepted_fields (sanitizePayment raw)) as [[a m']|] eqn:Eacc.
  - pose proof (accepted_fields_order_id _ _ _ Eacc) as (Hm' & _).
    simpl in Hm'. rewrite required_sanitize, Hm in Hm'.
    inversion Hm'; subst m'.
    destruct (Payment_findOne m (payments w)) as [p|] eqn:E;
      [|contradiction].
    rewrite (initiate_existing env w raw a m p Eacc E). simpl.
    split; [discriminate | reflexivity].
  - unfold initiate.
    pose proof (initiate_handler_refused env w _ Eacc) as (Hc & Hw).
    split; [lia | exact Hw].
Qed.

Lemma initiate_code_200 (env : Env) (w : World) (raw : PaymentBody) :
  code (fst (initiate env w raw)) = 200 <->
  payments (snd (initiate env w raw)) <> payments w.
Proof.
  pose proof (initiate_cases env w raw) as (_ & _ & H). cbv zeta in H.
  destruct H as [(Hc & a & m & data & _ & _ & Hp) | (Hc & Hp)].
  - split; [|intros _; exact Hc]. intros _. rewrite Hp. intros E.
    apply (f_equal (@List.length Payment)) in E.
    rewrite length_app in E. simpl in E. lia.
  - split; [contradiction|]. intros Hn. contradiction.
Qed.

Section Sequences.

Context {ext : Externals}.

Lemma submit_frame (env : Env) (w : World) (raw : SubmitBody) :
  let w' := snd (submit env w raw) in
  payments w' = payments w /\ trace w' = trace w
  /\ tokenCache w' = tokenCache w.
Proof.
  unfold submit, submit_handler.
  destruct (validateApplicationData (sanitizeSubmit raw)) as [errors|e];
    [|simpl; auto].
  destruct (0 <? Z.of_nat (List.length errors)); [simpl; auto|].
  destruct (Application_findOne_email_or_phone _ _ _); [simpl; auto|].
  match goal with |- context [match ?o with Some _ => _ | None => _ end] =>
    destruct o as [[a l]|] end; simpl; auto.
Qed.

(** A stored merchant order id stays stored, whatever is served. *)
Lemma serve_keeps_order (m : string) (w : World) (er : Env * Request) :
  Payment_findOne m (payments w) <> None ->
  Payment_findOne m (payments (snd (serve w er))) <> None.
Proof.
  intros Hf. destruct er as [env [b|b|id]]; unfold serve; simpl.
  - pose proof (submit_frame env w b) as (Hp & _). rewrite Hp. exact Hf.
  - pose proof (initiate_cases env w b) as (_ & _ & H). cbv zeta in H.
    destruct H as [(_ & a & m' & data & _ & _ & Hp) | (_ & Hp)];
      rewrite Hp; [|exact Hf].
    destruct (Payment_findOne m (payments w)) as [p|] eqn:E;
      [|contradiction].
    unfold Payment_findOne in *. rewrite (find_app_some _ _ _ _ E).
    discriminate.
  - destruct (gateway_answer env w id) as [[p data]|] eqn:G.
    + pose proof (status_handler_spec _ _ _ _ _ G) as (_ & Hp & _).
      rewrite Hp. unfold Payment_findOne in *. intros E. apply Hf.
      eapply findOneAndUpdate_find_other; [|exact E]. reflexivity.
    + pose proof (status_handler_no_answer _ _ _ G) as (_ & _ & Hp & _).
      rewrite Hp. exact Hf.
Qed.

Lemma creates_stores (m : string) (w : World) (er : Env * Request) :
  creates m er (fst (serve w er)) = true ->
  Payment_findOne m (payments w) = None
  /\ Payment_findOne m (payments (snd (serve w er))) <> None.
Proof.
  destruct er as [env [b|b|id]]; unfold creates, serve; simpl;
    try discriminate.
  destruct (sanitizeText (pb_merchantOrderId b)) as [i|] eqn:Ei;
    [|discriminate].
  intros H. apply andb_prop in H as [Hi Hc].
  apply String.eqb_eq in Hi. subst i. apply Z.eqb_eq in Hc.
  pose proof (initiate_cases env w b) as (_ & _ & H). cbv zeta in H.
  destruct H as [(_ & a & m' & data & Hacc & Hnone & Hp) | (Hn & _)];
    [|contradiction].
  pose proof (accepted_fields_order_id _ _ _ Hacc) as (Hm' & _).
  simpl in Hm'. rewrite required_sanitize, Ei in Hm'.
  inversion Hm'; subst m'. split; [exact Hnone|].
  rewrite Hp. unfold Payment_findOne in *.
  rewrite (find_app_none _ _ _ Hnone). simpl. rewrite String.eqb_refl.
  discriminate.
Qed.

Lemma no_creation_once_stored (m : string)
  (reqs : list (Env * Request)) :
  forall w : World,
    Payment_findOne m (payments w) <> None -> creations m w reqs = 0%nat.
Proof.
  induction reqs as [|er rest IH]; intros w Hf; [reflexivity|].
  simpl. pose proof (serve_keeps_order m w er Hf) as Hk.
  pose proof (creates_stores m w er) as Hc.
  destruct (serve w er) as [r w1]. simpl in *.
  destruct (creates m er r).
  - destruct Hc as [Hnone _]; [reflexivity|]. contradiction.
  - rewrite (IH _ Hk). reflexivity.
Qed.

Lemma at_most_one_creation (m : string) (reqs : list (Env * Request)) :
  forall w : World, (creations m w reqs <= 1)%nat.
Proof.
  induction reqs as [|er rest IH]; intros w; [simpl; lia|].
  simpl. pose proof (creates_stores m w er) as Hc.
  specialize (IH (snd (serve w er))).
  pose proof (no_creation_once_stored m rest (snd (serve w er))) as Hz.
  destruct (serve w er) as [r w1]. simpl in *.
  destruct (creates m er r).
  - destruct Hc as [_ Hs]; [reflexivity|]. rewrite (Hz Hs). lia.
  - lia.
Qed.

(** C2 (amended): an initiation that has every field and the accepted
    amount, and whose merchant order id already has a PaymentOrder,
    is answered 409 with the status of that order and changes
    nothing; no initiation for a stored merchant order id is answered
    200 or changes the world, whatever its other fields; an
    initiation is answered 200 exactly when it adds a PaymentOrder;
    and in any sequence of requests at most one initiation for a
    given merchant order id adds one. *)
Theorem initiation_creates_at_most_once :
  (forall env w raw a m p,
      accepted_fields (sanitizePayment raw) = Some (a, m) ->
      Payment_findOne m (payments w) = Some p ->
      initiate env w raw
      = (mkResponse 409 false "Payment already exists for this order ID"
           (ExistingPayment (p_merchantOrderId p) (p_status p)
              (p_createdAt p)),
         w))
  /\ (forall env w raw m,
        sanitizeText (pb_merchantOrderId raw) = Some m ->
        Payment_findOne m (payments w) <> None ->
        code (fst (initiate env w raw)) <> 200
        /\ snd (initiate env w raw) = w)
  /\ (forall env w raw,
        code (fst (initiate env w raw)) = 200 <->
        payments (snd (initiate env w raw)) <> payments w)
  /\ (forall w reqs m, (creations m w reqs <= 1)%nat).
Proof.
  split; [|split; [|split]].
  - apply initiate_existing.
  - apply initiate_known_order.
  - apply initiate_code_200.
  - intros w reqs m. apply at_most_one_creation.
Qed.

End Sequences.

(** ** The duplicate-payment guard *)

Lemma checkDuplicatePayment_some (t : Z) (l : list Payment) (a : string) :
  (exists p, In p l /\ p_applicationId p = a /\ p_status p = completed
             /\ t - 30 * 60 * 1000 <= p_createdAt p) <->
  checkDuplicatePayment t l a 30 <> None.
Proof.
  unfold checkDuplicatePayment. split.
  - intros (p & Hin & Ha & Hs & Ht) Hnone.
    pose proof (find_none _ _ Hnone p Hin) as Hp. simpl in Hp.
    rewrite Ha, Hs, String.eqb_refl in Hp. simpl in Hp.
    apply Z.leb_gt in Hp. lia.
  - destruct (find _ l) as [p|] eqn:E; [|congruence]. intros _.
    apply find_some in E. destruct E as [Hin Hp].
    apply andb_prop in Hp as [Hp Ht]. apply andb_prop in Hp as [Ha Hs].
    apply String.eqb_eq in Ha. apply PaymentStatus_eqb_eq in Hs.
    apply Z.leb_le in Ht. exists p. auto.
Qed.

(** C5 (amended): an initiation that has every field and the accepted
    amount is answered 409 and changes nothing when its application has
    a PaymentOrder in status completed that was created within the last
    30 minutes, whenever that order became completed; when every
    completed order of the application was created more than 30 minutes
    ago (30 minutes and one second suffice) and the merchant order id
    is new, the initiation is not answered 409: it goes to the gateway,
    and a complete reply makes it a 200 with a new order. *)
Theorem duplicate_payment_window
  (env : Env) (w : World) (raw : PaymentBody) (a m : string) :
  accepted_fields (sanitizePayment raw) = Some (a, m) ->
  let r := fst (initiate env w raw) in
  let w' := snd (initiate env w raw) in
  ((exists p, In p (payments w) /\ p_applicationId p = a
              /\ p_status p = completed
              /\ now env - 30 * 60 * 1000 <= p_createdAt p) ->
   code r = 409 /\ w' = w)
  /\ ((forall p, In p (payments w) -> p_applicationId p = a ->
                 p_status p = completed ->
                 p_createdAt p + 30 * 60 * 1000 < now env) ->
      Payment_findOne m (payments w) = None ->
      code r <> 409
      /\ forall tok data,
          fst (generateAuthToken env w) = Ok tok ->
          complete_order (pay_reply env) = Some data ->
          code r = 200
          /\ payments w'
             = (payments w
                ++ [mkPayment a m (pd_orderId data) 9900 initiated
                      (BlobPay data) (now env) (now env)])%list).
Proof.
  intros Hacc. cbv zeta. unfold initiate.
  rewrite (initiate_handler_accepted _ _ _ _ _ Hacc). split.
  - intros Hex. apply checkDuplicatePayment_some in Hex.
    unfold initiate_order.
    destruct (Payment_findOne m (payments w)); [simpl; auto|].
    destruct (checkDuplicatePayment (now env) (payments w) a 30);
      [simpl; auto | contradiction].
  - intros Hold Hf.
    assert (Hd : checkDuplicatePayment (now env) (payments w) a 30 = None).
    { destruct (checkDuplicatePayment (now env) (payments w) a 30) eqn:E;
        [|reflexivity].
      assert (Hne : checkDuplicatePayment (now env) (payments w) a 30 <> None)
        by congruence.
      apply checkDuplicatePayment_some in Hne.
      destruct Hne as (p' & Hin & Ha & Hs & Ht).
      specialize (Hold p' Hin Ha Hs). lia. }
    pose proof (initiate_order_gateway env w a m Hf Hd) as (_ & _ & Hg).
    split.
    + destruct (fst (generateAuthToken env w));
        [destruct (complete_order (pay_reply env))|].
      * destruct Hg as (Hr & _). rewrite Hr. discriminate.
      * destruct Hg as (Hc & _). lia.
      * destruct Hg as (Hc & _). lia.
    + intros tok data Ht Hc. rewrite Ht, Hc in Hg. destruct Hg as (Hr & Hp).
      rewrite Hr. auto.
Qed.

(** ** Submission *)

Lemma blank_iff (o : option string) :
  JS.blank o = true <-> o = None \/ exists s, o = Some s /\ JS.trim s = "".
Proof.
  destruct o as [s|]; simpl.
  - rewrite String.eqb_eq. split.
    + intros H. right. eauto.
    + intros [H | (s' & H & Ht)]; [discriminate | congruence].
  - split; auto.
Qed.

Lemma blank_sanitize (o : option string) :
  JS.blank o = true -> JS.blank (sanitizeText o) = true.
Proof.
  destruct o as [s|]; simpl; [|reflexivity].
  intros H. rewrite H. reflexivity.
Qed.

Lemma required_text_some (o : option string) (s : string) :
  required_text o = Some s -> o = Some s /\ s <> "".
Proof.
  destruct o as [x|]; simpl; [|discriminate].
  destruct (String.eqb_spec x ""); [discriminate|].
  intros H; inversion H; subst. auto.
Qed.

Lemma is_text_sanitize (v : JS.value) :
  is_text v = true -> is_text (sanitizeValue v) = true.
Proof.
  destruct v as [| | b | z | s]; simpl; auto.
  destruct (JS.trim s =? "")%string; reflexivity.
Qed.

Lemma texts_only_sanitize (b : SubmitBody) :
  texts_only b = true -> texts_only (sanitizeSubmit b) = true.
Proof.
  unfold texts_only. cbn [sanitizeSubmit sb_name sb_email sb_phone sb_gender
    sb_category sb_school sb_state sb_district sb_pincode sb_address
    sb_income_band sb_achievements sb_recommendation sb_sop].
  intros H. repeat (apply andb_prop in H; destruct H as [H ?]).
  repeat (apply andb_true_intro; split); apply is_text_sanitize; assumption.
Qed.

Lemma is_text_sanitized (v : JS.value) :
  is_text (sanitizeValue v) = is_text v.
Proof.
  destruct v as [| | b | z | s]; simpl; auto.
  destruct (JS.trim s =? "")%string; reflexivity.
Qed.

Lemma texts_only_sanitized (b : SubmitBody) :
  texts_only (sanitizeSubmit b) = texts_only b.
Proof.
  unfold texts_only. cbn [sanitizeSubmit sb_name sb_email sb_phone sb_gender
    sb_category sb_school sb_state sb_district sb_pincode sb_address
    sb_income_band sb_achievements sb_recommendation sb_sop].
  rewrite !is_text_sanitized. reflexivity.
Qed.

Lemma blank_field_text (v : JS.value) :
  is_text v = true -> blank_field v = Ok (JS.blank (text_of v)).
Proof. destruct v; simpl; try discriminate; reflexivity. Qed.

Lemma blank_field_throws (v : JS.value) :
  is_text v = false -> blank_field v = Throw PlainError.
Proof. destruct v; simpl; try discriminate; reflexivity. Qed.

Lemma present_and_fails_text (v : JS.value) (test : string -> bool) :
  is_text v = true ->
  present_and_fails v test = Ok (fails_test (text_of v) test).
Proof.
  destruct v as [| | b | z | s]; try discriminate; intros _;
    unfold present_and_fails; simpl; try reflexivity.
  destruct (s =? "")%string; reflexivity.
Qed.

Lemma blank_absent (v : JS.value) :
  absent_or_blank v <-> is_text v = true /\ JS.blank (text_of v) = true.
Proof.
  unfold absent_or_blank. split.
  - intros [-> | [-> | (s & -> & Hs)]]; simpl; auto.
    rewrite Hs. auto.
  - destruct v as [| | b | z | s]; simpl; intros [Ht Hb]; try discriminate;
      auto.
    right. right. exists s. split; [reflexivity|].
    apply String.eqb_eq. exact Hb.
Qed.

Lemma blank_sanitizeValue (v : JS.value) :
  JS.blank (text_of v) = true -> JS.blank (text_of (sanitizeValue v)) = true.
Proof.
  destruct v as [| | b | z | s]; simpl; auto.
  intros H. rewrite H. reflexivity.
Qed.

Ltac in_errors :=
  repeat first
    [ match goal with
      | H : ?c = true |- In _ (push_if ?c _ ++ _) =>
          apply in_or_app; left; rewrite H; simpl; left; reflexivity
      | H : ?c = true |- In _ (push_if ?c _) =>
          rewrite H; simpl; left; reflexivity
      end
    | apply in_or_app; right ].

(** One test of [validateApplicationData] on a field it trims. *)
Ltac trim_step v :=
  let E := fresh "E" in
  destruct (is_text v) eqn:E;
  [ rewrite (blank_field_text v E); cbn [andThen];
    try (rewrite (present_and_fails_text v _ E); cbn [andThen])
  | rewrite (blank_field_throws v E); cbn [andThen]; reflexivity ].

Section Submission.

Context {ext : Externals}.

(** [validateApplicationData] returns its list exactly on the bodies
    whose trimmed fields are strings or nullish, and raises on the
    others. *)
Lemma validate_texts (body : SubmitBody) :
  texts_only body = true ->
  validateApplicationData body = Ok (violations body).
Proof.
  unfold texts_only. intros H.
  repeat (apply andb_prop in H; destruct H as [H ?]).
  unfold validateApplicationData, check. cbv zeta.
  rewrite !blank_field_text by assumption.
  rewrite !present_and_fails_text by assumption.
  cbn [andThen app]. unfold violations. rewrite <- !app_assoc. reflexivity.
Qed.

Lemma validate_throws (body : SubmitBody) :
  texts_only body = false ->
  validateApplicationData body = Throw PlainError.
Proof.
  intros H. unfold validateApplicationData, check. cbv zeta.
  trim_step (sb_name body). trim_step (sb_email body).
  trim_step (sb_phone body). trim_step (sb_gender body).
  trim_step (sb_category body). trim_step (sb_school body).
  trim_step (sb_state body). trim_step (sb_district body).
  trim_step (sb_pincode body). trim_step (sb_address body).
  trim_step (sb_income_band body). trim_step (sb_achievements body).
  trim_step (sb_recommendation body). trim_step (sb_sop body).
  unfold texts_only in H.
  repeat match goal with
         | E : is_text _ = true |- _ => rewrite E in H; clear E
         end.
  discriminate H.
Qed.

Lemma validate_ok (body : SubmitBody) (errors : list string) :
  validateApplicationData body = Ok errors <->
  texts_only body = true /\ errors = violations body.
Proof.
  split.
  - intros H. destruct (texts_only body) eqn:T.
    + rewrite (validate_texts body T) in H. inversion H. auto.
    + rewrite (validate_throws body T) in H. discriminate.
  - intros [T ->]. apply validate_texts. exact T.
Qed.

Lemma submit_throws (env : Env) (w : World) (raw : SubmitBody) (e : Thrown) :
  validateApplicationData (sanitizeSubmit raw) = Throw e ->
  submit env w raw = (submit_fail, w).
Proof.
  intros H. unfold submit, submit_handler. rewrite H. reflexivity.
Qed.

Lemma submit_invalid (env : Env) (w : World) (raw : SubmitBody)
  (errors : list string) :
  validateApplicationData (sanitizeSubmit raw) = Ok errors ->
  errors <> [] ->
  submit env w raw
  = (mkResponse 400 false "Validation failed" (Errors errors), w).
Proof.
  intros H Hne. unfold submit, submit_handler. rewrite H.
  destruct errors as [|x l]; [contradiction | reflexivity].
Qed.

Lemma submit_valid (env : Env) (w : World) (raw : SubmitBody) :
  validateApplicationData (sanitizeSubmit raw) = Ok [] ->
  submit env w raw
  = let body := sanitizeSubmit raw in
    match Application_findOne_email_or_phone
            (castString (sb_email body)) (castString (sb_phone body))
            (applications w) with
    | Some _ =>
        (mkResponse 409 false
           "Application already exists with this email or phone number"
           NoPayload, w)
    | None =>
        let id :=
          ("NF2025" ++ JS.show (now env) ++ JS.show (random1000 env))%string in
        match new_Application body id (now env) with
        | Some a =>
            match Application_save a (applications w) with
            | Some l =>
                (mkResponse 201 true "Application submitted successfully"
                   (Submitted (applicationId a) (createdAt a)),
                 set_applications l w)
            | None => (submit_fail, w)
            end
        | None => (submit_fail, w)
        end
    end.
Proof.
  intros H. unfold submit, submit_handler. rewrite H. cbv zeta. simpl.
  destruct (Application_findOne_email_or_phone _ _ _); [reflexivity|].
  destruct (new_Application _ _ _) as [a|]; simpl; [|reflexivity].
  destruct (Application_save a (applications w)); reflexivity.
Qed.

(** C10 (amended): a submission in which every field the validation
    trims is a string, [null] or missing, and whose achievements
    field, or whose recommendation field, is missing, [null] or blank
    after trimming, is answered 400 "Validation failed" with that field
    listed as required, and nothing is stored.  A submission in which
    one of the trimmed fields is a number or a boolean is answered 500
    "Application submission failed" without a list, whatever its
    achievements and recommendation, and nothing is stored. *)
Theorem achievements_and_recommendation_are_required
  (env : Env) (w : World) (raw : SubmitBody) :
  (texts_only raw = true ->
   (absent_or_blank (sb_achievements raw) ->
    exists errors,
      submit env w raw
      = (mkResponse 400 false "Validation failed" (Errors errors), w)
      /\ In "Achievements are required" errors)
   /\ (absent_or_blank (sb_recommendation raw) ->
       exists errors,
         submit env w raw
         = (mkResponse 400 false "Validation failed" (Errors errors), w)
         /\ In "Recommendation is required" errors))
  /\ (texts_only raw = false ->
      submit env w raw
      = (mkResponse 500 false "Application submission failed" NoPayload, w)).
Proof.
  split.
  2:{ intros T. apply (submit_throws env w raw PlainError).
      apply validate_throws. rewrite texts_only_sanitized. exact T. }
  intros T. pose proof (texts_only_sanitize raw T) as Ts.
  pose proof (validate_texts _ Ts) as Hv.
  split; intros H; apply blank_absent in H; destruct H as [_ H];
    apply blank_sanitizeValue in H;
    exists (violations (sanitizeSubmit raw)).
  - assert (Hin : In "Achievements are required"
                    (violations (sanitizeSubmit raw))).
    { unfold violations.
      change (sb_achievements (sanitizeSubmit raw))
        with (sanitizeValue (sb_achievements raw)).
      in_errors. }
    split; [|exact Hin]. apply submit_invalid; [exact Hv|]. intros E.
    rewrite E in Hin. contradiction.
  - assert (Hin : In "Recommendation is required"
                    (violations (sanitizeSubmit raw))).
    { unfold violations.
      change (sb_recommendation (sanitizeSubmit raw))
        with (sanitizeValue (sb_recommendation raw)).
      in_errors. }
    split; [|exact Hin]. apply submit_invalid; [exact Hv|]. intros E.
    rewrite E in Hin. contradiction.
Qed.

End Submission.

Lemma blank_field_true (v : JS.value) :
  blank_field v = Ok true -> JS.blank (text_of v) = true.
Proof.
  destruct v; simpl; try discriminate; intros H; inversion H; reflexivity.
Qed.

Lemma present_and_fails_true (v : JS.value) (test : string -> bool) :
  present_and_fails v test = Ok true -> fails_test (text_of v) test = true.
Proof.
  destruct v as [| | b | z | s]; unfold present_and_fails; simpl;
    try discriminate.
  - destruct b; discriminate.
  - destruct (z =? 0); discriminate.
  - destruct (s =? "")%string; simpl; [discriminate|].
    intros H; inversion H; reflexivity.
Qed.

(** Every rule of [validateApplicationData] that a body breaks puts its
    message in the list it returns: the list is complete, not cut at
    the first violation. *)
Lemma validation_lists_every_violation {ext : Externals} (body : SubmitBody)
  (errors : list string) :
  validateApplicationData body = Ok errors ->
  (blank_field (sb_name body) = Ok true -> In "Name is required" errors)
  /\ (blank_field (sb_email body) = Ok true -> In "Email is required" errors)
  /\ (present_and_fails (sb_email body) validateEmail = Ok true ->
      In "Invalid email format" errors)
  /\ (blank_field (sb_phone body) = Ok true ->
      In "Phone number is required" errors)
  /\ (present_and_fails (sb_phone body) validatePhoneNumber = Ok true ->
      In "Invalid Indian phone number" errors)
  /\ (negb (JS.truthy (sb_dob body)) = true ->
      In "Date of birth is required" errors)
  /\ (blank_field (sb_gender body) = Ok true -> In "Gender is required" errors)
  /\ (blank_field (sb_category body) = Ok true ->
      In "Class/Course is required" errors)
  /\ (blank_field (sb_school body) = Ok true ->
      In "School/College name is required" errors)
  /\ (blank_field (sb_state body) = Ok true -> In "State is required" errors)
  /\ (blank_field (sb_district body) = Ok true ->
      In "District is required" errors)
  /\ (blank_field (sb_pincode body) = Ok true ->
      In "Pincode is required" errors)
  /\ (blank_field (sb_address body) = Ok true ->
      In "Address is required" errors)
  /\ (negb (JS.truthy (sb_income_amount body)) = true ->
      In "Family income is required" errors)
  /\ (blank_field (sb_income_band body) = Ok true ->
      In "Income band is required" errors)
  /\ (blank_field (sb_achievements body) = Ok true ->
      In "Achievements are required" errors)
  /\ (blank_field (sb_recommendation body) = Ok true ->
      In "Recommendation is required" errors)
  /\ (blank_field (sb_sop body) = Ok true ->
      In "Statement of purpose is required" errors)
  /\ (sop_too_short (sb_sop body) = true ->
      In "Statement of purpose must be at least 50 characters" errors).
Proof.
  intros Hv. apply validate_ok in Hv. destruct Hv as [_ ->].
  unfold violations.
  repeat split; intros H;
    try apply blank_field_true in H; try apply present_and_fails_true in H;
    in_errors.
Qed.

Lemma contact_known_iff (eo po : option string) (l : list Application) :
  (exists a, In a l /\ (eo = Some (email a) \/ po = Some (phone a))) <->
  Application_findOne_email_or_phone eo po l <> None.
Proof.
  unfold Application_findOne_email_or_phone. split.
  - intros (a & Hin & Hm) Hnone.
    pose proof (find_none _ _ Hnone a Hin) as Hf. simpl in Hf.
    apply Bool.orb_false_iff in Hf as [He Hp].
    destruct Hm as [-> | ->].
    + rewrite String.eqb_refl in He. discriminate.
    + rewrite String.eqb_refl in Hp. discriminate.
  - destruct (find _ l) as [a|] eqn:E; [|congruence]. intros _.
    apply find_some in E. destruct E as [Hin Hm]. exists a.
    split; [exact Hin|]. apply Bool.orb_true_iff in Hm as [Hm | Hm].
    + destruct eo as [e|]; [|discriminate].
      apply String.eqb_eq in Hm. left. congruence.
    + destruct po as [p|]; [|discriminate].
      apply String.eqb_eq in Hm. right. congruence.
Qed.

Lemma Application_save_fresh (a : Application) (l : list Application) :
  (forall x, In x l -> applicationId x <> applicationId a) ->
  Application_save a l = Some (l ++ [a])%list.
Proof.
  intros H. unfold Application_save.
  destruct (existsb _ l) eqn:E; [|reflexivity].
  apply existsb_exists in E. destruct E as (x & Hin & Hx).
  apply String.eqb_eq in Hx. exfalso. exact (H x Hin Hx).
Qed.

Lemma Application_save_some (a : Application) (l l' : list Application) :
  Application_save a l = Some l' -> l' = (l ++ [a])%list.
Proof.
  unfold Application_save. destruct (existsb _ l); [discriminate|].
  intros H; inversion H; reflexivity.
Qed.

Section Duplicates.

Context {ext : Externals}.

(** The document built from a body: the generated identifier, the
    contact of the body, and in the five paths the form does not have
    what the schema makes of the body's values. *)
Lemma new_Application_fields (body : SubmitBody) (id : string) (t : Z)
  (a : Application) :
  new_Application body id t = Some a ->
  applicationId a = id
  /\ castString (sb_email body) = Some (email a)
  /\ castString (sb_phone body) = Some (phone a)
  /\ enum_path lifecycle_enum app_pending app_null (sb_status body)
     = Some (status a)
  /\ enum_path paystate_enum pay_pending pay_null (sb_paymentStatus body)
     = Some (paymentStatus a)
  /\ paymentOrderId a = castString (sb_paymentOrderId body)
  /\ date_path t (sb_createdAt body) = Some (createdAt a)
  /\ date_path t (sb_updatedAt body) = Some (updatedAt a).
Proof.
  unfold new_Application, required_path, bind.
  destruct (required_text (castString (sb_name body))); [|discriminate].
  destruct (required_text (castString (sb_email body))) as [e|] eqn:Ee;
    [|discriminate].
  destruct (required_text (castString (sb_phone body))) as [p|] eqn:Ep;
    [|discriminate].
  destruct (castDate (sb_dob body)); [|discriminate].
  destruct (required_text (castString (sb_gender body))) as [g|];
    [|discriminate].
  destruct (required_text (castString (sb_category body))); [|discriminate].
  destruct (required_text (castString (sb_school body))); [|discriminate].
  destruct (required_text (castString (sb_state body))); [|discriminate].
  destruct (required_text (castString (sb_district body))); [|discriminate].
  destruct (required_text (castString (sb_pincode body))); [|discriminate].
  destruct (required_text (castString (sb_address body))); [|discriminate].
  destruct (castNumber (sb_income_amount body)); [|discriminate].
  destruct (required_text (castString (sb_income_band body)));
    [|discriminate].
  destruct (required_text (castString (sb_achievements body)));
    [|discriminate].
  destruct (required_text (castString (sb_recommendation body)));
    [|discriminate].
  destruct (required_text (castString (sb_sop body))); [|discriminate].
  destruct (enum_path lifecycle_enum app_pending app_null (sb_status body))
    as [life|]; [|discriminate].
  destruct (enum_path paystate_enum pay_pending pay_null
              (sb_paymentStatus body)) as [ps|]; [|discriminate].
  destruct (date_path t (sb_createdAt body)) as [created|]; [|discriminate].
  destruct (date_path t (sb_updatedAt body)) as [updated|]; [|discriminate].
  destruct (gender_enum g); [|discriminate].
  intros H; inversion H; subst; simpl.
  apply required_text_some in Ee as [Ee _].
  apply required_text_some in Ep as [Ep _]. auto 10.
Qed.

Lemma not_blank_text (v : JS.value) :
  JS.blank (text_of v) = false -> exists s, v = JS.Str s.
Proof. destruct v; simpl; try discriminate. eauto. Qed.

Lemma valid_has_contact (body : SubmitBody) :
  validateApplicationData body = Ok [] ->
  exists e p, sb_email body = JS.Str e /\ sb_phone body = JS.Str p.
Proof.
  intros H. apply validate_ok in H. destruct H as [_ H].
  destruct (JS.blank (text_of (sb_email body))) eqn:Ee.
  { assert (Hin : In "Email is required" (violations body))
      by (unfold violations; in_errors).
    rewrite <- H in Hin. contradiction. }
  destruct (JS.blank (text_of (sb_phone body))) eqn:Ep.
  { assert (Hin : In "Phone number is required" (violations body))
      by (unfold violations; in_errors).
    rewrite <- H in Hin. contradiction. }
  apply not_blank_text in Ee. apply not_blank_text in Ep.
  destruct Ee as [e Ee]. destruct Ep as [p Ep]. eauto.
Qed.

Lemma submit_cases (env : Env) (w : World) (raw : SubmitBody) :
  let r := fst (submit env w raw) in
  let w' := snd (submit env w raw) in
  (code r = 201
   /\ validateApplicationData (sanitizeSubmit raw) = Ok []
   /\ exists a,
       applications w' = (applications w ++ [a])%list
       /\ sb_email (sanitizeSubmit raw) = JS.Str (email a)
       /\ sb_phone (sanitizeSubmit raw) = JS.Str (phone a)
       /\ payload r = Submitted (applicationId a) (createdAt a)
       /\ new_Application (sanitizeSubmit raw)
            ("NF2025" ++ JS.show (now env) ++ JS.show (random1000 env))%string
            (now env) = Some a)
  \/ (code r <> 201 /\ w' = w).
Proof.
  cbv zeta.
  destruct (validateApplicationData (sanitizeSubmit raw)) as [[|x l]|e] eqn:Ev.
  - rewrite (submit_valid env w raw Ev). cbv zeta.
    destruct (Application_findOne_email_or_phone _ _ _);
      [right; simpl; split; [discriminate | reflexivity]|].
    destruct (new_Application _ _ _) as [a|] eqn:En;
      [|right; simpl; split; [discriminate | reflexivity]].
    destruct (Application_save a (applications w)) as [l|] eqn:Es;
      [|right; simpl; split; [discriminate | reflexivity]].
    left. cbn [fst snd code payload applications set_applications].
    split; [reflexivity|]. split; [reflexivity|].
    apply Application_save_some in Es. subst l.
    pose proof (new_Application_fields _ _ _ _ En) as (_ & He & Hp & _).
    destruct (valid_has_contact _ Ev) as (e & p & Hse & Hsp).
    rewrite Hse in He. rewrite Hsp in Hp. simpl in He, Hp.
    inversion He; inversion Hp; subst e p.
    exists a. rewrite Hse, Hsp. auto 6.
  - right. rewrite (submit_invalid env w raw _ Ev) by discriminate.
    simpl. split; [discriminate | reflexivity].
  - right. rewrite (submit_throws env w raw _ Ev).
    simpl. split; [discriminate | reflexivity].
Qed.

(** A stored email or phone stays stored, whatever is served. *)
Lemma serve_keeps_contact (eo po : option string) (w : World)
  (er : Env * Request) :
  Application_findOne_email_or_phone eo po (applications w) <> None ->
  Application_findOne_email_or_phone eo po
    (applications (snd (serve w er))) <> None.
Proof.
  intros Hf. destruct er as [env [b|b|id]]; unfold serve; simpl.
  - pose proof (submit_cases env w b) as H. cbv zeta in H.
    destruct H as [(_ & _ & a & Ha & _) | (_ & Hw)];
      [|rewrite Hw; exact Hf].
    rewrite Ha.
    destruct (Application_findOne_email_or_phone eo po (applications w))
      as [x|] eqn:E; [|contradiction].
    unfold Application_findOne_email_or_phone in *.
    rewrite (find_app_some _ _ _ _ E). discriminate.
  - pose proof (initiate_cases env w b) as (Ha & _). cbv zeta in Ha.
    rewrite Ha. exact Hf.
  - destruct (gateway_answer env w id) as [[p data]|] eqn:G.
    + pose proof (status_handler_spec _ _ _ _ _ G) as (_ & _ & Ha & _).
      rewrite Ha. unfold Application_findOne_email_or_phone in *.
      intros E. apply Hf.
      eapply findOneAndUpdate_find_other; [|exact E]. reflexivity.
    + pose proof (status_handler_no_answer _ _ _ G) as (_ & Ha & _).
      rewrite Ha. exact Hf.
Qed.

Lemma run_keeps_contact (eo po : option string)
  (reqs : list (Env * Request)) :
  forall w : World,
    Application_findOne_email_or_phone eo po (applications w) <> None ->
    Application_findOne_email_or_phone eo po
      (applications (snd (run w reqs))) <> None.
Proof.
  induction reqs as [|er rest IH]; intros w Hf; [exact Hf|].
  rewrite run_cons. apply IH. apply serve_keeps_contact. exact Hf.
Qed.

(** C7 (amended): a submission that passes validation and whose
    email, or whose phone, is that of a stored Application is
    answered 409 and stores nothing.  A submission that passes
    validation, whose email and whose phone are both new, and whose
    document the store accepts (the schema accepts it and the
    generated identifier is unused) is answered 201 with the
    generated identifier and is stored under it with the email and
    the phone of the request; the timestamp of the answer is the
    createdAt of the stored document, which is the time of the request
    when the body holds no createdAt.  From then on, whatever is
    served in between, every submission that passes validation with
    the same email or the same phone is answered 409 and stores
    nothing. *)
Theorem submission_rejects_known_contact :
  (forall env w raw,
      validateApplicationData (sanitizeSubmit raw) = Ok [] ->
      (exists a, In a (applications w)
                 /\ (sb_email (sanitizeSubmit raw) = JS.Str (email a)
                     \/ sb_phone (sanitizeSubmit raw) = JS.Str (phone a))) ->
      submit env w raw
      = (mkResponse 409 false
           "Application already exists with this email or phone number"
           NoPayload, w))
  /\ (forall env w raw a,
        validateApplicationData (sanitizeSubmit raw) = Ok [] ->
        (forall x, In x (applications w) ->
                   sb_email (sanitizeSubmit raw) <> JS.Str (email x)
                   /\ sb_phone (sanitizeSubmit raw) <> JS.Str (phone x)) ->
        let id :=
          ("NF2025" ++ JS.show (now env) ++ JS.show (random1000 env))%string in
        new_Application (sanitizeSubmit raw) id (now env) = Some a ->
        (forall x, In x (applications w) -> applicationId x <> id) ->
        fst (submit env w raw)
        = mkResponse 201 true "Application submitted successfully"
            (Submitted id (createdAt a))
        /\ applications (snd (submit env w raw))
           = (applications w ++ [a])%list
        /\ payments (snd (submit env w raw)) = payments w
        /\ trace (snd (submit env w raw)) = trace w
        /\ tokenCache (snd (submit env w raw)) = tokenCache w
        /\ applicationId a = id
        /\ sb_email (sanitizeSubmit raw) = JS.Str (email a)
        /\ sb_phone (sanitizeSubmit raw) = JS.Str (phone a)
        /\ (sb_createdAt (sanitizeSubmit raw) = JS.Undefined ->
            createdAt a = Some (now env)))
  /\ (forall env w raw reqs env' raw',
        code (fst (submit env w raw)) = 201 ->
        validateApplicationData (sanitizeSubmit raw') = Ok [] ->
        sb_email (sanitizeSubmit raw') = sb_email (sanitizeSubmit raw)
        \/ sb_phone (sanitizeSubmit raw') = sb_phone (sanitizeSubmit raw) ->
        let w2 := snd (run (snd (submit env w raw)) reqs) in
        submit env' w2 raw'
        = (mkResponse 409 false
             "Application already exists with this email or phone number"
             NoPayload, w2)).
Proof.
  split; [|split].
  - intros env w raw Hv Hex. rewrite (submit_valid env w raw Hv). cbv zeta.
    assert (Hk : Application_findOne_email_or_phone
                   (castString (sb_email (sanitizeSubmit raw)))
                   (castString (sb_phone (sanitizeSubmit raw)))
                   (applications w) <> None).
    { apply contact_known_iff. destruct Hex as (a & Hin & Hm). exists a.
      split; [exact Hin|]. destruct Hm as [Hm | Hm]; rewrite Hm; simpl; auto. }
    destruct (Application_findOne_email_or_phone _ _ _);
      [reflexivity | contradiction].
  - intros env w raw a Hv Hnew id Hdoc Hid.
    destruct (valid_has_contact _ Hv) as (e & p & Hse & Hsp).
    pose proof (new_Application_fields _ _ _ _ Hdoc)
      as (Hi & He & Hp & _ & _ & _ & Hc & _).
    rewrite Hse in He. rewrite Hsp in Hp. simpl in He, Hp.
    inversion He; inversion Hp; subst e p.
    assert (Hsub : submit env w raw
                   = (mkResponse 201 true "Application submitted successfully"
                        (Submitted id (createdAt a)),
                      set_applications (applications w ++ [a]) w)).
    2:{ rewrite Hsub.
        cbn [fst snd set_applications applications payments trace tokenCache].
        repeat split; auto.
        intros Hu. rewrite Hu in Hc. simpl in Hc. inversion Hc. reflexivity. }
    + rewrite (submit_valid env w raw Hv). cbv zeta.
      destruct (Application_findOne_email_or_phone _ _ _) as [x|] eqn:E.
      { assert (Hne : Application_findOne_email_or_phone
                        (castString (sb_email (sanitizeSubmit raw)))
                        (castString (sb_phone (sanitizeSubmit raw)))
                        (applications w) <> None) by congruence.
        apply contact_known_iff in Hne. destruct Hne as (y & Hin & Hm).
        destruct (Hnew y Hin) as [Hey Hpy].
        rewrite Hse, Hsp in Hm. simpl in Hm.
        destruct Hm as [Hm | Hm]; inversion Hm as [Hm']; exfalso.
        - apply Hey. rewrite Hse, Hm'. reflexivity.
        - apply Hpy. rewrite Hsp, Hm'. reflexivity. }
      fold id. rewrite Hdoc.
      rewrite Application_save_fresh by (rewrite Hi; exact Hid).
      rewrite Hi. reflexivity.
  - intros env w raw reqs env' raw' H201 Hv' Hsame. cbv zeta.
    pose proof (submit_cases env w raw) as H. cbv zeta in H.
    destruct H as [(_ & Hv & a & Ha & He & Hp & _) | (Hn & _)];
      [|contradiction].
    rewrite (submit_valid env' _ raw' Hv'). cbv zeta.
    match goal with
    | |- context [Application_findOne_email_or_phone ?e ?p ?l] =>
        assert (Hk : Application_findOne_email_or_phone e p l <> None)
    end.
    { apply run_keeps_contact. apply contact_known_iff. exists a.
      split; [rewrite Ha; apply in_or_app; right; left; reflexivity|].
      destruct Hsame as [Hs | Hs]; rewrite Hs.
      - rewrite He. simpl. auto.
      - rewrite Hp. simpl. auto. }
    destruct (Application_findOne_email_or_phone _ _ _);
      [reflexivity | contradiction].
Qed.

End Duplicates.

(** ** The handlers on concrete requests *)

(** C8 (code defect): [validateApplicationData] only requires the
    pincode to be non-blank; the six-digit test exists in the browser
    client alone.  A submission that is valid but for its pincode "12"
    passes validation, is answered 201 and is stored. *)
Theorem pincode_digits_are_not_validated :
  formPincode "12" = false
  /\ @validateApplicationData sampleExternals
       (sanitizeSubmit (set_pincode (JS.Str "12") sampleSubmit)) = Ok []
  /\ code (fst (@submit sampleExternals (sampleEnv 1750000000000 "PENDING")
                  emptyWorld (set_pincode (JS.Str "12") sampleSubmit))) = 201
  /\ map pincode
       (applications
          (snd (@submit sampleExternals (sampleEnv 1750000000000 "PENDING")
                  emptyWorld (set_pincode (JS.Str "12") sampleSubmit))))
     = ["12"].
Proof. repeat split; vm_compute; reflexivity. Qed.

(** C1, as stated, fails: with the gateway reporting COMPLETED for an
    order stored as initiated whose Application is not in the store, no
    confirmation email is called; and three polls of one order that see
    COMPLETED, PENDING, COMPLETED call it twice. *)
Lemma confirmation_email_counterexample :
  (exists p data,
      gateway_answer (sampleEnv 1000 "COMPLETED") (orderWorld initiated 0 0)
        "MO_1" = Some (p, data)
      /\ sd_state data = Some "COMPLETED" /\ p_status p <> completed
      /\ confirmation_emails
           (trace (snd (status_handler (sampleEnv 1000 "COMPLETED")
                          (orderWorld initiated 0 0) "MO_1"))) = 0%nat)
  /\ confirmation_emails
       (trace (snd (@run sampleExternals
                      (linkedWorld app_pending pay_pending None initiated)
                      (polls "MO_1"
                         [sampleEnv 1000 "COMPLETED"; sampleEnv 2000 "PENDING";
                          sampleEnv 3000 "COMPLETED"])))) = 2%nat.
Proof.
  split.
  - eexists. eexists. split; [vm_compute; reflexivity|].
    split; [reflexivity|]. split; [discriminate | vm_compute; reflexivity].
  - vm_compute. reflexivity.
Qed.

(** C2, as stated, fails: an initiation for a stored merchant order id
    with another amount is answered 400, not 409; and of two
    initiations for "MO_1" made while the gateway rejects every call,
    none creates a PaymentOrder and both are answered 500. *)
Lemma initiation_counterexample :
  (Payment_findOne "MO_1" (payments (orderWorld pending 0 0)) <> None
   /\ code (fst (initiate (sampleEnv 1000 "PENDING") (orderWorld pending 0 0)
                   (sampleInitiate "APP1" "MO_1" 50))) = 400)
  /\ @creations sampleExternals "MO_1" emptyWorld
       [(downEnv 1000, PostInitiate (sampleInitiate "APP1" "MO_1" 99));
        (downEnv 2000, PostInitiate (sampleInitiate "APP1" "MO_1" 99))]
     = 0%nat
  /\ map code
       (fst (@run sampleExternals emptyWorld
               [(downEnv 1000, PostInitiate (sampleInitiate "APP1" "MO_1" 99));
                (downEnv 2000, PostInitiate (sampleInitiate "APP1" "MO_1" 99))]))
     = [500; 500].
Proof.
  split; [split; [vm_compute; discriminate | vm_compute; reflexivity]|].
  split; vm_compute; reflexivity.
Qed.


(** C5, as stated, fails: the order of "APP1" was created at 0 and
    became completed 35 minutes later; one minute after that, within 30
    minutes of its completion, a second initiation for "APP1" is
    answered 200 and a second order is stored.  And within the window
    an initiation with another amount is answered 400, not 409. *)
Lemma duplicate_payment_counterexample :
  (map (fun p => (p_status p, p_createdAt p, p_updatedAt p))
     (payments (orderWorld completed 0 (35 * 60 * 1000)))
   = [(completed, 0, 35 * 60 * 1000)]
   /\ code (fst (initiate (sampleEnv (36 * 60 * 1000) "PENDING")
                   (orderWorld completed 0 (35 * 60 * 1000))
                   (sampleInitiate "APP1" "MO_2" 99))) = 200
   /\ map p_merchantOrderId
        (payments (snd (initiate (sampleEnv (36 * 60 * 1000) "PENDING")
                          (orderWorld completed 0 (35 * 60 * 1000))
                          (sampleInitiate "APP1" "MO_2" 99))))
      = ["MO_1"; "MO_2"])
  /\ code (fst (initiate (sampleEnv (10 * 60 * 1000) "PENDING")
                  (orderWorld completed 0 (5 * 60 * 1000))
                  (sampleInitiate "APP1" "MO_2" 50))) = 400.
Proof. repeat split; vm_compute; reflexivity. Qed.

(** C6, as stated, fails: an order stored as completed is polled, the
    gateway reports FAILED, and the stored status becomes failed. *)
Lemma terminal_status_counterexample :
  map p_status (payments (orderWorld completed 0 0)) = [completed]
  /\ map p_status
       (payments (snd (status_handler (sampleEnv 1000 "FAILED")
                         (orderWorld completed 0 0) "MO_1")))
     = [failed].
Proof. split; vm_compute; reflexivity. Qed.

(** C7, as stated, fails: the store holds one Application, with email
    "a@b.com" and phone "9876543210".  A valid submission with the
    pair ("a@b.com", "9876543211"), which no Application has, is
    answered 409; a submission with the stored email and no name is
    answered 400, not 409; and a valid submission with a new email and
    a new phone whose gender is outside the schema's enum is answered
    500. *)
Lemma submission_counterexample :
  (map (fun a => (email a, phone a)) (applications applicantWorld)
   = [("a@b.com", "9876543210")]
   /\ @validateApplicationData sampleExternals
        (sanitizeSubmit (set_contact "a@b.com" "9876543211" sampleSubmit))
      = Ok []
   /\ code (fst (@submit sampleExternals (sampleEnv 1000 "PENDING")
                   applicantWorld
                   (set_contact "a@b.com" "9876543211" sampleSubmit))) = 409)
  /\ code (fst (@submit sampleExternals (sampleEnv 1000 "PENDING")
                  applicantWorld (set_name JS.Undefined sampleSubmit))) = 400
  /\ (@validateApplicationData sampleExternals
        (sanitizeSubmit (set_gender (JS.Str "X") sampleSubmit)) = Ok []
      /\ code (fst (@submit sampleExternals (sampleEnv 1000 "PENDING")
                      emptyWorld (set_gender (JS.Str "X") sampleSubmit)))
         = 500).
Proof. repeat split; vm_compute; reflexivity. Qed.

(** C10, as stated, fails: the achievements field of a submission is
    blank and its name is the number 123.  Trimming the name raises
    before any message is listed, and the handler answers 500
    "Application submission failed" with no list of errors; nothing is
    stored. *)
Lemma required_fields_counterexample :
  absent_or_blank
    (sb_achievements
       (set_name (JS.Num 123) (set_achievements (JS.Str "  ") sampleSubmit)))
  /\ @validateApplicationData sampleExternals
       (sanitizeSubmit
          (set_name (JS.Num 123)
             (set_achievements (JS.Str "  ") sampleSubmit)))
     = Throw PlainError
  /\ @submit sampleExternals (sampleEnv 1000 "PENDING") emptyWorld
       (set_name (JS.Num 123) (set_achievements (JS.Str "  ") sampleSubmit))
     = (mkResponse 500 false "Application submission failed" NoPayload,
        emptyWorld).
Proof.
  split; [|split; vm_compute; reflexivity].
  right. right. exists "  ". split; reflexivity.
Qed.

(** ** The theorems at concrete inputs *)

Lemma generateAuthToken_contract_witness :
  (fst (generateAuthToken (sampleEnv 1000 "PENDING") (cachedWorld 100000))
   = Ok "tok-0"
   /\ snd (generateAuthToken (sampleEnv 1000 "PENDING") (cachedWorld 100000))
      = cachedWorld 100000)
  /\ (fst (generateAuthToken (sampleEnv 1000 "PENDING") (cachedWorld 60500))
      = Ok "tok-1"
      /\ tokenCache
           (snd (generateAuthToken (sampleEnv 1000 "PENDING")
                   (cachedWorld 60500)))
         = mkTokenCache (Some "tok-1") (Some 1750003600000)
      /\ trace (snd (generateAuthToken (sampleEnv 1000 "PENDING")
                       (cachedWorld 60500)))
         = [TokenExchange])
  /\ (fst (generateAuthToken (downEnv 1000) (cachedWorld 60500))
      = Throw PlainError
      /\ tokenCache (snd (generateAuthToken (downEnv 1000) (cachedWorld 60500)))
         = mkTokenCache None (Some 0)
      /\ trace (snd (generateAuthToken (downEnv 1000) (cachedWorld 60500)))
         = [TokenExchange]).
Proof.
  assert (Hstale : forall env,
             now env = 1000 ->
             ~ (exists tok e,
                   token (tokenCache (cachedWorld 60500)) = Some tok
                   /\ tok <> ""
                   /\ expiresAt (tokenCache (cachedWorld 60500)) = Some e
                   /\ now env < e - 60000)).
  { intros env Hnow (tok & e & _ & _ & He & Hlt). simpl in He.
    inversion He; subst e. rewrite Hnow in Hlt. lia. }
  assert (Hcache : forall c k e,
             token c = k -> expiresAt c = e -> c = mkTokenCache k e)
    by (intros [k' e'] k e <- <-; reflexivity).
  split; [|split].
  - destruct (proj1 (generateAuthToken_contract (sampleEnv 1000 "PENDING")
                       (cachedWorld 100000)) "tok-0" 100000)
      as (Hr & Hw & _);
      [reflexivity | discriminate | reflexivity | reflexivity |].
    split; [exact Hr | exact Hw].
  - destruct (proj2 (generateAuthToken_contract
                       (sampleEnv 1000 "PENDING") (cachedWorld 60500))
                (Hstale (sampleEnv 1000 "PENDING") eq_refl))
      as (Ht & _ & _ & Hok & _).
    destruct (Hok "tok-1" (Some 1750003600) eq_refl) as (Hr & Htok & Hexp).
    split; [exact Hr|]. split; [|exact Ht].
    apply Hcache; [exact Htok | exact Hexp].
  - destruct (proj2 (generateAuthToken_contract (downEnv 1000)
                       (cachedWorld 60500))
                (Hstale (downEnv 1000) eq_refl))
      as (Ht & _ & _ & _ & Hfail).
    destruct (Hfail eq_refl) as (Hr & Htok & Hexp).
    split; [exact Hr|]. split; [|exact Ht].
    apply Hcache; [exact Htok | exact Hexp].
Defined.

Lemma initiate_persists_only_on_complete_reply_witness :
  accepted_fields (sanitizePayment (sampleInitiate "APP1" "MO_1" 99))
  = Some ("APP1", "MO_1")
  /\ code (fst (initiate (sampleEnv 1000 "PENDING") emptyWorld
                  (sampleInitiate "APP1" "MO_1" 99))) = 200
  /\ payments (snd (initiate (sampleEnv 1000 "PENDING") emptyWorld
                      (sampleInitiate "APP1" "MO_1" 99)))
     = [mkPayment "APP1" "MO_1" (Some "OMO123") 9900 initiated
          (BlobPay samplePay) 1000 1000]
  /\ payments (snd (initiate (downEnv 1000) emptyWorld
                      (sampleInitiate "APP1" "MO_1" 99))) = []
  /\ code (fst (initiate (downEnv 1000) emptyWorld
                  (sampleInitiate "APP1" "MO_1" 99))) = 500.
Proof.
  split; [reflexivity|].
  pose proof (initiate_persists_only_on_complete_reply
                (sampleEnv 1000 "PENDING") emptyWorld
                (sampleInitiate "APP1" "MO_1" 99) "APP1" "MO_1"
                eq_refl eq_refl eq_refl) as H.
  cbv zeta in H. destruct H as (_ & _ & H).
  destruct (H "tok-1" samplePay eq_refl eq_refl) as (Hc & _ & Hp).
  split; [exact Hc|]. split; [exact Hp|].
  pose proof (initiate_persists_only_on_complete_reply
                (downEnv 1000) emptyWorld
                (sampleInitiate "APP1" "MO_1" 99) "APP1" "MO_1"
                eq_refl eq_refl eq_refl) as H'.
  cbv zeta in H'. destruct H' as (_ & H' & _).
  destruct (H' (or_intror eq_refl)) as (Hp' & _ & Hc' & _).
  split; [exact Hp' | exact Hc'].
Defined.

Lemma confirmation_email_guard_witness :
  COMPLETED_is_final
    [sampleEnv 1000 "PENDING"; sampleEnv 2000 "COMPLETED";
     sampleEnv 3000 "COMPLETED"]
  /\ (confirmation_emails
        (trace (snd (@run sampleExternals
                       (linkedWorld app_pending pay_pending None initiated)
                       (polls "MO_1"
                          [sampleEnv 1000 "PENDING";
                           sampleEnv 2000 "COMPLETED";
                           sampleEnv 3000 "COMPLETED"])))) <= 1)%nat.
Proof.
  assert (Hfinal : COMPLETED_is_final
                     [sampleEnv 1000 "PENDING"; sampleEnv 2000 "COMPLETED";
                      sampleEnv 3000 "COMPLETED"]).
  { simpl. repeat split; intros; repeat constructor. }
  split; [exact Hfinal|].
  exact (proj1 (proj2 (@confirmation_email_guard sampleExternals))
           (linkedWorld app_pending pay_pending None initiated) "MO_1" _
           Hfinal).
Defined.

Lemma initiation_creates_at_most_once_witness :
  accepted_fields (sanitizePayment (sampleInitiate "APP1" "MO_1" 99))
  = Some ("APP1", "MO_1")
  /\ Payment_findOne "MO_1" (payments (orderWorld pending 0 0))
     = Some (samplePayment "APP1" "MO_1" pending 0 0)
  /\ initiate (sampleEnv 1000 "PENDING") (orderWorld pending 0 0)
       (sampleInitiate "APP1" "MO_1" 99)
     = (mkResponse 409 false "Payment already exists for this order ID"
          (ExistingPayment "MO_1" pending 0),
        orderWorld pending 0 0).
Proof.
  split; [reflexivity|]. split; [reflexivity|].
  exact (proj1 (@initiation_creates_at_most_once sampleExternals)
           (sampleEnv 1000 "PENDING") (orderWorld pending 0 0)
           (sampleInitiate "APP1" "MO_1" 99) "APP1" "MO_1"
           (samplePayment "APP1" "MO_1" pending 0 0) eq_refl eq_refl).
Defined.


Lemma duplicate_payment_window_witness :
  accepted_fields (sanitizePayment (sampleInitiate "APP1" "MO_2" 99))
  = Some ("APP1", "MO_2")
  /\ (code (fst (initiate (sampleEnv (30 * 60 * 1000) "PENDING")
                   (orderWorld completed 0 0)
                   (sampleInitiate "APP1" "MO_2" 99))) = 409
      /\ snd (initiate (sampleEnv (30 * 60 * 1000) "PENDING")
                (orderWorld completed 0 0) (sampleInitiate "APP1" "MO_2" 99))
         = orderWorld completed 0 0)
  /\ code (fst (initiate (sampleEnv (30 * 60 * 1000 + 1000) "PENDING")
                  (orderWorld completed 0 0)
                  (sampleInitiate "APP1" "MO_2" 99))) = 200.
Proof.
  split; [reflexivity|]. split.
  - pose proof (duplicate_payment_window (sampleEnv (30 * 60 * 1000) "PENDING")
                  (orderWorld completed 0 0)
                  (sampleInitiate "APP1" "MO_2" 99) "APP1" "MO_2" eq_refl)
      as H.
    cbv zeta in H. destruct H as (H & _). apply H.
    exists (samplePayment "APP1" "MO_1" completed 0 0).
    split; [left; reflexivity|]. split; [reflexivity|].
    split; [reflexivity|]. simpl. lia.
  - pose proof (duplicate_payment_window
                  (sampleEnv (30 * 60 * 1000 + 1000) "PENDING")
                  (orderWorld completed 0 0)
                  (sampleInitiate "APP1" "MO_2" 99) "APP1" "MO_2" eq_refl)
      as H.
    cbv zeta in H. destruct H as (_ & H).
    assert (Hold : forall p,
               In p (payments (orderWorld completed 0 0)) ->
               p_applicationId p = "APP1" -> p_status p = completed ->
               p_createdAt p + 30 * 60 * 1000
               < now (sampleEnv (30 * 60 * 1000 + 1000) "PENDING")).
    { intros p [Hp | []] _ _. subst p. simpl. lia. }
    destruct (H Hold eq_refl) as (_ & H200).
    exact (proj1 (H200 "tok-1" samplePay eq_refl eq_refl)).
Defined.

Lemma reconciliation_stores_reported_state_witness :
  gateway_answer (sampleEnv 1000 "COMPLETED") (orderWorld initiated 0 0) "MO_1"
  = Some (samplePayment "APP1" "MO_1" initiated 0 0, statusOf "COMPLETED")
  /\ exists p',
      Payment_findOne "MO_1"
        (payments (snd (status_handler (sampleEnv 1000 "COMPLETED")
                          (orderWorld initiated 0 0) "MO_1"))) = Some p'
      /\ p_status p' = completed.
Proof.
  split; [reflexivity|].
  pose proof (reconciliation_stores_reported_state
                (sampleEnv 1000 "COMPLETED") (orderWorld initiated 0 0) "MO_1")
    as H.
  cbv zeta in H. destruct H as (H & _).
  destruct (H (samplePayment "APP1" "MO_1" initiated 0 0)
              (statusOf "COMPLETED") eq_refl) as (p' & Hf & Hc & _).
  exists p'. split; [exact Hf | exact (Hc eq_refl)].
Defined.

Lemma submission_rejects_known_contact_witness :
  @validateApplicationData sampleExternals (sanitizeSubmit sampleSubmit)
  = Ok []
  /\ (fst (@submit sampleExternals (sampleEnv 1750000000000 "PENDING")
             emptyWorld sampleSubmit)
      = mkResponse 201 true "Application submitted successfully"
          (Submitted "NF20251750000000000123" (Some 1750000000000))
      /\ applications
           (snd (@submit sampleExternals (sampleEnv 1750000000000 "PENDING")
                   emptyWorld sampleSubmit))
         = [mkApplication "NF20251750000000000123" "Asha Patil" "a@b.com"
              "9876543210" 1118793600000 "Female" "Engineering"
              "Test College" "Maharashtra" "Pune" "411001" "12 Main Road"
              150000 "1-3 lakh" "Science fair winner" "Principal" sampleSop
              app_pending pay_pending None (Some 1750000000000)
              (Some 1750000000000)])
  /\ (fst (@submit sampleExternals (sampleEnv 1750000000000 "PENDING")
             emptyWorld
             (set_record (JS.Str "approved") (JS.Str "completed")
                (JS.Str "X1") (JS.Num 5) JS.Null sampleSubmit))
      = mkResponse 201 true "Application submitted successfully"
          (Submitted "NF20251750000000000123" (Some 5))
      /\ applications
           (snd (@submit sampleExternals (sampleEnv 1750000000000 "PENDING")
                   emptyWorld
                   (set_record (JS.Str "approved") (JS.Str "completed")
                      (JS.Str "X1") (JS.Num 5) JS.Null sampleSubmit)))
         = [mkApplication "NF20251750000000000123" "Asha Patil" "a@b.com"
              "9876543210" 1118793600000 "Female" "Engineering"
              "Test College" "Maharashtra" "Pune" "411001" "12 Main Road"
              150000 "1-3 lakh" "Science fair winner" "Principal" sampleSop
              approved pay_completed (Some "X1") (Some 5) None])
  /\ @submit sampleExternals (sampleEnv 1000 "PENDING") applicantWorld
       sampleSubmit
     = (mkResponse 409 false
          "Application already exists with this email or phone number"
          NoPayload, applicantWorld).
Proof.
  split; [vm_compute; reflexivity|]. split; [|split].
  - destruct (proj1 (proj2 (@submission_rejects_known_contact sampleExternals))
                (sampleEnv 1750000000000 "PENDING") emptyWorld sampleSubmit
                (mkApplication "NF20251750000000000123" "Asha Patil"
                   "a@b.com" "9876543210" 1118793600000 "Female"
                   "Engineering" "Test College" "Maharashtra" "Pune"
                   "411001" "12 Main Road" 150000 "1-3 lakh"
                   "Science fair winner" "Principal" sampleSop app_pending
                   pay_pending None (Some 1750000000000)
                   (Some 1750000000000)))
      as (Hr & Ha & _).
    + vm_compute. reflexivity.
    + intros x [].
    + vm_compute. reflexivity.
    + intros x [].
    + split; [exact Hr | exact Ha].
  - destruct (proj1 (proj2 (@submission_rejects_known_contact sampleExternals))
                (sampleEnv 1750000000000 "PENDING") emptyWorld
                (set_record (JS.Str "approved") (JS.Str "completed")
                   (JS.Str "X1") (JS.Num 5) JS.Null sampleSubmit)
                (mkApplication "NF20251750000000000123" "Asha Patil"
                   "a@b.com" "9876543210" 1118793600000 "Female"
                   "Engineering" "Test College" "Maharashtra" "Pune"
                   "411001" "12 Main Road" 150000 "1-3 lakh"
                   "Science fair winner" "Principal" sampleSop approved
                   pay_completed (Some "X1") (Some 5) None))
      as (Hr & Ha & _).
    + vm_compute. reflexivity.
    + intros x [].
    + vm_compute. reflexivity.
    + intros x [].
    + split; [exact Hr | exact Ha].
  - apply (proj1 (@submission_rejects_known_contact sampleExternals)).
    + vm_compute. reflexivity.
    + exists (sampleApplication "APP1" app_pending pay_pending None).
      split; [left; reflexivity | left; reflexivity].
Defined.

Lemma achievements_and_recommendation_are_required_witness :
  texts_only (set_achievements (JS.Str "  ") sampleSubmit) = true
  /\ absent_or_blank
       (sb_achievements (set_achievements (JS.Str "  ") sampleSubmit))
  /\ exists errors,
      @submit sampleExternals (sampleEnv 1000 "PENDING") emptyWorld
        (set_achievements (JS.Str "  ") sampleSubmit)
      = (mkResponse 400 false "Validation failed" (Errors errors), emptyWorld)
      /\ In "Achievements are required" errors.
Proof.
  assert (Hb : absent_or_blank
                 (sb_achievements
                    (set_achievements (JS.Str "  ") sampleSubmit)))
    by (right; right; exists "  "; split; reflexivity).
  split; [reflexivity|]. split; [exact Hb|].
  exact (proj1 (proj1 (@achievements_and_recommendation_are_required
                         sampleExternals (sampleEnv 1000 "PENDING")
                         emptyWorld
                         (set_achievements (JS.Str "  ") sampleSubmit))
                  eq_refl) Hb).
Defined.

(** ** Trimming and [sanitizeInput] *)

Lemma trimStart_starts_clean (s : string) : starts_clean (JS.trimStart s).
Proof.
  induction s as [|c r IH]; simpl; [exact I|].
  destruct (JS.is_space c) eqn:E; [exact IH | simpl; exact E].
Qed.

Lemma trimStart_clean (s : string) : starts_clean s -> JS.trimStart s = s.
Proof. destruct s as [|c r]; simpl; [reflexivity|]. intros ->. reflexivity. Qed.

Lemma trimEnd_starts_clean (s : string) :
  starts_clean s -> starts_clean (JS.trimEnd s).
Proof.
  destruct s as [|c r]; simpl; [auto|]. intros E. rewrite E. simpl. exact E.
Qed.

Lemma trimEnd_idempotent (s : string) : JS.trimEnd (JS.trimEnd s) = JS.trimEnd s.
Proof.
  induction s as [|c r IH]; simpl; [reflexivity|].
  destruct (JS.is_space c && (JS.trimEnd r =? "")%string) eqn:E;
    [reflexivity|].
  simpl. rewrite IH, E. reflexivity.
Qed.

Lemma trim_idempotent (s : string) : JS.trim (JS.trim s) = JS.trim s.
Proof.
  unfold JS.trim.
  rewrite (trimStart_clean (JS.trimEnd (JS.trimStart s))).
  - apply trimEnd_idempotent.
  - apply trimEnd_starts_clean, trimStart_starts_clean.
Qed.

Lemma trimEnd_no_space (s : string) :
  JS.all_chars (fun c => negb (JS.is_space c)) s = true -> JS.trimEnd s = s.
Proof.
  induction s as [|c r IH]; simpl; [reflexivity|].
  intros H. apply andb_prop in H as [Hc Hr].
  apply Bool.negb_true_iff in Hc. rewrite Hc, (IH Hr). reflexivity.
Qed.

Lemma trim_no_space (s : string) :
  JS.all_chars (fun c => negb (JS.is_space c)) s = true -> JS.trim s = s.
Proof.
  intros H. unfold JS.trim. rewrite trimStart_clean.
  - apply trimEnd_no_space, H.
  - destruct s as [|c r]; simpl in *; [exact I|].
    apply andb_prop in H as [Hc _]. apply Bool.negb_true_iff in Hc. exact Hc.
Qed.

Lemma all_chars_weaken (p q : ascii -> bool) (s : string) :
  (forall c, p c = true -> q c = true) ->
  JS.all_chars p s = true -> JS.all_chars q s = true.
Proof.
  intros Hpq. induction s as [|c r IH]; simpl; [reflexivity|].
  intros H. apply andb_prop in H as [Hc Hr].
  rewrite (Hpq c Hc), (IH Hr). reflexivity.
Qed.

Lemma digit_not_space (c : ascii) :
  JS.is_digit c = true -> negb (JS.is_space c) = true.
Proof.
  destruct c as [[] [] [] [] [] [] [] []]; vm_compute; congruence.
Qed.

Lemma blank_sanitizeText (o : option string) :
  JS.blank (sanitizeText o) = JS.blank o.
Proof.
  destruct o as [s|]; simpl; [|reflexivity].
  destruct (String.eqb_spec (JS.trim s) ""); simpl; [reflexivity|].
  rewrite trim_idempotent.
  destruct (String.eqb_spec (JS.trim s) ""); [contradiction | reflexivity].
Qed.

Lemma sanitizeText_idempotent (o : option string) :
  sanitizeText (sanitizeText o) = sanitizeText o.
Proof.
  destruct o as [s|]; simpl; [|reflexivity].
  destruct (String.eqb_spec (JS.trim s) ""); simpl; [reflexivity|].
  rewrite trim_idempotent.
  destruct (String.eqb_spec (JS.trim s) ""); [contradiction | reflexivity].
Qed.

Lemma sanitizeValue_idempotent (v : JS.value) :
  sanitizeValue (sanitizeValue v) = sanitizeValue v.
Proof.
  destruct v as [| |b|z|s]; simpl; try reflexivity.
  destruct (String.eqb_spec (JS.trim s) ""); simpl; [reflexivity|].
  rewrite trim_idempotent.
  destruct (String.eqb_spec (JS.trim s) ""); [contradiction | reflexivity].
Qed.

Lemma sanitizeText_clean (o : option string) (t : string) :
  sanitizeText o = Some t -> t <> "" /\ JS.trim t = t.
Proof.
  destruct o as [s|]; simpl; [|discriminate].
  destruct (String.eqb_spec (JS.trim s) ""); [discriminate|].
  intros H; inversion H; subst. split; [assumption | apply trim_idempotent].
Qed.

Lemma sanitizeValue_clean (v : JS.value) (t : string) :
  sanitizeValue v = JS.Str t -> t <> "" /\ JS.trim t = t.
Proof.
  destruct v as [| |b|z|s]; simpl; try discriminate.
  destruct (String.eqb_spec (JS.trim s) ""); [discriminate|].
  intros H; inversion H; subst. split; [assumption | apply trim_idempotent].
Qed.

(** X1: what [sanitizeInput] leaves in a body is in normal form: a text
    field is absent or a non-empty string that trimming does not
    change, and sanitizing a second time changes nothing, for the
    submission body and for the payment body; a string left in a field
    of the submission body is not empty and trimming does not change
    it. *)
Theorem sanitizeInput_normal_form :
  (forall o t, sanitizeText o = Some t -> t <> "" /\ JS.trim t = t)
  /\ (forall b, sanitizeSubmit (sanitizeSubmit b) = sanitizeSubmit b)
  /\ (forall b, sanitizePayment (sanitizePayment b) = sanitizePayment b)
  /\ (forall v t, sanitizeValue v = JS.Str t -> t <> "" /\ JS.trim t = t).
Proof.
  split; [exact sanitizeText_clean|]. split; [|split].
  - intros b. unfold sanitizeSubmit. simpl.
    rewrite !sanitizeValue_idempotent. reflexivity.
  - intros b. unfold sanitizePayment. simpl.
    rewrite !sanitizeText_idempotent, !sanitizeValue_idempotent. reflexivity.
  - exact sanitizeValue_clean.
Qed.

(** ** The browser's form check against the server's validation *)

Lemma form_blank_false (v : option string) :
  form_blank v = false -> exists s, v = Some s /\ JS.trim s <> "".
Proof.
  destruct v as [s|]; simpl; [|discriminate]. intros H.
  apply Bool.orb_false_iff in H as [_ H]. exists s. split; [reflexivity|].
  intros E. rewrite E in H. discriminate.
Qed.

Lemma form_blank_server (v : option string) :
  form_blank v = false -> JS.blank (sanitizeText v) = false.
Proof.
  intros H. rewrite blank_sanitizeText.
  apply form_blank_false in H. destruct H as (s & -> & Hs). simpl.
  destruct (String.eqb_spec (JS.trim s) ""); [contradiction | reflexivity].
Qed.

Lemma validatePhoneNumber_no_space (s : string) :
  validatePhoneNumber s = true ->
  JS.all_chars (fun c => negb (JS.is_space c)) s = true.
Proof.
  destruct s as [|c r]; simpl; [discriminate|]. intros H.
  apply andb_prop in H as [H Hd]. apply andb_prop in H as [H _].
  rewrite (all_chars_weaken _ _ r digit_not_space Hd), Bool.andb_true_r.
  revert H. destruct c as [[] [] [] [] [] [] [] []]; vm_compute; congruence.
Qed.

Lemma formEmail_from_no_space (seen : bool) (s : string) :
  formEmail_from seen s = true ->
  JS.all_chars (fun c => negb (JS.is_space c)) s = true.
Proof.
  revert seen. induction s as [|c r IH]; intros seen; simpl; [discriminate|].
  destruct (Ascii.eqb_spec c "@"%char) as [->|Hc].
  - intros H. apply andb_prop in H as [H _]. apply andb_prop in H as [_ H].
    simpl. eapply all_chars_weaken; [|exact H].
    intros c. unfold plain_char. intros Hp.
    apply andb_prop in Hp as [Hp _]. exact Hp.
  - destruct (JS.is_space c); [discriminate|]. simpl. apply IH.
Qed.

Lemma push_if_nil (c : bool) (m : string) : push_if c m = [] <-> c = false.
Proof. destruct c; simpl; split; congruence. Qed.

(** The fields the loop of [validateFormData] found filled. *)
Lemma first_blank_none (formData : Form) :
  first_blank (requiredFields formData) = None ->
  Forall (fun f => form_blank (fst f) = false) (requiredFields formData).
Proof.
  generalize (requiredFields formData) as l.
  induction l as [|[v label] rest IH]; simpl; [constructor|].
  destruct (form_blank v) eqn:E; [discriminate|]. intros H.
  constructor; [exact E | exact (IH H)].
Qed.

Lemma five_rules (a b c d e : bool) (m1 m2 m3 m4 m5 : string) :
  (push_if a m1 ++ push_if b m2 ++ push_if c m3 ++ push_if d m4
   ++ push_if e m5)%list = []
  <-> a = false /\ b = false /\ c = false /\ d = false /\ e = false.
Proof. destruct a, b, c, d, e; simpl; split; intuition congruence. Qed.

(** [!data.income_amount] on what [parseFloat] and JSON deliver. *)
Lemma income_truthy (o : option Z) :
  negb (JS.truthy (sanitizeValue
                     match o with Some z => JS.Num z | None => JS.Null end))
  = match o with Some z => (z =? 0) | None => true end.
Proof. destruct o as [z|]; simpl; [apply Bool.negb_involutive | reflexivity]. Qed.

Lemma blank_or_empty (v : option string) : JS.blank (or_empty v) = JS.blank v.
Proof. destruct v; reflexivity. Qed.

(** A form value posted as JSON and sanitized by the server. *)
Lemma text_of_sanitize (o : option string) :
  text_of (sanitizeValue (text_value o)) = sanitizeText o.
Proof.
  destruct o as [s|]; simpl; [|reflexivity].
  destruct (JS.trim s =? "")%string; reflexivity.
Qed.

Lemma is_text_text_value (o : option string) : is_text (text_value o) = true.
Proof. destruct o; reflexivity. Qed.

Section ClientServer.

Context {ext : Externals}.

(** X2: for a form that the browser's [validateFormData] accepts, the
    server's validation accepts the posted body exactly when
    [validator.isEmail] accepts the email, the parsed income is a
    number other than zero, achievements and recommendation are not
    blank, and the statement still has 50 characters once trimmed; no
    other rule of the server can reject such a form. *)
Theorem browser_accepted_form_on_server
  (parseFloat : option string -> option Z) (formData : Form)
  (consent : option bool) :
  validateFormData formData consent = Ok None ->
  exists e sop,
    f_email formData = Some e /\ f_sop formData = Some sop
    /\ (validateApplicationData
          (sanitizeSubmit (applicationData parseFloat formData)) = Ok []
        <-> isEmail e = true
            /\ (exists z, parseFloat (f_income_amount formData) = Some z
                          /\ z <> 0)
            /\ JS.blank (f_achievements formData) = false
            /\ JS.blank (f_recommendation formData) = false
            /\ 50 <= JS.length (JS.trim sop)).
Proof.
  unfold validateFormData.
  destruct (first_blank (requiredFields formData)) eqn:Hreq; [discriminate|].
  apply first_blank_none in Hreq. unfold requiredFields in Hreq.
  repeat match goal with
         | H : Forall _ (_ :: _) |- _ => inversion H; clear H; subst
         end.
  simpl fst in *.
  destruct (regex_test validatePhoneNumber (f_phone formData)) eqn:Hphone;
    [|discriminate].
  destruct (regex_test formEmail (f_email formData)) eqn:Hemail;
    [|discriminate].
  destruct (regex_test formPincode (f_pincode formData)); [|discriminate].
  simpl negb. cbv iota.
  destruct (f_sop formData) as [sop|] eqn:Hsop; [|discriminate].
  destruct (JS.length sop <? 50); [discriminate|]. intros _.
  destruct (f_email formData) as [e|] eqn:He; [|discriminate].
  destruct (f_phone formData) as [ph|] eqn:Hph; [|discriminate].
  simpl in Hphone, Hemail.
  exists e, sop. split; [reflexivity|]. split; [reflexivity|].
  (* the phone and the email hold no white space: trimming keeps them *)
  assert (Tph : JS.trim ph = ph)
    by (apply trim_no_space, validatePhoneNumber_no_space, Hphone).
  assert (Te : JS.trim e = e)
    by (apply trim_no_space, (formEmail_from_no_space false), Hemail).
  assert (Nph : ph <> "") by (intros ->; discriminate).
  assert (Ne : e <> "") by (intros ->; discriminate).
  assert (Ts : JS.trim sop <> "").
  { match goal with
    | H : form_blank (Some sop) = false |- _ =>
        apply form_blank_false in H; destruct H as (s' & E & Hs);
        inversion E; subst; exact Hs
    end. }
  assert (Td : exists d, f_dob formData = Some d /\ JS.trim d <> "")
    by (apply form_blank_false; assumption).
  destruct Td as (d & Hd & Nd).
  assert (Xe : fails_test (sanitizeText (Some e)) validateEmail
               = negb (isEmail e)).
  { simpl. rewrite Te. destruct (String.eqb_spec e ""); [contradiction|].
    simpl. rewrite Te. destruct (String.eqb_spec e ""); [contradiction|].
    reflexivity. }
  assert (Xp : fails_test (sanitizeText (Some ph)) validatePhoneNumber
               = false).
  { simpl. rewrite Tph. destruct (String.eqb_spec ph ""); [contradiction|].
    simpl. rewrite Tph, Hphone.
    destruct (String.eqb_spec ph ""); [contradiction | reflexivity]. }
  assert (Xd : negb (JS.truthy (sanitizeValue (text_value (Some d)))) = false).
  { simpl. destruct (String.eqb_spec (JS.trim d) ""); [contradiction|].
    simpl. destruct (String.eqb_spec (JS.trim d) "");
      [contradiction | reflexivity]. }
  assert (Xs : sop_too_short (sanitizeValue (text_value (Some sop)))
               = (JS.length (JS.trim sop) <? 50)).
  { simpl. destruct (String.eqb_spec (JS.trim sop) ""); [contradiction|].
    simpl. destruct (String.eqb_spec (JS.trim sop) "");
      [contradiction | reflexivity]. }
  assert (Xb : JS.blank (Some sop) = false)
    by (simpl; destruct (String.eqb_spec (JS.trim sop) ""); congruence).
  assert (Xbe : JS.blank (Some e) = false)
    by (simpl; rewrite Te; destruct (String.eqb_spec e ""); congruence).
  assert (Xbp : JS.blank (Some ph) = false)
    by (simpl; rewrite Tph; destruct (String.eqb_spec ph ""); congruence).
  assert (T : texts_only (sanitizeSubmit (applicationData parseFloat formData))
              = true).
  { apply texts_only_sanitize. unfold texts_only, applicationData.
    cbn [sb_name sb_email sb_phone sb_gender sb_category sb_school
         sb_state sb_district sb_pincode sb_address sb_income_band
         sb_achievements sb_recommendation sb_sop].
    rewrite !is_text_text_value. reflexivity. }
  rewrite (validate_texts _ T).
  assert (Hinj : forall l : list string, Ok l = Ok [] <-> l = [])
    by (intros l; split; [intros Hl; inversion Hl; reflexivity
                         | intros ->; reflexivity]).
  rewrite Hinj.
  unfold violations, sanitizeSubmit, applicationData.
  cbn [sb_name sb_email sb_phone sb_dob sb_gender sb_category sb_school
       sb_state sb_district sb_pincode sb_address sb_income_amount
       sb_income_band sb_achievements sb_recommendation sb_sop].
  rewrite !text_of_sanitize.
  rewrite He, Hph, Hd, Hsop, Xe, Xp, Xd, Xs.
  rewrite !form_blank_server by assumption.
  rewrite !blank_sanitizeText, ?Xb, ?Xbe, ?Xbp.
  cbn [push_if app].
  rewrite (income_truthy (parseFloat (f_income_amount formData))).
  rewrite !blank_or_empty.
  rewrite five_rules, Bool.negb_false_iff.
  destruct (parseFloat (f_income_amount formData)) as [z|].
  - destruct (Z.eqb_spec z 0); simpl; rewrite Z.ltb_ge.
    + split; [intros (_ & Hf & _); discriminate|].
      intros (_ & (z' & Hz & Hn) & _). congruence.
    + split.
      * intros (H1' & _ & H3' & H4' & H5'). repeat split; eauto.
      * intros (H1' & _ & H3' & H4' & H5'). repeat split; auto.
  - simpl. split; [intros (_ & Hf & _); discriminate|].
    intros (_ & (z' & Hz & _) & _). discriminate.
Qed.

End ClientServer.

(** ** The digit formatters of the form *)

Lemma keep_digits_all (s : string) :
  JS.all_chars JS.is_digit (keep_digits s) = true.
Proof.
  induction s as [|c r IH]; simpl; [reflexivity|].
  destruct (JS.is_digit c) eqn:E; simpl; [rewrite E, IH; reflexivity | exact IH].
Qed.

Lemma keep_digits_fixed (s : string) :
  JS.all_chars JS.is_digit s = true -> keep_digits s = s.
Proof.
  induction s as [|c r IH]; simpl; [reflexivity|].
  intros H. apply andb_prop in H as [Hc Hr]. rewrite Hc, (IH Hr). reflexivity.
Qed.

Lemma substring_all (p : ascii -> bool) (n : nat) :
  forall s, JS.all_chars p s = true ->
            JS.all_chars p (substring 0 n s) = true.
Proof.
  induction n as [|n IH]; intros [|c r]; simpl; auto.
  intros H. apply andb_prop in H as [Hc Hr]. rewrite Hc, (IH r Hr). reflexivity.
Qed.

Lemma substring_length (n : nat) :
  forall s, (n <= String.length s)%nat ->
            String.length (substring 0 n s) = n.
Proof.
  induction n as [|n IH]; intros [|c r]; simpl; intros H; try lia.
  rewrite IH; lia.
Qed.

Lemma formatDigits_cases (n : nat) (s : string) :
  ((n < String.length (keep_digits s))%nat
   /\ formatDigits n s = substring 0 n (keep_digits s))
  \/ ((String.length (keep_digits s) <= n)%nat
      /\ formatDigits n s = keep_digits s).
Proof.
  unfold formatDigits.
  destruct (Nat.ltb_spec n (String.length (keep_digits s))); [left | right];
    auto.
Qed.

Lemma formatDigits_digits (n : nat) (s : string) :
  JS.all_chars JS.is_digit (formatDigits n s) = true
  /\ (String.length (formatDigits n s) <= n)%nat.
Proof.
  split.
  - destruct (formatDigits_cases n s) as [[_ ->] | [_ ->]];
      [apply substring_all|]; apply keep_digits_all.
  - destruct (formatDigits_cases n s) as [[H ->] | [H ->]]; [|exact H].
    rewrite substring_length; lia.
Qed.

(** X3: whatever is typed, the phone and pincode formatters leave
    digits only and at most [n] of them; formatting again changes
    nothing, and an input that already is at most [n] digits is kept
    as it is. *)
Theorem formatDigits_normalises (n : nat) (s : string) :
  JS.all_chars JS.is_digit (formatDigits n s) = true
  /\ (String.length (formatDigits n s) <= n)%nat
  /\ formatDigits n (formatDigits n s) = formatDigits n s
  /\ (JS.all_chars JS.is_digit s = true -> (String.length s <= n)%nat ->
      formatDigits n s = s).
Proof.
  destruct (formatDigits_digits n s) as [Hall Hlen].
  assert (Hfix : forall t, JS.all_chars JS.is_digit t = true ->
                           (String.length t <= n)%nat -> formatDigits n t = t).
  { intros t Ht Hn. unfold formatDigits. rewrite (keep_digits_fixed t Ht).
    destruct (Nat.ltb_spec n (String.length t)); [lia | reflexivity]. }
  repeat split; auto.
Qed.

(** X4: the formatted pincode passes the form's six-digit test exactly
    when the typed text holds at least six digits, and the formatted
    phone passes the ten-digit test exactly when the typed text holds
    at least ten digits of which the first is 6, 7, 8 or 9. *)
Theorem formatted_fields_pass_the_form_check (s : string) :
  (formPincode (formatDigits 6 s) = true
   <-> (6 <= String.length (keep_digits s))%nat)
  /\ (validatePhoneNumber (formatDigits 10 s) = true
      <-> (10 <= String.length (keep_digits s))%nat
          /\ exists c r, keep_digits s = String c r
                         /\ (54 <= nat_of_ascii c <= 57)%nat).
Proof.
  pose proof (formatDigits_digits 6 s) as (A6 & L6).
  pose proof (formatDigits_digits 10 s) as (A10 & L10).
  split.
  - unfold formPincode. rewrite A6, Bool.andb_true_r, Nat.eqb_eq.
    destruct (formatDigits_cases 6 s) as [[H ->] | [H E]].
    + rewrite substring_length by lia. split; lia.
    + rewrite E in *. split; lia.
  - destruct (formatDigits_cases 10 s) as [[H E] | [H E]].
    + rewrite E. destruct (keep_digits s) as [|c r] eqn:K; [simpl in H; lia|].
      pose proof (keep_digits_all s) as Hk. rewrite K in Hk.
      simpl in Hk. apply andb_prop in Hk as [_ Hr].
      change (substring 0 10 (String c r)) with (String c (substring 0 9 r)).
      unfold validatePhoneNumber.
      rewrite (substring_all _ 9 r Hr), Bool.andb_true_r.
      simpl in H. rewrite substring_length by lia.
      rewrite Nat.eqb_refl, Bool.andb_true_r.
      rewrite Bool.andb_true_iff, !Nat.leb_le. split.
      * intros Hc. split; [simpl; lia|]. exists c, r. auto.
      * intros (_ & c' & r' & Hk & Hc). inversion Hk; subst. exact Hc.
    + rewrite E in *. destruct (keep_digits s) as [|c r] eqn:K.
      * simpl. split; [discriminate|]. intros (Hl & _). simpl in Hl. lia.
      * simpl in A10. apply andb_prop in A10 as [_ Hr].
        unfold validatePhoneNumber. rewrite Hr, Bool.andb_true_r.
        rewrite !Bool.andb_true_iff, !Nat.leb_le, Nat.eqb_eq. simpl in *.
        split.
        -- intros (Hc & Hl). split; [lia|]. exists c, r. auto.
        -- intros (Hl & c' & r' & Hk & Hc). inversion Hk; subst.
           split; [exact Hc | lia].
Qed.

(** ** Reading an application back *)

Lemma submit_created {ext : Externals} (env : Env) (w : World)
  (raw : SubmitBody) :
  code (fst (submit env w raw)) = 201 ->
  exists a,
    fst (submit env w raw)
    = mkResponse 201 true "Application submitted successfully"
        (Submitted (applicationId a) (createdAt a))
    /\ snd (submit env w raw)
       = set_applications (applications w ++ [a]) w
    /\ sb_email (sanitizeSubmit raw) = JS.Str (email a)
    /\ sb_phone (sanitizeSubmit raw) = JS.Str (phone a)
    /\ new_Application (sanitizeSubmit raw)
         ("NF2025" ++ JS.show (now env) ++ JS.show (random1000 env))%string
         (now env) = Some a
    /\ (forall x, In x (applications w) ->
                  applicationId x <> applicationId a
                  /\ email x <> email a /\ phone x <> phone a).
Proof.
  destruct (validateApplicationData (sanitizeSubmit raw)) as [[|m l]|e] eqn:Ev.
  2:{ rewrite (submit_invalid env w raw _ Ev) by discriminate. discriminate. }
  2:{ rewrite (submit_throws env w raw _ Ev). discriminate. }
  rewrite (submit_valid env w raw Ev). cbv zeta.
  destruct (Application_findOne_email_or_phone _ _ _) eqn:Ef; [discriminate|].
  destruct (new_Application _ _ _) as [a|] eqn:En; [|discriminate].
  destruct (Application_save a (applications w)) as [l|] eqn:Es;
    [|discriminate].
  intros _. pose proof (Application_save_some _ _ _ Es) as ->.
  pose proof (new_Application_fields _ _ _ _ En) as (_ & He & Hp & _).
  destruct (valid_has_contact _ Ev) as (e & p & Hse & Hsp).
  rewrite Hse in He. rewrite Hsp in Hp. simpl in He, Hp.
  inversion He; inversion Hp; subst e p.
  rewrite Hse, Hsp in Ef. simpl in Ef.
  exists a. cbn [fst snd]. repeat split; auto.
  - intros E. unfold Application_save in Es.
    destruct (existsb _ (applications w)) eqn:Ex; [discriminate|].
    assert (Ht : existsb (fun y => (applicationId y =? applicationId a)%string)
                   (applications w) = true).
    { apply existsb_exists. exists x. split; [assumption|].
      apply String.eqb_eq. exact E. }
    congruence.
  - intros E.
    assert (Hk : Application_findOne_email_or_phone
                   (Some (email a)) (Some (phone a)) (applications w)
                 <> None).
    { apply contact_known_iff. exists x. split; [assumption|].
      left. congruence. }
    contradiction.
  - intros E.
    assert (Hk : Application_findOne_email_or_phone
                   (Some (email a)) (Some (phone a)) (applications w)
                 <> None).
    { apply contact_known_iff. exists x. split; [assumption|].
      right. congruence. }
    contradiction.
Qed.

(** X5: the identifier a successful submission returns reads the
    stored application back: the route answers 200 with the document
    that has this identifier, the submitted email and phone after
    trimming, and the creation time the response reported, which is the
    time of the request when the body holds no createdAt.  Its status
    and its paymentStatus are pending when the body holds none, and
    the ones the body names otherwise. *)
Theorem submitted_application_can_be_fetched {ext : Externals}
  (env : Env) (w : World) (raw : SubmitBody) (id : string) (ts : option Z) :
  code (fst (submit env w raw)) = 201 ->
  payload (fst (submit env w raw)) = Submitted id ts ->
  exists a,
    application_handler (snd (submit env w raw)) id
    = mkApplicationReport 200 true "" (Some a)
    /\ applicationId a = id /\ createdAt a = ts
    /\ JS.Str (email a) = sanitizeValue (sb_email raw)
    /\ JS.Str (phone a) = sanitizeValue (sb_phone raw)
    /\ (sanitizeValue (sb_status raw) = JS.Undefined ->
        status a = app_pending)
    /\ (forall s, sanitizeValue (sb_status raw) = JS.Str s ->
                  lifecycle_enum s = Some (status a))
    /\ (sanitizeValue (sb_paymentStatus raw) = JS.Undefined ->
        paymentStatus a = pay_pending)
    /\ (forall s, sanitizeValue (sb_paymentStatus raw) = JS.Str s ->
                  paystate_enum s = Some (paymentStatus a))
    /\ (sanitizeValue (sb_createdAt raw) = JS.Undefined ->
        ts = Some (now env)).
Proof.
  intros H201 Hpay.
  destruct (submit_created env w raw H201)
    as (a & Hr & Hw & He & Hp & Hdoc & Hfresh).
  rewrite Hr in Hpay. simpl in Hpay. inversion Hpay; subst id ts.
  pose proof (new_Application_fields _ _ _ _ Hdoc)
    as (_ & _ & _ & Hs & Hps & _ & Hc & _).
  cbn [sanitizeSubmit sb_status sb_paymentStatus sb_createdAt] in Hs, Hps, Hc.
  exists a. rewrite Hw. unfold application_handler, Application_findOne.
  simpl. rewrite find_app_none.
  - rewrite String.eqb_refl. simpl in He, Hp.
    split; [reflexivity|]. split; [reflexivity|]. split; [reflexivity|].
    split; [auto|]. split; [auto|].
    split; [intros E; rewrite E in Hs; simpl in Hs; congruence|].
    split; [intros s0 E; rewrite E in Hs; simpl in Hs; exact Hs|].
    split; [intros E; rewrite E in Hps; simpl in Hps; congruence|].
    split; [intros s0 E; rewrite E in Hps; simpl in Hps; exact Hps|].
    intros E. rewrite E in Hc. simpl in Hc. congruence.
  - destruct (find _ (applications w)) as [x|] eqn:E; [|reflexivity].
    apply find_some in E. destruct E as [Hin Hx].
    apply String.eqb_eq in Hx. destruct (Hfresh x Hin) as (Hn & _).
    contradiction.
Qed.

(** ** How a served request changes the stores *)

Lemma findOneAndUpdate_map {A B : Type} (g : A -> B) (q : A -> bool)
  (f : A -> A) (l : list A) :
  (forall x, g (f x) = g x) ->
  map g (snd (findOneAndUpdate q f l)) = map g l.
Proof.
  intros Hg. induction l as [|x r IH]; simpl; [reflexivity|].
  destruct (q x); simpl; [rewrite Hg; reflexivity|].
  destruct (findOneAndUpdate q f r); simpl in *. rewrite IH. reflexivity.
Qed.

(** A query that cannot match what the update matches sees no change. *)
Lemma findOneAndUpdate_find_apart {A : Type} (q q' : A -> bool) (f : A -> A)
  (l : list A) :
  (forall x, q x = true -> q' x = false) ->
  (forall x, q' (f x) = q' x) ->
  find q' (snd (findOneAndUpdate q f l)) = find q' l.
Proof.
  intros Hqq Hf. induction l as [|x r IH]; simpl; [reflexivity|].
  destruct (q x) eqn:E; simpl.
  - rewrite Hf, (Hqq x E). reflexivity.
  - destruct (findOneAndUpdate q f r); simpl in *. rewrite IH. reflexivity.
Qed.

Lemma findOneAndUpdate_twice {A : Type} (q : A -> bool) (f : A -> A)
  (l : list A) :
  (forall x, q (f x) = q x) -> (forall x, f (f x) = f x) ->
  snd (findOneAndUpdate q f (snd (findOneAndUpdate q f l)))
  = snd (findOneAndUpdate q f l).
Proof.
  intros Hq Hf. induction l as [|x r IH]; simpl; [reflexivity|].
  destruct (q x) eqn:E; simpl.
  - rewrite Hq, E. simpl. rewrite Hf. reflexivity.
  - destruct (findOneAndUpdate q f r) as [o r'] eqn:Er; simpl in *.
    rewrite E. destruct (findOneAndUpdate q f r') as [o' r'']; simpl in *.
    rewrite IH. reflexivity.
Qed.

(** The payment store after a request: untouched, one new order with an
    unused merchant order id, or the first order with the polled id
    patched by reconciliation. *)
Lemma serve_payments {ext : Externals} (w : World) (er : Env * Request) :
  payments (snd (serve w er)) = payments w
  \/ (exists p,
         payments (snd (serve w er)) = (payments w ++ [p])%list
         /\ Payment_findOne (p_merchantOrderId p) (payments w) = None
         /\ p_status p = initiated /\ p_amount p = 9900
         /\ p_createdAt p = now (fst er))
  \/ (exists id data,
         snd er = GetStatus id
         /\ payments (snd (serve w er))
            = snd (findOneAndUpdate
                     (fun x => (p_merchantOrderId x =? id)%string)
                     (patch_payment (localStatus_of (sd_state data)) data
                        (now (fst er)))
                     (payments w))).
Proof.
  destruct er as [env [b|b|id]]; unfold serve; simpl.
  - left. apply submit_frame.
  - pose proof (initiate_cases env w b) as (_ & _ & H). cbv zeta in H.
    destruct H as [(_ & a & m & data & _ & Hn & Hp) | (_ & Hp)];
      [right; left | left; exact Hp].
    eexists. split; [exact Hp|]. simpl. auto.
  - destruct (gateway_answer env w id) as [[p data]|] eqn:G.
    + right. right. exists id, data. split; [reflexivity|].
      apply (status_handler_spec _ _ _ _ _ G).
    + left. apply (status_handler_no_answer _ _ _ G).
Qed.

(** The application store after a request: untouched, one new
    Application whose identifier, email and phone no stored one has,
    or the first Application with some identifier patched by
    reconciliation. *)
Lemma serve_applications {ext : Externals} (w : World) (er : Env * Request) :
  applications (snd (serve w er)) = applications w
  \/ (exists a,
         applications (snd (serve w er)) = (applications w ++ [a])%list
         /\ forall x, In x (applications w) ->
                      applicationId x <> applicationId a
                      /\ email x <> email a /\ phone x <> phone a)
  \/ (exists aid st life data t,
         applications (snd (serve w er))
         = snd (findOneAndUpdate
                  (fun x => (applicationId x =? aid)%string)
                  (patch_application st life data t)
                  (applications w))).
Proof.
  destruct er as [env [b|b|id]]; unfold serve; simpl.
  - destruct (Z.eq_dec (code (fst (submit env w b))) 201) as [E|E].
    + destruct (submit_created env w b E) as (a & _ & Hw & _ & _ & _ & Hf).
      right. left. exists a. rewrite Hw. simpl. auto.
    + left. pose proof (submit_cases env w b) as H. cbv zeta in H.
      destruct H as [(H & _) | (_ & Hw)]; [contradiction|].
      rewrite Hw. reflexivity.
  - left. apply (initiate_cases env w b).
  - destruct (gateway_answer env w id) as [[p data]|] eqn:G.
    + right. right. do 5 eexists.
      apply (status_handler_spec _ _ _ _ _ G).
    + left. apply (status_handler_no_answer _ _ _ G).
Qed.

Lemma extends_refl {A : Type} (l : list A) : extends l l.
Proof. exists []. rewrite app_nil_r. reflexivity. Qed.

Lemma extends_trans {A : Type} (l1 l2 l3 : list A) :
  extends l1 l2 -> extends l2 l3 -> extends l1 l3.
Proof.
  intros [m1 ->] [m2 ->]. exists (m1 ++ m2)%list. rewrite app_assoc.
  reflexivity.
Qed.

Lemma NoDup_snoc {A : Type} (l : list A) (x : A) :
  NoDup l -> ~ In x l -> NoDup (l ++ [x]).
Proof.
  intros Hl Hx. induction Hl as [|y l Hy Hl IH]; simpl.
  - constructor; [intros [] | constructor].
  - constructor.
    + rewrite in_app_iff. intros [H | [H | []]]; [contradiction|].
      subst. apply Hx. left. reflexivity.
    + apply IH. intros H. apply Hx. right. exact H.
Qed.

Section StoreInvariants.

Context {ext : Externals}.

Lemma serve_unique_orders (w : World) (er : Env * Request) :
  unique_orders w -> unique_orders (snd (serve w er)).
Proof.
  unfold unique_orders. intros H.
  destruct (serve_payments w er)
    as [-> | [(p & -> & Hn & _) | (id & data & _ & ->)]].
  - exact H.
  - rewrite map_app. simpl. apply NoDup_snoc; [exact H|].
    rewrite in_map_iff. intros (x & Hx & Hin).
    unfold Payment_findOne in Hn.
    pose proof (find_none _ _ Hn x Hin) as Hf. simpl in Hf.
    rewrite Hx, String.eqb_refl in Hf. discriminate.
  - rewrite findOneAndUpdate_map by reflexivity. exact H.
Qed.

Lemma serve_unique_applicants (w : World) (er : Env * Request) :
  unique_applicants w -> unique_applicants (snd (serve w er)).
Proof.
  unfold unique_applicants. intros (Hi & He & Hp).
  destruct (serve_applications w er)
    as [-> | [(a & -> & Hf) | (aid & st & life & data & t & ->)]].
  - auto.
  - rewrite !map_app. simpl.
    repeat split; apply NoDup_snoc; auto; rewrite in_map_iff;
      intros (x & Hx & Hin); destruct (Hf x Hin) as (H1 & H2 & H3);
      congruence.
  - rewrite !findOneAndUpdate_map by reflexivity. auto.
Qed.

(** X6: the server keeps its stores free of duplicates: if no two
    PaymentOrders share a merchant order id and no two Applications
    share an identifier, an email or a phone, the same holds after any
    sequence of requests. *)
Theorem run_keeps_stores_unique (reqs : list (Env * Request)) :
  forall w : World,
    unique_orders w -> unique_applicants w ->
    unique_orders (snd (run w reqs)) /\ unique_applicants (snd (run w reqs)).
Proof.
  induction reqs as [|er rest IH]; intros w Ho Ha; [simpl; auto|].
  rewrite run_cons. apply IH.
  - apply serve_unique_orders, Ho.
  - apply serve_unique_applicants, Ha.
Qed.

Lemma serve_extends (w : World) (er : Env * Request) :
  extends (map identity_of (applications w))
    (map identity_of (applications (snd (serve w er))))
  /\ extends (map order_identity (payments w))
       (map order_identity (payments (snd (serve w er)))).
Proof.
  split.
  - destruct (serve_applications w er)
      as [-> | [(a & -> & _) | (aid & st & life & data & t & ->)]].
    + apply extends_refl.
    + rewrite map_app. eexists. reflexivity.
    + rewrite findOneAndUpdate_map by reflexivity. apply extends_refl.
  - destruct (serve_payments w er)
      as [-> | [(p & -> & _) | (id & data & _ & ->)]].
    + apply extends_refl.
    + rewrite map_app. eexists. reflexivity.
    + rewrite findOneAndUpdate_map by reflexivity. apply extends_refl.
Qed.

(** X7: no request deletes or reorders a document or rewrites what
    identifies it: after any sequence of requests the Applications,
    looked at apart from status, paymentStatus, paymentOrderId and
    updatedAt, are the former ones followed by new ones, and so are
    the PaymentOrders looked at through their application id, merchant
    order id, amount and creation time. *)
Theorem run_only_appends (reqs : list (Env * Request)) :
  forall w : World,
    extends (map identity_of (applications w))
      (map identity_of (applications (snd (run w reqs))))
    /\ extends (map order_identity (payments w))
         (map order_identity (payments (snd (run w reqs)))).
Proof.
  induction reqs as [|er rest IH]; intros w.
  - simpl. split; apply extends_refl.
  - rewrite run_cons. destruct (serve_extends w er) as [Ha Hp].
    destruct (IH (snd (serve w er))) as [Ha' Hp'].
    split; eapply extends_trans; eassumption.
Qed.

Lemma serve_left_initiated (id : string) (w : World) (er : Env * Request)
  (p : Payment) :
  Payment_findOne id (payments w) = Some p -> p_status p <> initiated ->
  exists p',
    Payment_findOne id (payments (snd (serve w er))) = Some p'
    /\ p_status p' <> initiated.
Proof.
  intros Hf Hs.
  destruct (serve_payments w er)
    as [-> | [(q & -> & _) | (id0 & data & _ & ->)]].
  - eauto.
  - exists p. split; [|exact Hs]. unfold Payment_findOne in *.
    apply find_app_some. exact Hf.
  - unfold Payment_findOne in *.
    destruct (String.eqb_spec id0 id) as [->|Hne].
    + rewrite findOneAndUpdate_find_same by reflexivity. rewrite Hf. simpl.
      eexists. split; [reflexivity|]. simpl.
      destruct (localStatus_of_range (sd_state data)) as [E | [E | E]];
        rewrite E; discriminate.
    + rewrite findOneAndUpdate_find_apart; [eauto | | reflexivity].
      intros x Hx. apply String.eqb_eq in Hx. apply String.eqb_neq.
      congruence.
Qed.

(** X8: an order that has left the status initiated never returns to
    it: if the order found for a merchant order id is pending,
    completed or failed, then after any sequence of requests an order
    is still found for that id and it is still not initiated. *)
Theorem run_never_back_to_initiated (id : string)
  (reqs : list (Env * Request)) :
  forall (w : World) (p : Payment),
    Payment_findOne id (payments w) = Some p -> p_status p <> initiated ->
    exists p',
      Payment_findOne id (payments (snd (run w reqs))) = Some p'
      /\ p_status p' <> initiated.
Proof.
  induction reqs as [|er rest IH]; intros w p Hf Hs; [simpl; eauto|].
  rewrite run_cons.
  destruct (serve_left_initiated id w er p Hf Hs) as (p' & Hf' & Hs').
  exact (IH _ p' Hf' Hs').
Qed.

End StoreInvariants.

(** X9: a reconciliation touches nothing but the polled order and its
    Application: the order found for any other merchant order id, and
    the Application found for any identifier other than that of the
    polled order, are the same afterwards. *)
Theorem reconciliation_frame (env : Env) (w : World) (id : string) :
  let w' := snd (status_handler env w id) in
  (forall m, m <> id ->
             Payment_findOne m (payments w') = Payment_findOne m (payments w))
  /\ (forall aid,
        (forall p, Payment_findOne id (payments w) = Some p ->
                   p_applicationId p <> aid) ->
        Application_findOne aid (applications w')
        = Application_findOne aid (applications w)).
Proof.
  cbv zeta. destruct (gateway_answer env w id) as [[p data]|] eqn:G.
  - pose proof (status_handler_spec _ _ _ _ _ G) as (_ & Hp & Ha & _).
    apply gateway_answer_some in G. destruct G as (_ & Hf & _).
    rewrite Hp, Ha. split.
    + intros m Hm. unfold Payment_findOne.
      apply findOneAndUpdate_find_apart; [|reflexivity].
      intros x Hx. apply String.eqb_eq in Hx. apply String.eqb_neq.
      congruence.
    + intros aid Hne. unfold Application_findOne.
      apply findOneAndUpdate_find_apart; [|reflexivity].
      intros x Hx. apply String.eqb_eq in Hx. apply String.eqb_neq.
      specialize (Hne p Hf). congruence.
  - pose proof (status_handler_no_answer _ _ _ G) as (_ & Ha & Hp & _).
    rewrite Ha, Hp. auto.
Qed.

(** ** The credential cache over several calls *)

Lemma generateAuthToken_outcome (env : Env) (w : World) :
  match generateAuthToken env w with
  | (Ok tok, w') => tok <> "" /\ token (tokenCache w') = Some tok
  | (Throw _, w') =>
      tokenCache w' = mkTokenCache None (Some 0)
      /\ trace w' = (trace w ++ [TokenExchange])%list
  end.
Proof.
  unfold generateAuthToken.
  destruct (cache_fresh (tokenCache w) (now env)) as [tok|] eqn:E.
  - apply cache_fresh_some in E. tauto.
  - destruct (token_reply env) as [[d|]|]; simpl; auto.
    destruct (access_token d) as [tok|]; simpl; auto.
    destruct (String.eqb_spec tok ""); simpl; auto.
Qed.

(** X10: a token that [generateAuthToken] returns is never the empty
    string and is the one the cache holds afterwards; when it throws,
    the cache is back to its initial value and an exchange has been
    attempted. *)
Theorem generateAuthToken_result (env : Env) (w : World) :
  match generateAuthToken env w with
  | (Ok tok, w') => tok <> "" /\ token (tokenCache w') = Some tok
  | (Throw _, w') =>
      tokenCache w' = mkTokenCache None (Some 0)
      /\ trace w' = (trace w ++ [TokenExchange])%list
  end.
Proof. exact (generateAuthToken_outcome env w). Qed.

Lemma generateAuthToken_cached (env : Env) (w : World) (tok : string) :
  cache_fresh (tokenCache w) (now env) = Some tok ->
  generateAuthToken env w = (Ok tok, w).
Proof. intros H. unfold generateAuthToken. rewrite H. reflexivity. Qed.

(** X11: once a token has been returned and the cache holds an expiry,
    every call made more than 60 seconds before that expiry returns the
    same token and leaves the world, with its trace of gateway calls,
    as it is; when the gateway sent no expiry the cache holds none and
    the next call exchanges again, as does the next call after a
    failure. *)
Theorem generateAuthToken_reuse (env env2 : Env) (w : World) :
  (forall tok w1 e,
      generateAuthToken env w = (Ok tok, w1) ->
      expiresAt (tokenCache w1) = Some e ->
      now env2 < e - 60000 ->
      generateAuthToken env2 w1 = (Ok tok, w1))
  /\ (forall r w1,
        generateAuthToken env w = (r, w1) ->
        expiresAt (tokenCache w1) = None \/ (exists e, r = Throw e) ->
        trace (snd (generateAuthToken env2 w1))
        = (trace w1 ++ [TokenExchange])%list).
Proof.
  split.
  - intros tok w1 e H He Hlt.
    pose proof (generateAuthToken_outcome env w) as R. rewrite H in R.
    destruct R as (Hn & Ht).
    apply generateAuthToken_cached, cache_fresh_some. eauto.
  - intros r w1 H Hc.
    assert (Hstale : cache_fresh (tokenCache w1) (now env2) = None).
    { destruct Hc as [Hnone | (e & ->)].
      - unfold cache_fresh. rewrite Hnone.
        destruct (token (tokenCache w1)); reflexivity.
      - pose proof (generateAuthToken_outcome env w) as R. rewrite H in R.
        destruct R as (Hcl & _). rewrite Hcl. reflexivity. }
    unfold generateAuthToken. rewrite Hstale.
    destruct (token_reply env2) as [[d|]|]; simpl; auto.
    destruct (access_token d) as [tok|]; simpl; auto.
    destruct (negb (tok =? "")%string); reflexivity.
Qed.

(** The cache decides alone: the stores are carried along. *)
Lemma generateAuthToken_stores (env : Env) (w : World)
  (apps : list Application) (ps : list Payment) :
  tokenCache (snd (generateAuthToken env w)) = tokenCache
    (snd (generateAuthToken env
            (mkWorld (tokenCache w) apps ps (trace w))))
  /\ fst (generateAuthToken env (mkWorld (tokenCache w) apps ps (trace w)))
     = fst (generateAuthToken env w)
  /\ snd (generateAuthToken env (mkWorld (tokenCache w) apps ps (trace w)))
     = mkWorld (tokenCache (snd (generateAuthToken env w))) apps ps
         (trace (snd (generateAuthToken env w))).
Proof.
  unfold generateAuthToken. simpl.
  destruct (cache_fresh (tokenCache w) (now env)); simpl; auto.
  destruct (token_reply env) as [[d|]|]; simpl; auto.
  destruct (access_token d) as [tok|]; simpl; auto.
  destruct (negb (tok =? "")%string); simpl; auto.
Qed.

(** ** What initiation looks at *)

(** X12: payment initiation never reads the application store: with
    any other list of Applications, none included, the response is the
    same and the world changes in the same way, so an order is created
    for an application id whether or not an Application has it. *)
Theorem initiate_ignores_applications (env : Env) (w : World)
  (raw : PaymentBody) (apps : list Application) :
  initiate env (set_applications apps w) raw
  = (fst (initiate env w raw),
     set_applications apps (snd (initiate env w raw))).
Proof.
  unfold initiate, initiate_handler.
  destruct (required_text (pb_applicationId (sanitizePayment raw)));
    [|reflexivity].
  destruct (JS.truthy (pb_amount (sanitizePayment raw))); [|reflexivity].
  destruct (required_text (pb_name (sanitizePayment raw))); [|reflexivity].
  destruct (required_text (pb_email (sanitizePayment raw))); [|reflexivity].
  destruct (required_text (pb_phone (sanitizePayment raw))); [|reflexivity].
  destruct (required_text (pb_merchantOrderId (sanitizePayment raw)))
    as [m|]; [|reflexivity].
  destruct (negb (JS.strict_eq_num (pb_amount (sanitizePayment raw)) 99));
    [reflexivity|].
  unfold initiate_order. cbn [payments set_applications].
  destruct (Payment_findOne m (payments w)); [reflexivity|].
  destruct (checkDuplicatePayment (now env) (payments w) s 30); [reflexivity|].
  pose proof (generateAuthToken_stores env w apps (payments w))
    as (_ & Hf & Hs).
  unfold set_applications at 1.
  destruct (generateAuthToken env
              (mkWorld (tokenCache w) apps (payments w) (trace w)))
    as [r1 w1'].
  pose proof (generateAuthToken_frame env w) as (_ & Hp & _).
  destruct (generateAuthToken env w) as [r w1]. simpl in *. subst r1 w1'.
  assert (Hw : mkWorld (tokenCache w1) apps (payments w) (trace w1)
               = set_applications apps w1)
    by (unfold set_applications; rewrite Hp; reflexivity).
  rewrite Hw.
  destruct r as [tok|e]; [|reflexivity].
  destruct (pay_reply env) as [[data|]|]; try reflexivity.
  destruct (JS.truthy_text (pd_redirectUrl data)
            && JS.truthy_text (pd_orderId data)); [|reflexivity].
  cbn [emit payments set_applications].
  destruct (Payment_save _ (payments w1)); reflexivity.
Qed.

(** X13: the amount gate: an initiation whose amount is anything but
    the number 99 (another number, the string "99", nothing) is
    answered 400 and changes nothing: no token is requested and no
    order is created. *)
Theorem initiate_rejects_other_amounts (env : Env) (w : World)
  (raw : PaymentBody) :
  pb_amount raw <> JS.Num 99 ->
  code (fst (initiate env w raw)) = 400 /\ snd (initiate env w raw) = w.
Proof.
  intros Hamount. unfold initiate. apply initiate_handler_refused.
  destruct (accepted_fields (sanitizePayment raw)) as [[a m]|] eqn:E;
    [|reflexivity].
  apply accepted_fields_order_id in E. destruct E as (_ & _ & E).
  simpl in E. exfalso. apply Hamount.
  destruct (pb_amount raw) as [| |b|z|s]; simpl in E; try discriminate;
    [exact E|].
  destruct (JS.trim s =? "")%string; discriminate.
Qed.

(** ** Requests refused at the boundary *)

Lemma initiate_order_refusals (env : Env) (w : World) (a m : string) :
  let r := fst (initiate_order env w a m 99) in
  code r = 200 \/ code r = 500
  \/ ((code r = 409) /\ snd (initiate_order env w a m 99) = w).
Proof.
  cbv zeta. unfold initiate_order.
  destruct (Payment_findOne m (payments w)); [simpl; auto|].
  destruct (checkDuplicatePayment (now env) (payments w) a 30);
    [simpl; auto|].
  destruct (generateAuthToken env w) as [[tok|e] w1]; [|simpl; auto].
  destruct (pay_reply env) as [[data|]|]; simpl; auto.
  destruct (JS.truthy_text (pd_redirectUrl data)
            && JS.truthy_text (pd_orderId data)); simpl; auto.
  destruct (Payment_save _ _); simpl; auto.
Qed.

(** X14: a request refused with 400, 404 or 409 has changed nothing:
    both stores, the credential cache and the trace of outbound calls
    are as before, so validation and duplicate checks never reach the
    gateway or the mail provider. *)
Theorem refused_requests_change_nothing {ext : Externals}
  (w : World) (er : Env * Request) :
  code (fst (serve w er)) = 400 \/ code (fst (serve w er)) = 404
  \/ code (fst (serve w er)) = 409 ->
  snd (serve w er) = w.
Proof.
  destruct er as [env [b|b|id]]; unfold serve; simpl; intros H.
  - pose proof (submit_cases env w b) as C. cbv zeta in C.
    destruct C as [(C & _) | (_ & C)]; [lia | exact C].
  - unfold initiate in *.
    destruct (accepted_fields (sanitizePayment b)) as [[a m]|] eqn:E.
    + rewrite (initiate_handler_accepted _ _ _ _ _ E) in *.
      pose proof (initiate_order_refusals env w a m) as C. cbv zeta in C.
      destruct C as [C | [C | (_ & C)]]; [| | exact C];
        rewrite C in H; destruct H as [H | [H | H]]; discriminate.
    + apply (initiate_handler_refused env w _ E).
  - revert H. unfold status_handler.
    destruct (id =? "")%string; [reflexivity|].
    destruct (Payment_findOne id (payments w)) as [p|] eqn:Hf; [|reflexivity].
    pose proof (generateAuthToken_frame env w) as (_ & Hp & _).
    destruct (generateAuthToken env w) as [[tok|e] w1]; simpl in *;
      [|intros [H | [H | H]]; discriminate].
    destruct (status_reply env) as [[d|]|]; simpl;
      try (intros [H | [H | H]]; discriminate).
    assert (Hf' : Payment_findOne id (payments (emit (StatusQuery id) w1))
                  = Some p) by (simpl; rewrite Hp; exact Hf).
    pose proof (reconcile_spec env _ id p d Hf') as (Hr & _).
    rewrite Hr. simpl. intros [H | [H | H]]; discriminate.
Qed.

(** ** Polling twice *)

(** A token obtained once is obtained again, with the same replies,
    from any world that holds the cache the first call left. *)
Lemma generateAuthToken_again (env : Env) (w w' : World) (tok : string) :
  fst (generateAuthToken env w) = Ok tok ->
  tokenCache w' = tokenCache (snd (generateAuthToken env w)) ->
  exists tok', fst (generateAuthToken env w') = Ok tok'.
Proof.
  unfold generateAuthToken at 1 2.
  destruct (cache_fresh (tokenCache w) (now env)) as [t|] eqn:E; simpl.
  - intros _ Hc. unfold generateAuthToken. rewrite Hc, E. simpl. eauto.
  - intros Hok _. unfold generateAuthToken.
    destruct (cache_fresh (tokenCache w') (now env)); [simpl; eauto|].
    destruct (token_reply env) as [[d|]|]; simpl in *; try discriminate.
    destruct (access_token d) as [k|]; simpl in *; [|discriminate].
    destruct (negb (k =? "")%string); simpl in *; [eauto | discriminate].
Qed.

Lemma status_handler_tokenCache (env : Env) (w : World) (id : string)
  (p : Payment) (data : StatusData) :
  gateway_answer env w id = Some (p, data) ->
  tokenCache (snd (status_handler env w id))
  = tokenCache (snd (generateAuthToken env w)).
Proof.
  intros G. rewrite (status_handler_answer _ _ _ _ _ G).
  apply gateway_answer_some in G. destruct G as (_ & Hf & _).
  pose proof (after_query_frame env w id) as (_ & Hp & _).
  assert (Hf' : Payment_findOne id (payments (after_query env w id)) = Some p)
    by (rewrite Hp; exact Hf).
  pose proof (reconcile_spec env _ id p data Hf') as (_ & Ht & _).
  rewrite Ht. reflexivity.
Qed.

(** X15: reconciliation is idempotent: when the poll is repeated with
    the same answers, at the same time, the response is the same, both
    stores are left exactly as the first poll left them, and no
    confirmation email is called. *)
Theorem repeated_reconciliation_changes_nothing
  (env : Env) (w : World) (id : string) (p : Payment) (data : StatusData) :
  gateway_answer env w id = Some (p, data) ->
  let w1 := snd (status_handler env w id) in
  let w2 := snd (status_handler env w1 id) in
  fst (status_handler env w1 id) = fst (status_handler env w id)
  /\ payments w2 = payments w1 /\ applications w2 = applications w1
  /\ confirmation_emails (trace w2) = confirmation_emails (trace w1).
Proof.
  intros G. cbv zeta.
  pose proof (status_handler_spec _ _ _ _ _ G) as (Hr & Hp & Ha & _).
  pose proof (status_handler_stored _ _ _ _ _ G) as Hst.
  pose proof (status_handler_tokenCache _ _ _ _ _ G) as Htc.
  pose proof (gateway_answer_some _ _ _ _ _ G) as (Hid & _ & (tok & Ht) & Hs).
  destruct (generateAuthToken_again env w _ tok Ht Htc) as (tok' & Ht').
  set (w1 := snd (status_handler env w id)) in *.
  set (p1 := patch_payment (localStatus_of (sd_state data)) data (now env) p)
    in *.
  assert (G1 : gateway_answer env w1 id = Some (p1, data)).
  { unfold gateway_answer. destruct (String.eqb_spec id ""); [contradiction|].
    rewrite Hst, Ht', Hs. reflexivity. }
  pose proof (status_handler_spec _ _ _ _ _ G1) as (Hr1 & Hp1 & Ha1 & He1).
  split; [rewrite Hr1, Hr; reflexivity|].
  split; [|split].
  - rewrite Hp1, Hp. apply findOneAndUpdate_twice; [reflexivity|].
    intros x. unfold patch_payment, or_stored. simpl.
    destruct (sd_orderId data); reflexivity.
  - rewrite Ha1, Ha. apply findOneAndUpdate_twice; [reflexivity|].
    intros x. unfold patch_application, or_stored. simpl.
    destruct (is_COMPLETED (sd_state data)), (sd_orderId data); reflexivity.
  - rewrite He1. unfold notifies. subst p1. cbn [p_status patch_payment].
    rewrite localStatus_of_completed.
    destruct (is_COMPLETED (sd_state data)); simpl; lia.
Qed.

(** ** Calls to the gateway *)

Lemma gateway_calls_app (t u : list Event) :
  gateway_calls (t ++ u) = (gateway_calls t ++ gateway_calls u)%list.
Proof.
  induction t as [|e t IH]; simpl; [reflexivity|].
  destruct e; simpl; rewrite IH; reflexivity.
Qed.

Lemma generateAuthToken_trace (env : Env) (w : World) :
  exists evs,
    trace (snd (generateAuthToken env w)) = (trace w ++ evs)%list
    /\ (evs = [] \/ evs = [TokenExchange]).
Proof.
  unfold generateAuthToken.
  destruct (cache_fresh (tokenCache w) (now env)); simpl.
  { exists []. rewrite app_nil_r. auto. }
  exists [TokenExchange].
  destruct (token_reply env) as [[d|]|]; simpl; auto.
  destruct (access_token d) as [k|]; simpl; auto.
  destruct (negb (k =? "")%string); simpl; auto.
Qed.

Lemma reconcile_trace (env : Env) (w2 : World) (id : string) (p : Payment)
  (data : StatusData) :
  exists mails,
    trace (snd (reconcile env w2 id p data)) = (trace w2 ++ mails)%list
    /\ gateway_calls mails = [].
Proof.
  unfold reconcile. rewrite map_state_eq.
  destruct (findOneAndUpdate _ _ (payments w2)) as [up ps].
  destruct (findOneAndUpdate _ _ (applications w2)) as [ap apps].
  assert (H : exists mails,
             trace match ap with
                   | Some app =>
                       if (is_COMPLETED (sd_state data)
                           && negb (PaymentStatus_eqb (p_status p) completed))
                          && is_COMPLETED (sd_state data)
                       then snd (sendConfirmationEmail env
                                   (set_applications apps (set_payments ps w2))
                                   app (sd_orderId data))
                       else set_applications apps (set_payments ps w2)
                   | None => set_applications apps (set_payments ps w2)
                   end = (trace w2 ++ mails)%list
             /\ gateway_calls mails = []).
  { destruct ap as [app|]; [|exists []; rewrite app_nil_r; auto].
    destruct (_ && _); [|exists []; rewrite app_nil_r; auto].
    unfold sendConfirmationEmail.
    destruct (resend_configured env); simpl.
    - exists [ConfirmationEmail (applicationId app) (sd_orderId data);
              ResendSend (email app)].
      split; [|reflexivity].
      destruct (mail_reply env); simpl; rewrite <- app_assoc; reflexivity.
    - exists [ConfirmationEmail (applicationId app) (sd_orderId data)].
      split; reflexivity. }
  destruct up; simpl; exact H.
Qed.

(** X16: serving one request makes at most one token exchange and at
    most one order or status call, the exchange first: what a request
    adds to the trace holds no gateway call, or one token exchange, or
    one order or status call, or a token exchange followed by one order
    or status call.  Nothing is retried. *)
Theorem one_request_calls_the_gateway_once {ext : Externals}
  (w : World) (er : Env * Request) :
  exists evs,
    trace (snd (serve w er)) = (trace w ++ evs)%list
    /\ (gateway_calls evs = [] \/ gateway_calls evs = [TokenExchange]
        \/ exists c,
            (exists m, c = CreateOrder m \/ c = StatusQuery m)
            /\ (gateway_calls evs = [c]
                \/ gateway_calls evs = [TokenExchange; c])).
Proof.
  assert (Hnone : forall w' : World,
             w' = w ->
             exists evs,
               trace w' = (trace w ++ evs)%list
               /\ (gateway_calls evs = [] \/ gateway_calls evs = [TokenExchange]
                   \/ exists c,
                       (exists m, c = CreateOrder m \/ c = StatusQuery m)
                       /\ (gateway_calls evs = [c]
                           \/ gateway_calls evs = [TokenExchange; c]))).
  { intros w' ->. exists []. rewrite app_nil_r. auto. }
  destruct er as [env [b|b|id]]; unfold serve; simpl.
  - pose proof (submit_frame env w b) as (_ & Ht & _).
    exists []. rewrite app_nil_r. auto.
  - unfold initiate, initiate_handler.
    destruct (required_text _); [|apply Hnone; reflexivity].
    destruct (JS.truthy _); [|apply Hnone; reflexivity].
    destruct (required_text _); [|apply Hnone; reflexivity].
    destruct (required_text _); [|apply Hnone; reflexivity].
    destruct (required_text _); [|apply Hnone; reflexivity].
    destruct (required_text _) as [m|]; [|apply Hnone; reflexivity].
    destruct (negb _); [apply Hnone; reflexivity|].
    unfold initiate_order.
    destruct (Payment_findOne m (payments w)); [apply Hnone; reflexivity|].
    destruct (checkDuplicatePayment _ _ _ _); [apply Hnone; reflexivity|].
    destruct (generateAuthToken_trace env w) as (tevs & Htr & Ht).
    destruct (generateAuthToken env w) as [[tok|e] w1]; simpl in *.
    + exists (tevs ++ [CreateOrder m])%list.
      assert (Hcalls : gateway_calls (tevs ++ [CreateOrder m])
                       = (tevs ++ [CreateOrder m])%list)
        by (destruct Ht as [-> | ->]; reflexivity).
      split.
      * destruct (pay_reply env) as [[data|]|]; simpl;
          try (rewrite Htr, <- app_assoc; reflexivity).
        destruct (_ && _); simpl;
          [|rewrite Htr, <- app_assoc; reflexivity].
        destruct (Payment_save _ _); simpl;
          rewrite Htr, <- app_assoc; reflexivity.
      * rewrite Hcalls. right. right. exists (CreateOrder m).
        split; [eauto|]. destruct Ht as [-> | ->]; simpl; auto.
    + exists tevs. split; [exact Htr|].
      destruct Ht as [-> | ->]; simpl; auto.
  - unfold status_handler.
    destruct (id =? "")%string; [apply Hnone; reflexivity|].
    destruct (Payment_findOne id (payments w)) as [p|];
      [|apply Hnone; reflexivity].
    destruct (generateAuthToken_trace env w) as (tevs & Htr & Ht).
    destruct (generateAuthToken env w) as [[tok|e] w1]; simpl in *.
    + assert (Hlast : forall mails,
                 gateway_calls mails = [] ->
                 gateway_calls (tevs ++ [StatusQuery id] ++ mails)
                 = (tevs ++ [StatusQuery id])%list).
      { intros mails Hm. rewrite !gateway_calls_app, Hm.
        destruct Ht as [-> | ->]; reflexivity. }
      assert (Hshape : forall evs,
                 gateway_calls evs = (tevs ++ [StatusQuery id])%list ->
                 gateway_calls evs = [] \/ gateway_calls evs = [TokenExchange]
                 \/ exists c,
                     (exists m, c = CreateOrder m \/ c = StatusQuery m)
                     /\ (gateway_calls evs = [c]
                         \/ gateway_calls evs = [TokenExchange; c])).
      { intros evs ->. right. right. exists (StatusQuery id).
        split; [eauto|]. destruct Ht as [-> | ->]; simpl; auto. }
      destruct (status_reply env) as [[d|]|]; simpl.
      * destruct (reconcile_trace env (emit (StatusQuery id) w1) id p d)
          as (mails & Hm & Hg).
        exists (tevs ++ [StatusQuery id] ++ mails)%list. split.
        -- rewrite Hm. simpl. rewrite Htr, <- !app_assoc. reflexivity.
        -- apply Hshape, Hlast, Hg.
      * exists (tevs ++ [StatusQuery id] ++ [])%list. split.
        -- rewrite Htr, <- app_assoc. reflexivity.
        -- apply Hshape, Hlast. reflexivity.
      * exists (tevs ++ [StatusQuery id] ++ [])%list. split.
        -- rewrite Htr, <- app_assoc. reflexivity.
        -- apply Hshape, Hlast. reflexivity.
    + exists tevs. split; [exact Htr|].
      destruct Ht as [-> | ->]; simpl; auto.
Qed.

(** ** The browser against the server *)

Lemma submit_codes {ext : Externals} (env : Env) (w : World)
  (raw : SubmitBody) :
  let r := fst (submit env w raw) in
  (code r = 201 /\ success r = true)
  \/ ((code r = 400 \/ code r = 409 \/ code r = 500) /\ success r = false).
Proof.
  cbv zeta.
  destruct (validateApplicationData (sanitizeSubmit raw)) as [[|m l]|e] eqn:Ev.
  - rewrite (submit_valid env w raw Ev). cbv zeta.
    destruct (Application_findOne_email_or_phone _ _ _); [simpl; auto|].
    destruct (new_Application _ _ _) as [a|]; [|simpl; auto].
    destruct (Application_save a (applications w)); simpl; auto.
  - rewrite (submit_invalid env w raw _ Ev) by discriminate. simpl. auto.
  - rewrite (submit_throws env w raw _ Ev). simpl. auto.
Qed.

(** A created Application whose body names neither a status nor a
    paymentStatus has the generated identifier and is pending. *)
Lemma submit_created_id {ext : Externals} (env : Env) (w : World)
  (raw : SubmitBody) :
  sb_status raw = JS.Undefined -> sb_paymentStatus raw = JS.Undefined ->
  code (fst (submit env w raw)) = 201 ->
  exists a,
    snd (submit env w raw) = set_applications (applications w ++ [a]) w
    /\ applicationId a
       = ("NF2025" ++ JS.show (now env) ++ JS.show (random1000 env))%string
    /\ status a = app_pending /\ paymentStatus a = pay_pending.
Proof.
  intros Us Up H201.
  destruct (submit_created env w raw H201) as (a & _ & Hw & _ & _ & Hdoc & _).
  pose proof (new_Application_fields _ _ _ _ Hdoc)
    as (Hi & _ & _ & Hs & Hp & _).
  cbn [sanitizeSubmit sb_status sb_paymentStatus] in Hs, Hp.
  rewrite Us in Hs. rewrite Up in Hp. simpl in Hs, Hp.
  exists a. split; [exact Hw|]. split; [exact Hi|]. split; congruence.
Qed.

Lemma initiatePayment_redirected (formData : Form) (aid moid : string)
  (env : Env) (w1 w2 : World) (url a' m' : string) :
  initiatePayment formData aid moid env w1 = (Redirected url a' m', w2) ->
  a' = aid /\ m' = moid
  /\ w2 = snd (initiate env w1 (paymentData formData aid moid))
  /\ code (fst (initiate env w1 (paymentData formData aid moid))) = 200.
Proof.
  unfold initiatePayment.
  pose proof (initiate_cases env w1 (paymentData formData aid moid))
    as (_ & _ & C). cbv zeta in C.
  destruct (initiate env w1 (paymentData formData aid moid)) as [r w']
    eqn:E. simpl in *.
  destruct C as [(Hc & _) | (Hc & _)].
  - destruct (negb (res_ok r)); [discriminate|].
    destruct (negb (success r)); [discriminate|].
    destruct (payload r) as [| | | |o [u|] st ex|]; try discriminate.
    destruct (negb (u =? "")%string); [|discriminate].
    intros H; inversion H; subst. auto.
  - unfold res_ok.
    assert (Hr : code r = 400 \/ code r = 409 \/ code r = 500).
    { pose proof (f_equal fst E) as Ef. simpl in Ef. subst r.
      unfold initiate in *.
      destruct (accepted_fields
                  (sanitizePayment (paymentData formData aid moid)))
        as [[a m]|] eqn:Ea.
      - rewrite (initiate_handler_accepted _ _ _ _ _ Ea) in *.
        pose proof (initiate_order_refusals env w1 a m) as R. cbv zeta in R.
        destruct R as [R | [R | (R & _)]]; [contradiction | auto | auto].
      - left. apply (initiate_handler_refused env w1 _ Ea). }
    destruct Hr as [-> | [-> | ->]]; simpl; discriminate.
Qed.

Section Browser.

Context {ext : Externals}.

(** X17: the browser goes on to payment only after a 201: when the
    server refuses the submission (400, 409 for a known email or phone,
    500) the listener shows a server error and sends no payment
    request, and what the user would answer to the dialog that offers
    to continue with the existing application never matters: with this
    server that dialog is not reached. *)
Theorem browser_stops_when_submission_is_refused
  (parseFloat : option string -> option Z) (formData : Form)
  (consent : option bool) (aid moid : string) (env1 env2 : Env) (w : World) :
  (forall c c',
      submitForm parseFloat formData consent aid moid c env1 env2 w
      = submitForm parseFloat formData consent aid moid c' env1 env2 w)
  /\ (validateFormData formData consent = Ok None ->
      code (fst (submit env1 w (applicationData parseFloat formData))) <> 201 ->
      forall c,
        exists errorText,
          submitForm parseFloat formData consent aid moid c env1 env2 w
          = (Failed (ServerError
                       (code (fst (submit env1 w
                                     (applicationData parseFloat formData))))
                       errorText),
             snd (submit env1 w (applicationData parseFloat formData)))).
Proof.
  pose proof (submit_codes env1 w (applicationData parseFloat formData)) as C.
  cbv zeta in C. split.
  - intros c c'. unfold submitForm.
    destruct (validateFormData formData consent) as [[msg|]|]; try reflexivity.
    destruct (submit env1 w (applicationData parseFloat formData)) as [r w1].
    simpl in C. unfold res_ok.
    destruct C as [(Hc & Hs) | ([Hc | [Hc | Hc]] & Hs)]; rewrite Hc, Hs;
      reflexivity.
  - intros Hv Hn c. unfold submitForm. rewrite Hv.
    destruct (submit env1 w (applicationData parseFloat formData)) as [r w1].
    simpl in *. unfold res_ok.
    destruct C as [(Hc & Hs) | ([Hc | [Hc | Hc]] & Hs)];
      [contradiction | | |]; rewrite Hc; simpl; eauto.
Qed.

(** X18: the order the form creates is not tied to the application it
    submitted.  When the listener ends in the redirect, the store
    holds the new Application under the identifier the server
    generated, pending, and the new order under the identifier the
    browser generated; and as long as no Application has the
    browser's identifier, polling that order, even with the gateway
    reporting COMPLETED, changes no Application and calls no
    confirmation email. *)
Theorem form_order_is_not_linked_to_its_application
  (parseFloat : option string -> option Z) (formData : Form)
  (consent : option bool) (aid moid : string) (c : bool) (env1 env2 : Env)
  (w w2 : World) (url a' m' : string) :
  submitForm parseFloat formData consent aid moid c env1 env2 w
  = (Redirected url a' m', w2) ->
  a' = aid /\ m' = moid
  /\ (exists app,
         In app (applications w2)
         /\ applicationId app
            = ("NF2025" ++ JS.show (now env1) ++ JS.show (random1000 env1))%string
         /\ status app = app_pending /\ paymentStatus app = pay_pending)
  /\ (exists p,
         Payment_findOne (JS.trim moid) (payments w2) = Some p
         /\ p_applicationId p = JS.trim aid /\ p_status p = initiated)
  /\ (Application_findOne (JS.trim aid) (applications w2) = None ->
      forall env3,
        let w3 := snd (status_handler env3 w2 (JS.trim moid)) in
        applications w3 = applications w2
        /\ confirmation_emails (trace w3) = confirmation_emails (trace w2)).
Proof.
  unfold submitForm.
  destruct (validateFormData formData consent) as [[msg|]|]; try discriminate.
  pose proof (submit_codes env1 w (applicationData parseFloat formData)) as C.
  pose proof (submit_created_id env1 w (applicationData parseFloat formData)
                eq_refl eq_refl) as Hid.
  cbv zeta in C.
  destruct (submit env1 w (applicationData parseFloat formData)) as [r w1].
  simpl in C, Hid. unfold res_ok.
  destruct C as [(Hc & Hs) | ([Hc | [Hc | Hc]] & Hs)]; rewrite Hc, Hs; simpl;
    try discriminate.
  intros H. apply initiatePayment_redirected in H.
  destruct H as (-> & -> & -> & H200).
  destruct (Hid Hc) as (app & Hw1 & Happ & Hst & Hps).
  pose proof (initiate_cases env2 w1 (paymentData formData aid moid))
    as (Ha & _ & Cs). cbv zeta in Cs, Ha.
  destruct Cs as [(_ & a & m & data & Hacc & Hnone & Hp) | (Hn & _)];
    [|contradiction].
  pose proof (accepted_fields_order_id _ _ _ Hacc) as (Hm & Haid & _).
  simpl in Hm, Haid.
  assert (Em : m = JS.trim moid).
  { destruct (String.eqb_spec (JS.trim moid) ""); simpl in Hm;
      [discriminate|].
    destruct (String.eqb_spec (JS.trim moid) ""); [contradiction|].
    congruence. }
  assert (Ea : a = JS.trim aid).
  { destruct (String.eqb_spec (JS.trim aid) ""); simpl in Haid;
      [discriminate|].
    destruct (String.eqb_spec (JS.trim aid) ""); [contradiction|].
    congruence. }
  subst a m.
  set (w2 := snd (initiate env2 w1 (paymentData formData aid moid))) in *.
  set (p := mkPayment (JS.trim aid) (JS.trim moid) (pd_orderId data) 9900
              initiated (BlobPay data) (now env2) (now env2)) in *.
  assert (Hfind : Payment_findOne (JS.trim moid) (payments w2) = Some p).
  { rewrite Hp. unfold Payment_findOne in *.
    rewrite (find_app_none _ _ _ Hnone). simpl.
    rewrite String.eqb_refl. reflexivity. }
  split; [reflexivity|]. split; [reflexivity|]. split; [|split].
  - exists app. rewrite Ha, Hw1. simpl. split; [|auto].
    apply in_or_app. right. left. reflexivity.
  - exists p. auto.
  - intros Hno env3. cbv zeta.
    destruct (gateway_answer env3 w2 (JS.trim moid)) as [[p' data']|] eqn:G.
    + pose proof (status_handler_spec _ _ _ _ _ G) as (_ & _ & Hap & Hem).
      apply gateway_answer_some in G. destruct G as (_ & Hf & _).
      assert (p' = p) by congruence. subst p'.
      assert (Hl : linked_application p (applications w2) = None)
        by exact Hno.
      split.
      * rewrite Hap. apply findOneAndUpdate_none. exact Hl.
      * rewrite Hem. unfold notifies. rewrite Hl, Bool.andb_false_r. lia.
    + pose proof (status_handler_no_answer _ _ _ G) as (_ & Hap & _ & Hem).
      auto.
Qed.

End Browser.



(** ** The further theorems at concrete inputs *)

Lemma sanitizeInput_normal_form_witness :
  sanitizeText (Some "  MO_1 ") = Some "MO_1"
  /\ "MO_1" <> "" /\ JS.trim "MO_1" = "MO_1".
Proof.
  split; [reflexivity|].
  exact (proj1 sanitizeInput_normal_form (Some "  MO_1 ") "MO_1" eq_refl).
Defined.

Lemma browser_accepted_form_on_server_witness :
  validateFormData sampleForm (Some true) = Ok None
  /\ exists e sop,
      f_email sampleForm = Some e /\ f_sop sampleForm = Some sop
      /\ (@validateApplicationData formExternals
            (sanitizeSubmit (applicationData sampleParseFloat sampleForm))
          = Ok []
          <-> @isEmail formExternals e = true
              /\ (exists z, sampleParseFloat (f_income_amount sampleForm) = Some z
                            /\ z <> 0)
              /\ JS.blank (f_achievements sampleForm) = false
              /\ JS.blank (f_recommendation sampleForm) = false
              /\ 50 <= JS.length (JS.trim sop)).
Proof.
  split; [reflexivity|].
  exact (@browser_accepted_form_on_server formExternals sampleParseFloat
           sampleForm (Some true) eq_refl).
Defined.

Lemma formatDigits_normalises_witness :
  JS.all_chars JS.is_digit "411001" = true
  /\ (String.length "411001" <= 6)%nat
  /\ formatDigits 6 "411001" = "411001".
Proof.
  split; [reflexivity|]. split; [simpl; lia|].
  apply (proj2 (proj2 (proj2 (formatDigits_normalises 6 "411001"))));
    [reflexivity | simpl; lia].
Defined.

Lemma submitted_application_can_be_fetched_witness :
  code (fst (@submit sampleExternals (sampleEnv 1750000000000 "PENDING")
               emptyWorld
               (set_record (JS.Str "approved") JS.Undefined JS.Undefined
                  (JS.Num 5) JS.Undefined sampleSubmit))) = 201
  /\ exists a,
      application_handler
        (snd (@submit sampleExternals (sampleEnv 1750000000000 "PENDING")
                emptyWorld
                (set_record (JS.Str "approved") JS.Undefined JS.Undefined
                   (JS.Num 5) JS.Undefined sampleSubmit)))
        "NF20251750000000000123"
      = mkApplicationReport 200 true "" (Some a)
      /\ applicationId a = "NF20251750000000000123"
      /\ createdAt a = Some 5
      /\ email a = "a@b.com" /\ phone a = "9876543210"
      /\ status a = approved /\ paymentStatus a = pay_pending.
Proof.
  assert (H201 : code (fst (@submit sampleExternals
                              (sampleEnv 1750000000000 "PENDING")
                              emptyWorld
                              (set_record (JS.Str "approved") JS.Undefined
                                 JS.Undefined (JS.Num 5) JS.Undefined
                                 sampleSubmit))) = 201)
    by (vm_compute; reflexivity).
  split; [exact H201|].
  destruct (@submitted_application_can_be_fetched sampleExternals
              (sampleEnv 1750000000000 "PENDING") emptyWorld
              (set_record (JS.Str "approved") JS.Undefined JS.Undefined
                 (JS.Num 5) JS.Undefined sampleSubmit)
              "NF20251750000000000123" (Some 5) H201 eq_refl)
    as (a & Hrep & Hid & Hc & He & Hp & _ & Hs & Hps & _).
  exists a. split; [exact Hrep|]. split; [exact Hid|]. split; [exact Hc|].
  simpl in He, Hp.
  split; [inversion He as [E]; rewrite E; reflexivity|].
  split; [inversion Hp as [E]; rewrite E; reflexivity|].
  split; [|exact (Hps eq_refl)].
  specialize (Hs "approved" eq_refl). simpl in Hs. inversion Hs. reflexivity.
Defined.

Lemma run_keeps_stores_unique_witness :
  unique_orders twoOrdersWorld /\ unique_applicants twoOrdersWorld
  /\ unique_orders
       (snd (@run sampleExternals twoOrdersWorld
               [(sampleEnv 1000 "PENDING",
                 PostInitiate (sampleInitiate "APP1" "MO_3" 99));
                (sampleEnv 2000 "COMPLETED", GetStatus "MO_1");
                (sampleEnv 3000 "PENDING",
                 PostInitiate (sampleInitiate "APP1" "MO_3" 99))]))
  /\ unique_applicants
       (snd (@run sampleExternals twoOrdersWorld
               [(sampleEnv 1000 "PENDING",
                 PostInitiate (sampleInitiate "APP1" "MO_3" 99));
                (sampleEnv 2000 "COMPLETED", GetStatus "MO_1");
                (sampleEnv 3000 "PENDING",
                 PostInitiate (sampleInitiate "APP1" "MO_3" 99))])).
Proof.
  assert (Ho : unique_orders twoOrdersWorld).
  { unfold unique_orders. simpl. repeat constructor; simpl.
    - intros [H | []]. discriminate.
    - intros []. }
  assert (Ha : unique_applicants twoOrdersWorld).
  { unfold unique_applicants. simpl.
    repeat split; repeat constructor; intros []. }
  split; [exact Ho|]. split; [exact Ha|].
  exact (@run_keeps_stores_unique sampleExternals _ twoOrdersWorld Ho Ha).
Defined.

Lemma run_never_back_to_initiated_witness :
  Payment_findOne "MO_1" (payments twoOrdersWorld)
  = Some (samplePayment "APP1" "MO_1" pending 0 0)
  /\ exists p',
      Payment_findOne "MO_1"
        (payments
           (snd (@run sampleExternals twoOrdersWorld
                   [(sampleEnv 1000 "UNKNOWN", GetStatus "MO_1");
                    (sampleEnv 2000 "PENDING",
                     PostInitiate (sampleInitiate "APP1" "MO_1" 99))])))
      = Some p'
      /\ p_status p' <> initiated.
Proof.
  split; [reflexivity|].
  apply (@run_never_back_to_initiated sampleExternals "MO_1" _ twoOrdersWorld
           (samplePayment "APP1" "MO_1" pending 0 0) eq_refl).
  discriminate.
Defined.

Lemma reconciliation_frame_witness :
  "MO_2" <> "MO_1"
  /\ Payment_findOne "MO_2"
       (payments (snd (status_handler (sampleEnv 1000 "COMPLETED")
                         twoOrdersWorld "MO_1")))
     = Payment_findOne "MO_2" (payments twoOrdersWorld).
Proof.
  assert (Hne : "MO_2" <> "MO_1") by discriminate.
  split; [exact Hne|].
  exact (proj1 (reconciliation_frame (sampleEnv 1000 "COMPLETED")
                  twoOrdersWorld "MO_1") "MO_2" Hne).
Defined.

Lemma generateAuthToken_reuse_witness :
  generateAuthToken (sampleEnv 1000 "PENDING") emptyWorld
  = (Ok "tok-1",
     set_tokenCache (mkTokenCache (Some "tok-1") (Some 1750003600000))
       (emit TokenExchange emptyWorld))
  /\ generateAuthToken (downEnv 2000)
       (set_tokenCache (mkTokenCache (Some "tok-1") (Some 1750003600000))
          (emit TokenExchange emptyWorld))
     = (Ok "tok-1",
        set_tokenCache (mkTokenCache (Some "tok-1") (Some 1750003600000))
          (emit TokenExchange emptyWorld)).
Proof.
  split; [reflexivity|].
  apply (proj1 (generateAuthToken_reuse (sampleEnv 1000 "PENDING")
                  (downEnv 2000) emptyWorld) "tok-1" _ 1750003600000);
    reflexivity.
Defined.

Lemma initiate_rejects_other_amounts_witness :
  pb_amount (mkPaymentBody (Some "APP1") (JS.Str "99") (Some "Asha Patil")
               (Some "a@b.com") (Some "9876543210") (Some "MO_1"))
  <> JS.Num 99
  /\ code (fst (initiate (sampleEnv 1000 "PENDING") emptyWorld
                  (mkPaymentBody (Some "APP1") (JS.Str "99")
                     (Some "Asha Patil") (Some "a@b.com") (Some "9876543210")
                     (Some "MO_1")))) = 400
  /\ snd (initiate (sampleEnv 1000 "PENDING") emptyWorld
            (mkPaymentBody (Some "APP1") (JS.Str "99") (Some "Asha Patil")
               (Some "a@b.com") (Some "9876543210") (Some "MO_1")))
     = emptyWorld.
Proof.
  assert (Hne : JS.Str "99" <> JS.Num 99) by discriminate.
  split; [exact Hne|].
  exact (initiate_rejects_other_amounts (sampleEnv 1000 "PENDING") emptyWorld
           (mkPaymentBody (Some "APP1") (JS.Str "99") (Some "Asha Patil")
              (Some "a@b.com") (Some "9876543210") (Some "MO_1")) Hne).
Defined.

Lemma refused_requests_change_nothing_witness :
  code (fst (@serve sampleExternals (orderWorld completed 0 0)
               (sampleEnv 1000 "PENDING",
                PostInitiate (sampleInitiate "APP1" "MO_2" 99)))) = 409
  /\ snd (@serve sampleExternals (orderWorld completed 0 0)
            (sampleEnv 1000 "PENDING",
             PostInitiate (sampleInitiate "APP1" "MO_2" 99)))
     = orderWorld completed 0 0.
Proof.
  assert (H : code (fst (@serve sampleExternals (orderWorld completed 0 0)
                           (sampleEnv 1000 "PENDING",
                            PostInitiate (sampleInitiate "APP1" "MO_2" 99))))
              = 409) by (vm_compute; reflexivity).
  split; [exact H|].
  exact (@refused_requests_change_nothing sampleExternals _ _
           (or_intror (or_intror H))).
Defined.

Lemma repeated_reconciliation_changes_nothing_witness :
  gateway_answer (sampleEnv 1000 "COMPLETED")
    (linkedWorld app_pending pay_pending None initiated) "MO_1"
  = Some (samplePayment "APP1" "MO_1" initiated 0 0, statusOf "COMPLETED")
  /\ confirmation_emails
       (trace (snd (status_handler (sampleEnv 1000 "COMPLETED")
                      (snd (status_handler (sampleEnv 1000 "COMPLETED")
                              (linkedWorld app_pending pay_pending None
                                 initiated) "MO_1")) "MO_1")))
     = confirmation_emails
         (trace (snd (status_handler (sampleEnv 1000 "COMPLETED")
                        (linkedWorld app_pending pay_pending None initiated)
                        "MO_1"))).
Proof.
  split; [reflexivity|].
  pose proof (repeated_reconciliation_changes_nothing
                (sampleEnv 1000 "COMPLETED")
                (linkedWorld app_pending pay_pending None initiated) "MO_1"
                (samplePayment "APP1" "MO_1" initiated 0 0)
                (statusOf "COMPLETED") eq_refl) as H.
  cbv zeta in H. exact (proj2 (proj2 (proj2 H))).
Defined.

Lemma browser_stops_when_submission_is_refused_witness :
  validateFormData sampleForm (Some true) = Ok None
  /\ code (fst (@submit formExternals (sampleEnv 1000 "PENDING") applicantWorld
                  (applicationData sampleParseFloat sampleForm))) = 409
  /\ exists errorText,
      @submitForm formExternals sampleParseFloat sampleForm (Some true)
        "NF20250615123456ABC" "MO_1750000000000_abc_42" true
        (sampleEnv 1000 "PENDING") (sampleEnv 2000 "PENDING") applicantWorld
      = (Failed (ServerError
                   (code (fst (@submit formExternals (sampleEnv 1000 "PENDING")
                                 applicantWorld
                                 (applicationData sampleParseFloat sampleForm))))
                   errorText),
         snd (@submit formExternals (sampleEnv 1000 "PENDING") applicantWorld
                (applicationData sampleParseFloat sampleForm))).
Proof.
  split; [reflexivity|]. split; [vm_compute; reflexivity|].
  apply (proj2 (@browser_stops_when_submission_is_refused formExternals
                  sampleParseFloat sampleForm (Some true)
                  "NF20250615123456ABC" "MO_1750000000000_abc_42"
                  (sampleEnv 1000 "PENDING") (sampleEnv 2000 "PENDING")
                  applicantWorld) eq_refl).
  vm_compute. discriminate.
Defined.

Lemma form_order_is_not_linked_to_its_application_witness :
  fst (@submitForm formExternals sampleParseFloat sampleForm (Some true)
         "NF20250615123456ABC" "MO_1750000000000_abc_42" false
         (sampleEnv 1750000000000 "PENDING")
         (sampleEnv 1750000001000 "PENDING") emptyWorld)
  = Redirected "https://gateway.example/pay/OMO123" "NF20250615123456ABC"
      "MO_1750000000000_abc_42"
  /\ confirmation_emails
       (trace
          (snd (status_handler (sampleEnv 1750000900000 "COMPLETED")
                  (snd (@submitForm formExternals sampleParseFloat sampleForm
                          (Some true) "NF20250615123456ABC"
                          "MO_1750000000000_abc_42" false
                          (sampleEnv 1750000000000 "PENDING")
                          (sampleEnv 1750000001000 "PENDING") emptyWorld))
                  (JS.trim "MO_1750000000000_abc_42"))))
     = 0%nat.
Proof.
  split; [vm_compute; reflexivity|].
  assert (E : @submitForm formExternals sampleParseFloat sampleForm (Some true)
                "NF20250615123456ABC" "MO_1750000000000_abc_42" false
                (sampleEnv 1750000000000 "PENDING")
                (sampleEnv 1750000001000 "PENDING") emptyWorld
              = (Redirected "https://gateway.example/pay/OMO123"
                   "NF20250615123456ABC" "MO_1750000000000_abc_42",
                 snd (@submitForm formExternals sampleParseFloat sampleForm
                        (Some true) "NF20250615123456ABC"
                        "MO_1750000000000_abc_42" false
                        (sampleEnv 1750000000000 "PENDING")
                        (sampleEnv 1750000001000 "PENDING") emptyWorld)))
    by (vm_compute; reflexivity).
  pose proof (@form_order_is_not_linked_to_its_application formExternals
                _ _ _ _ _ _ _ _ _ _ _ _ _ E) as (_ & _ & _ & _ & H).
  assert (Hno : Application_findOne (JS.trim "NF20250615123456ABC")
                  (applications
                     (snd (@submitForm formExternals sampleParseFloat
                             sampleForm (Some true) "NF20250615123456ABC"
                             "MO_1750000000000_abc_42" false
                             (sampleEnv 1750000000000 "PENDING")
                             (sampleEnv 1750000001000 "PENDING") emptyWorld)))
                = None) by (vm_compute; reflexivity).
  destruct (H Hno (sampleEnv 1750000900000 "COMPLETED")) as (_ & He).
  rewrite He. vm_compute. reflexivity.
Defined.

